(** * chat.py: the session core of the terminal chat client

    A shallow embedding of [src/chat.py] (classes [ChatSettings] and
    [CHATGPT], [handle_command], [load_chat_history] and the body of the
    loop of [main]) together with the Python built-ins the code relies on
    ([str.strip], [str.lower], [str.split], [float], [str], [json.dump],
    [json.load]) and the markup of [rich] that decides whether
    [console.print] raises.

    Conventions of the embedding.
    - Python [str] is [string], the UTF-8 text. Module [Text] holds the
      [str] methods on ASCII text; on a text with a character outside
      ASCII, [str.lower], [str.strip], [str.split] and [float] follow the
      tables of Unicode, and module [Py] takes their results from a
      [Library] record, so that nothing is stated about them that Python
      does not do.
    - A message dictionary [{"role": r, "content": c}] is the record [Turn].
    - Python numbers are [Num.pynum]: an [int] or a binary64 [float].
    - A method is a computation in a state-and-exception monad [M]: a raised
      exception keeps the mutations performed before it, as in Python.
    - What the process cannot decide (the outcome of [requests.post], the
      clock, the answer typed at an interactive prompt, whether a file can
      be opened) is read from a [World] record.
    - [console.print] renders the markup of its text first and raises
      [MarkupError] where [rich.markup.render] does (module [Rich]).
    - The console and the log are the list of events the process has
      written. Of the completer and the key bindings, the completions
      offered and the action of the Enter key are embedded. The rendering
      of Markdown and the handling of the command line of [main] are not
      embedded. *)

From Stdlib Require Import ZArith String Ascii List Bool Lia.
From Stdlib Require Import DecimalString DecimalZ DecimalPos.
From Stdlib Require Import Floats.SpecFloat.
From stdpp Require Import gmap strings list.

Open Scope Z_scope.

(* ===================================================================== *)
(** * Text: the [str] methods used by the program *)
(* ===================================================================== *)

Module Text.

(** [c.isspace()] on the ASCII range: TAB, LF, VT, FF, CR, FS, GS, RS, US
    and the space. *)
Definition is_space (c : ascii) : bool :=
  let n := N_of_ascii c in
  ((9 <=? n)%N && (n <=? 13)%N) || ((28 <=? n)%N && (n <=? 32)%N).

Definition is_upper (c : ascii) : bool :=
  let n := N_of_ascii c in (65 <=? n)%N && (n <=? 90)%N.

Definition lower_char (c : ascii) : ascii :=
  if is_upper c then ascii_of_N (N_of_ascii c + 32) else c.

(** [s.lower()] *)
Fixpoint lower (s : string) : string :=
  match s with
  | EmptyString => EmptyString
  | String c s' => String (lower_char c) (lower s')
  end.

(** Removal of the leading and of the trailing characters that satisfy
    [sp]. *)
Fixpoint lstrip_with (sp : ascii -> bool) (s : string) : string :=
  match s with
  | EmptyString => EmptyString
  | String c s' => if sp c then lstrip_with sp s' else s
  end.

Fixpoint rstrip_with (sp : ascii -> bool) (s : string) : string :=
  match s with
  | EmptyString => EmptyString
  | String c s' =>
      match rstrip_with sp s' with
      | EmptyString => if sp c then EmptyString else String c EmptyString
      | r => String c r
      end
  end.

Definition strip_with (sp : ascii -> bool) (s : string) : string :=
  lstrip_with sp (rstrip_with sp s).

(** [s.strip()] *)
Definition strip (s : string) : string := strip_with is_space s.

(** [s.split()]: the maximal runs of non-space characters, in order.
    [word] is the run being read. *)
Fixpoint split_from (word : string) (s : string) : list string :=
  match s with
  | EmptyString => match word with EmptyString => [] | _ => [word] end
  | String c s' =>
      if is_space c
      then match word with
           | EmptyString => split_from EmptyString s'
           | _ => word :: split_from EmptyString s'
           end
      else split_from (word +:+ String c EmptyString) s'
  end.

Definition split (s : string) : list string := split_from EmptyString s.

(** [sep.join(l)] *)
Fixpoint join (sep : string) (l : list string) : string :=
  match l with
  | [] => EmptyString
  | [x] => x
  | x :: l' => x +:+ sep +:+ join sep l'
  end.

(** [s.startswith(p)] *)
Fixpoint startswith (s p : string) {struct p} : bool :=
  match p with
  | EmptyString => true
  | String a p' =>
      match s with
      | EmptyString => false
      | String b s' => Ascii.eqb a b && startswith s' p'
      end
  end.

(** [s.split('\n')[0]]: the text before the first line feed. *)
Fixpoint first_line (s : string) : string :=
  match s with
  | EmptyString => EmptyString
  | String c s' =>
      if (N_of_ascii c =? 10)%N then EmptyString else String c (first_line s')
  end.

Definition eqb (a b : string) : bool := String.eqb a b.

(** [x in l] for a list of strings *)
Definition mem (x : string) (l : list string) : bool :=
  existsb (String.eqb x) l.

End Text.

(* ===================================================================== *)
(** * Num: Python numbers, [float(text)] and [str(number)] *)
(* ===================================================================== *)

Module Num.

Inductive pynum :=
| PyInt (n : Z)
| PyFloat (x : spec_float).

Definition prec : Z := 53.
Definition emax : Z := 1024.

(** The binary64 nearest (ties to even) to [m * 10^k], for [0 <= m]. With a
    negative [k] the quotient is taken with at least 59 bits and one more
    bit that records a non-zero remainder. *)
Definition of_decimal (neg : bool) (m k : Z) : spec_float :=
  if m =? 0 then S754_zero neg
  else
    let sg := fun z : Z => if neg then - z else z in
    if 0 <=? k then binary_normalize prec emax (sg (m * 10 ^ k)) 0 neg
    else
      let den := 10 ^ (- k) in
      let s := Z.max 0 (Z.log2 den - Z.log2 m + 60) in
      let num := m * 2 ^ s in
      let q := num / den in
      let sticky := if num mod den =? 0 then 0 else 1 in
      binary_normalize prec emax (sg (2 * q + sticky)) (- s - 1) neg.

Definition is_digit (c : ascii) : bool :=
  let n := N_of_ascii c in (48 <=? n)%N && (n <=? 57)%N.

Definition digit_val (c : ascii) : Z := Z.of_N (N_of_ascii c) - 48.

Definition is_char (n : N) (c : ascii) : bool := (N_of_ascii c =? n)%N.

(** digit (["_"] digit)*, after its first digit has been seen *)
Fixpoint digits_tail (l : list ascii) : list ascii * list ascii :=
  match l with
  | [] => ([], [])
  | c :: l' =>
      if is_digit c then
        let '(ds, r) := digits_tail l' in (c :: ds, r)
      else if is_char 95 c then
        match l' with
        | d :: _ => if is_digit d then digits_tail l' else ([], l)
        | [] => ([], l)
        end
      else ([], l)
  end.

Definition digitpart (l : list ascii) : option (list ascii * list ascii) :=
  match l with
  | c :: _ => if is_digit c then Some (digits_tail l) else None
  | [] => None
  end.

Definition digits_value (ds : list ascii) : Z :=
  fold_left (fun acc c => 10 * acc + digit_val c) ds 0.

Definition sign (l : list ascii) : bool * list ascii :=
  match l with
  | c :: l' =>
      if is_char 45 c then (true, l')
      else if is_char 43 c then (false, l')
      else (false, l)
  | [] => (false, l)
  end.

(** number ::= [digitpart] "." digitpart | digitpart ["."]: the digits read
    as an integer, the power of ten to scale them by, and the rest. *)
Definition number (l : list ascii) : option (Z * Z * list ascii) :=
  match digitpart l with
  | Some (ip, r) =>
      match r with
      | c :: r' =>
          if is_char 46 c then
            match digitpart r' with
            | Some (fp, r'') =>
                Some (digits_value (ip ++ fp), - Z.of_nat (length fp), r'')
            | None => Some (digits_value ip, 0, r')
            end
          else Some (digits_value ip, 0, r)
      | [] => Some (digits_value ip, 0, r)
      end
  | None =>
      match l with
      | c :: r' =>
          if is_char 46 c then
            match digitpart r' with
            | Some (fp, r'') =>
                Some (digits_value fp, - Z.of_nat (length fp), r'')
            | None => None
            end
          else None
      | [] => None
      end
  end.

(** exponent ::= ("e" | "E") [sign] digitpart *)
Definition exponent (l : list ascii) : option (Z * list ascii) :=
  match l with
  | c :: r =>
      if is_char 101 c || is_char 69 c then
        let '(neg, r1) := sign r in
        match digitpart r1 with
        | Some (ds, r2) =>
            Some ((if neg then - digits_value ds else digits_value ds), r2)
        | None => None
        end
      else None
  | [] => None
  end.

(** C's [isspace] on the ASCII range: what [float] strips. *)
Definition c_isspace (c : ascii) : bool :=
  let n := N_of_ascii c in ((9 <=? n)%N && (n <=? 13)%N) || (n =? 32)%N.

(** [float(s)] for a [str] argument; [None] is [ValueError]. *)
Definition py_float (s : string) : option spec_float :=
  let l := list_ascii_of_string (Text.strip_with c_isspace s) in
  let '(neg, r) := sign l in
  let w := Text.lower (string_of_list_ascii r) in
  if Text.eqb w "inf" || Text.eqb w "infinity" then Some (S754_infinity neg)
  else if Text.eqb w "nan" then Some S754_nan
  else
    match number r with
    | None => None
    | Some (m, k, []) => Some (of_decimal neg m k)
    | Some (m, k, r1) =>
        match exponent r1 with
        | Some (e, []) => Some (of_decimal neg m (k + e))
        | _ => None
        end
    end.

(** ** [repr] of a float: the shortest decimal that reads back as it *)

(** The least [t], searched upwards from [t0], with [p / q < 10^t]. *)
Fixpoint decpt_from (fuel : nat) (p q t : Z) : Z :=
  match fuel with
  | O => t
  | S fuel' =>
      if (if 0 <=? t then p <? 10 ^ t * q else p * 10 ^ (- t) <? q)
      then t else decpt_from fuel' p q (t + 1)
  end.

(** [floor (p / (q * 10^k))] and whether the division is exact, then
    twice the remainder against the divisor. *)
Definition scaled (p q k : Z) : Z * comparison :=
  let '(n, d) := if 0 <=? k then (p, q * 10 ^ k) else (p * 10 ^ (- k), q) in
  (n / d, (2 * (n mod d)) ?= d).

Fixpoint strip_zeros (fuel : nat) (d k : Z) : Z * Z :=
  match fuel with
  | O => (d, k)
  | S fuel' => if d mod 10 =? 0 then strip_zeros fuel' (d / 10) (k + 1) else (d, k)
  end.

(** The [n]-digit decimals next to [x = p/q] that read back as [x]; the
    nearer one is preferred, the even one on a tie. *)
Definition candidate (x : spec_float) (p q decpt : Z) (n : Z) : option (Z * Z) :=
  let k := decpt - n in
  let '(lo, half) := scaled p q k in
  let ok := fun d => match SFcompare (of_decimal false d k) x with
                     | Some Eq => true | _ => false end in
  let pick_lo := ok lo && (0 <? lo) in
  let pick_hi := ok (lo + 1) in
  match pick_lo, pick_hi with
  | true, true =>
      match half with
      | Lt => Some (lo, k)
      | Gt => Some (lo + 1, k)
      | Eq => if Z.even lo then Some (lo, k) else Some (lo + 1, k)
      end
  | true, false => Some (lo, k)
  | false, true => Some (lo + 1, k)
  | false, false => None
  end.

Fixpoint shortest_from (fuel : nat) (x : spec_float) (p q decpt n : Z) : Z * Z :=
  match fuel with
  | O => let '(lo, half) := scaled p q (decpt - n) in
         ((match half with Lt => lo | _ => lo + 1 end), decpt - n)
  | S fuel' =>
      match candidate x p q decpt n with
      | Some r => r
      | None => shortest_from fuel' x p q decpt (n + 1)
      end
  end.

(** The digits [d] and the exponent [k] of the shortest decimal [d * 10^k]
    that reads back as the positive finite float [m * 2^e]. *)
Definition shortest (m : positive) (e : Z) : Z * Z :=
  let '(p, q) := if 0 <=? e then (Zpos m * 2 ^ e, 1) else (Zpos m, 2 ^ (- e)) in
  let decpt := decpt_from 700 p q (-330) in
  let '(d, k) := shortest_from 17 (S754_finite false m e) p q decpt 1 in
  strip_zeros 20 d k.

Definition str_of_Z (n : Z) : string := NilZero.string_of_int (Z.to_int n).

Fixpoint zeros (n : nat) : string :=
  match n with
  | O => EmptyString
  | S n' => String "0" (zeros n')
  end.

(** The [repr] layout of the digits [ds] with the decimal point after the
    first [decpt] of them: exponent notation when [decpt <= -4] or
    [16 < decpt], and [.0] added to a whole number. *)
Definition layout (ds : string) (decpt : Z) : string :=
  let nd := Z.of_nat (String.length ds) in
  if (decpt <=? -4) || (16 <? decpt) then
    let ex := decpt - 1 in
    let mant := match ds with
                | String c EmptyString => ds
                | String c rest => String c ("." +:+ rest)
                | EmptyString => ds
                end in
    let exs := str_of_Z (Z.abs ex) in
    let exs := if Z.abs ex <? 10 then "0" +:+ exs else exs in
    mant +:+ "e" +:+ (if ex <? 0 then "-" else "+") +:+ exs
  else if decpt <=? 0 then
    "0." +:+ zeros (Z.to_nat (- decpt)) +:+ ds
  else if decpt <? nd then
    String.substring 0 (Z.to_nat decpt) ds +:+ "." +:+
    String.substring (Z.to_nat decpt) (Z.to_nat (nd - decpt)) ds
  else
    ds +:+ zeros (Z.to_nat (decpt - nd)) +:+ ".0".

Definition float_repr (x : spec_float) : string :=
  match x with
  | S754_nan => "nan"
  | S754_infinity s => if s then "-inf" else "inf"
  | S754_zero s => if s then "-0.0" else "0.0"
  | S754_finite s m e =>
      let '(d, k) := shortest m e in
      let ds := str_of_Z d in
      (if s then "-" else EmptyString) +:+ layout ds (Z.of_nat (String.length ds) + k)
  end.

(** [str(x)] *)
Definition py_str (x : pynum) : string :=
  match x with
  | PyInt n => str_of_Z n
  | PyFloat f => float_repr f
  end.

(** [x == y] on numbers: the values are compared exactly. *)
Definition float_eq_Z (f : spec_float) (n : Z) : bool :=
  match f with
  | S754_zero _ => n =? 0
  | S754_finite s m e =>
      let v := if s then Zneg m else Zpos m in
      if 0 <=? e then v * 2 ^ e =? n else v =? n * 2 ^ (- e)
  | _ => false
  end.

Definition py_eq (x y : pynum) : bool :=
  match x, y with
  | PyInt a, PyInt b => a =? b
  | PyFloat f, PyFloat g => SFeqb f g
  | PyInt a, PyFloat f => float_eq_Z f a
  | PyFloat f, PyInt a => float_eq_Z f a
  end.

(** [c in s], and the mark of the text of a float: a point, an [e] or an
    [n] (of [inf] and [nan]). *)
Fixpoint has_char (c : ascii) (s : string) : bool :=
  match s with
  | EmptyString => false
  | String d s' => Ascii.eqb c d || has_char c s'
  end.

Definition float_marked (s : string) : bool :=
  has_char "." s || has_char "e" s || has_char "n" s.

End Num.

(* ===================================================================== *)
(** * Json: [json.dump(obj, f, ensure_ascii=False, indent=4)] and
      [json.load] *)
(* ===================================================================== *)

Module Json.

#[warnings="-register-all"]
Inductive json :=
| JNull
| JBool (b : bool)
| JNum (n : Num.pynum)
| JStr (s : string)
| JArr (items : list json)
| JObj (pairs : list (string * json)).

(** ** Encoding *)

Definition hex_digit (n : N) : ascii :=
  if (n <? 10)%N then ascii_of_N (48 + n) else ascii_of_N (87 + n).

(** One character of a string literal: the two-character escapes, [\u00XX]
    for the other control characters, the character itself otherwise. *)
Definition encode_char (c : ascii) : string :=
  let n := N_of_ascii c in
  if (n =? 34)%N then String "\" (String c EmptyString)
  else if (n =? 92)%N then "\\"
  else if (n =? 10)%N then "\n"
  else if (n =? 13)%N then "\r"
  else if (n =? 9)%N then "\t"
  else if (n =? 8)%N then "\b"
  else if (n =? 12)%N then "\f"
  else if (n <? 32)%N then
    "\u00" +:+ String (hex_digit (n / 16)) (String (hex_digit (n mod 16)) EmptyString)
  else String c EmptyString.

Fixpoint encode_chars (s : string) : string :=
  match s with
  | EmptyString => EmptyString
  | String c s' => encode_char c +:+ encode_chars s'
  end.

Definition quote : ascii := ascii_of_N 34.

Definition encode_string (s : string) : string :=
  String quote (encode_chars s +:+ String quote EmptyString).

Definition LF : ascii := ascii_of_N 10.

Fixpoint spaces (n : nat) : string :=
  match n with
  | O => EmptyString
  | S n' => String " " (spaces n')
  end.

(** The line break before an item at nesting [level], with [indent=4]. *)
Definition newline_indent (level : nat) : string :=
  String LF (spaces (4 * level)).

Definition encode_float (x : spec_float) : string :=
  match x with
  | S754_nan => "NaN"
  | S754_infinity s => if s then "-Infinity" else "Infinity"
  | _ => Num.float_repr x
  end.

Definition encode_num (n : Num.pynum) : string :=
  match n with
  | Num.PyInt z => Num.str_of_Z z
  | Num.PyFloat x => encode_float x
  end.

Fixpoint dumps_at (level : nat) (j : json) : string :=
  match j with
  | JNull => "null"
  | JBool b => if b then "true" else "false"
  | JNum n => encode_num n
  | JStr s => encode_string s
  | JArr [] => "[]"
  | JArr items =>
      "[" +:+ newline_indent (S level) +:+
      Text.join ("," +:+ newline_indent (S level))
                (map (dumps_at (S level)) items) +:+
      newline_indent level +:+ "]"
  | JObj [] => "{}"
  | JObj pairs =>
      "{" +:+ newline_indent (S level) +:+
      Text.join ("," +:+ newline_indent (S level))
                (map (fun kv => let '(k, v) := kv in
                                encode_string k +:+ ": " +:+ dumps_at (S level) v)
                     pairs) +:+
      newline_indent level +:+ "}"
  end.

(** [json.dumps(obj, ensure_ascii=False, indent=4)] *)
Definition dumps (j : json) : string := dumps_at 0 j.


(** ** Decoding *)

Definition is_ws (c : ascii) : bool :=
  let n := N_of_ascii c in
  (n =? 32)%N || (n =? 9)%N || (n =? 10)%N || (n =? 13)%N.

Fixpoint skip_ws (s : string) : string :=
  match s with
  | String c s' => if is_ws c then skip_ws s' else s
  | EmptyString => EmptyString
  end.

Definition hex_val (c : ascii) : option N :=
  let n := N_of_ascii c in
  if (48 <=? n)%N && (n <=? 57)%N then Some (n - 48)%N
  else if (97 <=? n)%N && (n <=? 102)%N then Some (n - 87)%N
  else if (65 <=? n)%N && (n <=? 70)%N then Some (n - 55)%N
  else None.

Definition hex4 (a b c d : ascii) : option N :=
  match hex_val a, hex_val b, hex_val c, hex_val d with
  | Some x, Some y, Some z, Some w => Some (((x * 16 + y) * 16 + z) * 16 + w)%N
  | _, _, _, _ => None
  end.

(** [chr(n)] in the UTF-8 text of the model. *)
Definition chr (n : N) : string :=
  let byte := fun k : N => String (ascii_of_N k) EmptyString in
  (if n <? 128 then byte n
   else if n <? 2048 then byte (192 + n / 64) +:+ byte (128 + n mod 64)
   else if n <? 65536 then
     byte (224 + n / 4096) +:+ byte (128 + (n / 64) mod 64) +:+
     byte (128 + n mod 64)
   else
     byte (240 + n / 262144) +:+ byte (128 + (n / 4096) mod 64) +:+
     byte (128 + (n / 64) mod 64) +:+ byte (128 + n mod 64))%N.

Definition is_backslash (c : ascii) : bool := (N_of_ascii c =? 92)%N.
Definition is_quote (c : ascii) : bool := (N_of_ascii c =? 34)%N.

(** The character a two-character escape stands for. *)
Definition unescape (c : ascii) : option ascii :=
  let n := N_of_ascii c in
  if (n =? 34)%N || (n =? 92)%N || (n =? 47)%N then Some c
  else if (n =? 98)%N then Some (ascii_of_N 8)
  else if (n =? 102)%N then Some (ascii_of_N 12)
  else if (n =? 110)%N then Some (ascii_of_N 10)
  else if (n =? 114)%N then Some (ascii_of_N 13)
  else if (n =? 116)%N then Some (ascii_of_N 9)
  else None.

(** The second half of a surrogate pair, when the text goes on with one. *)
Definition low_surrogate (s : string) : option (option (N * string)) :=
  match s with
  | String e (String u r) =>
      if is_backslash e && (N_of_ascii u =? 117)%N then
        match r with
        | String a (String b (String c (String d r')) )=>
            match hex4 a b c d with
            | Some lo => Some (Some (lo, r'))
            | None => None
            end
        | _ => None
        end
      else Some None
  | _ => Some None
  end.

(** [scanstring], strict, from the character after the opening quote: the
    string and the text after its closing quote. *)
Fixpoint scanstring (s : string) : option (string * string) :=
  match s with
  | EmptyString => None
  | String c s' =>
      if is_quote c then Some (EmptyString, s')
      else if is_backslash c then
        match s' with
        | EmptyString => None
        | String e s'' =>
            if (N_of_ascii e =? 117)%N then
              match s'' with
              | String a (String b (String c1 (String d r))) =>
                  match hex4 a b c1 d with
                  | None => None
                  | Some uni =>
                      if (55296 <=? uni)%N && (uni <=? 56319)%N then
                        match low_surrogate r with
                        | None => None
                        | Some (Some (lo, r')) =>
                            if (56320 <=? lo)%N && (lo <=? 57343)%N then
                              match r with
                              | String _ (String _ (String _ (String _ (String _ (String _ r2))))) =>
                                  match scanstring r2 with
                                  | Some (t, rest) =>
                                      Some (chr (65536 + ((uni - 55296) * 1024 + (lo - 56320))) +:+ t, rest)
                                  | None => None
                                  end
                              | _ => None
                              end
                            else
                              match scanstring r with
                              | Some (t, rest) => Some (chr uni +:+ t, rest)
                              | None => None
                              end
                        | Some None =>
                            match scanstring r with
                            | Some (t, rest) => Some (chr uni +:+ t, rest)
                            | None => None
                            end
                        end
                      else
                        match scanstring r with
                        | Some (t, rest) => Some (chr uni +:+ t, rest)
                        | None => None
                        end
                  end
              | _ => None
              end
            else
              match unescape e with
              | None => None
              | Some x =>
                  match scanstring s'' with
                  | Some (t, rest) => Some (String x t, rest)
                  | None => None
                  end
              end
        end
      else if (N_of_ascii c <? 32)%N then None
      else
        match scanstring s' with
        | Some (t, rest) => Some (String c t, rest)
        | None => None
        end
  end.

(** The leading decimal digits of a text and what follows them. *)
Fixpoint span_digits (s : string) : string * string :=
  match s with
  | String c s' =>
      if Num.is_digit c then let '(d, r) := span_digits s' in (String c d, r)
      else (EmptyString, s)
  | EmptyString => (EmptyString, EmptyString)
  end.

(** The number at the head of a text, as the decoder's regular expression
    matches it: an optional minus sign, then a single zero or a digit string
    that does not start with zero; then optionally a point and digits; then
    optionally [e] or [E], an optional sign and digits. The result is the
    integer part, the fraction and exponent (empty when absent) and the
    rest. *)
Definition match_number (s : string) : option (string * string * string) :=
  let '(sg, s1) :=
    match s with
    | String c s' => if Num.is_char 45 c then ("-", s') else (EmptyString, s)
    | EmptyString => (EmptyString, s)
    end in
  let int_part :=
    match s1 with
    | String c s' =>
        if Num.is_char 48 c then Some ("0", s')
        else if Num.is_digit c then Some (span_digits s1)
        else None
    | EmptyString => None
    end in
  match int_part with
  | None => None
  | Some (ip, s2) =>
      let '(frac, s3) :=
        match s2 with
        | String c s' =>
            if Num.is_char 46 c then
              match span_digits s' with
              | (EmptyString, _) => (EmptyString, s2)
              | (d, r) => (String c d, r)
              end
            else (EmptyString, s2)
        | EmptyString => (EmptyString, s2)
        end in
      let '(ex, s4) :=
        match s3 with
        | String c s' =>
            if Num.is_char 101 c || Num.is_char 69 c then
              let '(esg, s'') :=
                match s' with
                | String g t =>
                    if Num.is_char 45 g || Num.is_char 43 g
                    then (String g EmptyString, t) else (EmptyString, s')
                | EmptyString => (EmptyString, s')
                end in
              match span_digits s'' with
              | (EmptyString, _) => (EmptyString, s3)
              | (d, r) => (String c (esg +:+ d), r)
              end
            else (EmptyString, s3)
        | EmptyString => (EmptyString, s3)
        end in
      Some (sg +:+ ip, frac +:+ ex, s4)
  end.

(** [int(text)] for an optional minus sign and decimal digits. *)
Definition int_of_lexeme (s : string) : Z :=
  match s with
  | String c s' =>
      if Num.is_char 45 c then - Num.digits_value (list_ascii_of_string s')
      else Num.digits_value (list_ascii_of_string s)
  | EmptyString => 0
  end.

(** A Python [dict] built from pairs: a key met again keeps its place and
    takes the new value. *)
Fixpoint dict_set (k : string) (v : json) (d : list (string * json))
  : list (string * json) :=
  match d with
  | [] => [(k, v)]
  | (k', v') :: d' =>
      if String.eqb k k' then (k, v) :: d' else (k', v') :: dict_set k v d'
  end.

Definition dict_of_pairs (l : list (string * json)) : list (string * json) :=
  fold_left (fun d kv => dict_set (fst kv) (snd kv) d) l [].

Definition starts (p s : string) : option string :=
  if String.prefix p s
  then Some (String.substring (String.length p) (String.length s - String.length p) s)
  else None.

(** The three parts of the decoder, each given the parts it calls:
    [value_step] is [scan_once], [array_step] is the loop of [JSONArray]
    from the point where a value is due, [object_step] is the loop of
    [JSONObject] from the character after the opening quote of a key. *)
Definition value_step
    (object_loop : string -> option (list (string * json) * string))
    (array_loop : string -> option (list json * string))
    (s : string) : option (json * string) :=
  match s with
  | EmptyString => None
  | String c s' =>
      let n := N_of_ascii c in
      if (n =? 34)%N then
        match scanstring s' with
        | Some (t, r) => Some (JStr t, r)
        | None => None
        end
      else if (n =? 123)%N then
        match skip_ws s' with
        | String c1 r1 =>
            if (N_of_ascii c1 =? 125)%N then Some (JObj [], r1)
            else if is_quote c1 then
              match object_loop r1 with
              | Some (kvs, r) => Some (JObj (dict_of_pairs kvs), r)
              | None => None
              end
            else None
        | EmptyString => None
        end
      else if (n =? 91)%N then
        match skip_ws s' with
        | String c1 r1 =>
            if (N_of_ascii c1 =? 93)%N then Some (JArr [], r1)
            else
              match array_loop (String c1 r1) with
              | Some (vs, r) => Some (JArr vs, r)
              | None => None
              end
        | EmptyString => None
        end
      else
        match starts "null" s, starts "true" s, starts "false" s with
        | Some r, _, _ => Some (JNull, r)
        | _, Some r, _ => Some (JBool true, r)
        | _, _, Some r => Some (JBool false, r)
        | None, None, None =>
            match match_number s with
            | Some (ip, EmptyString, r) => Some (JNum (Num.PyInt (int_of_lexeme ip)), r)
            | Some (ip, fe, r) =>
                match Num.py_float (ip +:+ fe) with
                | Some x => Some (JNum (Num.PyFloat x), r)
                | None => None
                end
            | None =>
                match starts "NaN" s, starts "Infinity" s, starts "-Infinity" s with
                | Some r, _, _ => Some (JNum (Num.PyFloat S754_nan), r)
                | _, Some r, _ => Some (JNum (Num.PyFloat (S754_infinity false)), r)
                | _, _, Some r => Some (JNum (Num.PyFloat (S754_infinity true)), r)
                | None, None, None => None
                end
            end
        end
  end.

Definition array_step
    (scan_once : string -> option (json * string))
    (array_loop : string -> option (list json * string))
    (s : string) : option (list json * string) :=
  match scan_once s with
  | None => None
  | Some (v, r) =>
      match skip_ws r with
      | String c r1 =>
          if (N_of_ascii c =? 93)%N then Some ([v], r1)
          else if (N_of_ascii c =? 44)%N then
            match array_loop (skip_ws r1) with
            | Some (vs, r2) => Some (v :: vs, r2)
            | None => None
            end
          else None
      | EmptyString => None
      end
  end.

Definition object_step
    (scan_once : string -> option (json * string))
    (object_loop : string -> option (list (string * json) * string))
    (s : string) : option (list (string * json) * string) :=
  match scanstring s with
  | None => None
  | Some (k, r) =>
      match skip_ws r with
      | String c r1 =>
          if (N_of_ascii c =? 58)%N then
            match scan_once (skip_ws r1) with
            | None => None
            | Some (v, r2) =>
                match skip_ws r2 with
                | String c2 r3 =>
                    if (N_of_ascii c2 =? 125)%N then Some ([(k, v)], r3)
                    else if (N_of_ascii c2 =? 44)%N then
                      match skip_ws r3 with
                      | String c3 r4 =>
                          if is_quote c3 then
                            match object_loop r4 with
                            | Some (kvs, r5) => Some ((k, v) :: kvs, r5)
                            | None => None
                            end
                          else None
                      | EmptyString => None
                      end
                    else None
                | EmptyString => None
                end
            end
          else None
      | EmptyString => None
      end
  end.

(** The decoder, with a bound on the depth of its calls. *)
Fixpoint scan_once (fuel : nat) (s : string) : option (json * string) :=
  match fuel with
  | O => None
  | S fuel' => value_step (object_loop fuel') (array_loop fuel') s
  end
with array_loop (fuel : nat) (s : string) : option (list json * string) :=
  match fuel with
  | O => None
  | S fuel' => array_step (scan_once fuel') (array_loop fuel') s
  end
with object_loop (fuel : nat) (s : string)
  : option (list (string * json) * string) :=
  match fuel with
  | O => None
  | S fuel' => object_step (scan_once fuel') (object_loop fuel') s
  end.

(** [json.loads(s)]; [None] is [json.JSONDecodeError]. A value of [n]
    characters needs fewer than [n + 1] nested calls. *)
Definition loads (s : string) : option json :=
  match scan_once (S (String.length s)) (skip_ws s) with
  | Some (v, r) =>
      match skip_ws r with
      | EmptyString => Some v
      | _ => None
      end
  | None => None
  end.

End Json.

(* ===================================================================== *)
(** * Text outside ASCII, and the markup of rich *)
(* ===================================================================== *)

(** What the libraries decide and the embedding does not compute: the
    results of [str.lower], [str.strip], [str.split] and [float] on a text
    with a character outside ASCII; [Style.normalize] of rich, which gives a
    style name its canonical form; and the message of the [MarkupError]
    that [render] raises when it evaluates the parameters of a closed
    [@] tag ([None] when they evaluate). *)
Record Library := {
  unicode_lower : string -> string;
  unicode_strip : string -> string;
  unicode_split : string -> list string;
  unicode_float : string -> option spec_float;
  style_normalize : string -> string;
  meta_error : string -> option string
}.

Definition is_ascii_char (c : ascii) : bool := (N_of_ascii c <? 128)%N.

Fixpoint is_ascii (s : string) : bool :=
  match s with
  | EmptyString => true
  | String c s' => is_ascii_char c && is_ascii s'
  end.

(** The [str] methods and [float] on any text. *)
Module Py.

Definition lower (lib : Library) (s : string) : string :=
  if is_ascii s then Text.lower s else unicode_lower lib s.

Definition strip (lib : Library) (s : string) : string :=
  if is_ascii s then Text.strip s else unicode_strip lib s.

Definition split (lib : Library) (s : string) : list string :=
  if is_ascii s then Text.split s else unicode_split lib s.

Definition float (lib : Library) (s : string) : option spec_float :=
  if is_ascii s then Num.py_float s else unicode_float lib s.

End Py.

Module Rich.

(** The characters a tag may begin with: [a-z#/@]. *)
Definition is_tag_start (c : ascii) : bool :=
  let n := N_of_ascii c in
  ((97 <=? n)%N && (n <=? 122)%N) || (n =? 35)%N || (n =? 47)%N || (n =? 64)%N.

(** The text up to the first [']'], when no ['['] comes before it. *)
Fixpoint tag_rest (s : string) : option string :=
  match s with
  | EmptyString => None
  | String c s' =>
      if (N_of_ascii c =? 93)%N then Some EmptyString
      else if (N_of_ascii c =? 91)%N then None
      else match tag_rest s' with
           | Some t => Some (String c t)
           | None => None
           end
  end.

(** [tag_text] of a match of [RE_TAGS] whose ['['] has just been read. *)
Definition tag_text (s : string) : option string :=
  match s with
  | EmptyString => None
  | String c s' =>
      if is_tag_start c then
        match tag_rest s' with
        | Some t => Some (String c t)
        | None => None
        end
      else None
  end.

(** A byte that continues a UTF-8 sequence: it starts no character. *)
Definition is_continuation (c : ascii) : bool :=
  let n := N_of_ascii c in (128 <=? n)%N && (n <? 192)%N.

(** [_parse]: the tags of the markup, each with the index (in characters)
    of its ['[']. [escapes] counts the backslashes just read, [skip] the
    bytes of the match being left. *)
Fixpoint parse (s : string) (position escapes skip : nat) : list (nat * string) :=
  match s with
  | EmptyString => []
  | String c s' =>
      let next := if is_continuation c then position else S position in
      match skip with
      | S k => parse s' next 0%nat k
      | O =>
          if (N_of_ascii c =? 92)%N then parse s' next (S escapes) 0%nat
          else if (N_of_ascii c =? 91)%N then
            match tag_text s' with
            | Some t =>
                if Nat.odd escapes then parse s' next 0%nat (S (String.length t))
                else (position, t) :: parse s' next 0%nat (S (String.length t))
            | None => parse s' next 0%nat 0%nat
            end
          else parse s' next 0%nat 0%nat
      end
  end.

(** [tag_text.partition("=")] *)
Fixpoint partition (s : string) : string * option string :=
  match s with
  | EmptyString => (EmptyString, None)
  | String c s' =>
      if (N_of_ascii c =? 61)%N then (EmptyString, Some s')
      else let (name, parameters) := partition s' in (String c name, parameters)
  end.

(** [pop_style]: the stack without its topmost tag of the given name. *)
Fixpoint pop_style (style_name : string) (stack : list (string * option string))
  : option ((string * option string) * list (string * option string)) :=
  match stack with
  | [] => None
  | tag :: stack' =>
      if String.eqb (fst tag) style_name then Some (tag, stack')
      else match pop_style style_name stack' with
           | Some (found, rest) => Some (found, tag :: rest)
           | None => None
           end
  end.

Definition truthy (parameters : option string) : option string :=
  match parameters with
  | Some EmptyString | None => None
  | Some p => Some p
  end.

(** What closing [open_tag] raises: the parameters of a tag whose name
    begins with [@] are evaluated. *)
Definition close (lib : Library) (open_tag : string * option string) : option string :=
  match truthy (snd open_tag) with
  | Some parameters =>
      if Text.startswith (fst open_tag) "@" then meta_error lib parameters else None
  | None => None
  end.

Definition decimal (n : nat) : string := NilZero.string_of_uint (Nat.to_uint n).

(** The loop of [render] over the tags: [Some] is the message of the
    [MarkupError] raised. *)
Fixpoint render_tags (lib : Library) (tags : list (nat * string))
    (stack : list (string * option string)) : option string :=
  match tags with
  | [] => None
  | (position, text) :: tags' =>
      let (name, parameters) := partition text in
      if Text.startswith name "/" then
        let style_name := Py.strip lib (String.substring 1 (String.length name) name) in
        match style_name with
        | EmptyString =>
            match stack with
            | [] => Some ("closing tag '[/]' at position " +:+ decimal position +:+
                          " has nothing to close")
            | open_tag :: stack' =>
                match close lib open_tag with
                | Some message => Some message
                | None => render_tags lib tags' stack'
                end
            end
        | _ =>
            match pop_style (style_normalize lib style_name) stack with
            | None => Some ("closing tag '[" +:+ text +:+ "]' at position " +:+
                            decimal position +:+ " doesn't match any open tag")
            | Some (open_tag, stack') =>
                match close lib open_tag with
                | Some message => Some message
                | None => render_tags lib tags' stack'
                end
            end
        end
      else render_tags lib tags' ((style_normalize lib name, parameters) :: stack)
  end.

(** [render(markup)]: [None] when the markup renders, the message of the
    [MarkupError] otherwise. *)
Definition render (lib : Library) (markup : string) : option string :=
  render_tags lib (parse markup 0 0 0) [].

End Rich.

(* ===================================================================== *)
(** * Exceptions, the world and the process state *)
(* ===================================================================== *)

(** The exception classes the program can meet. [RequestException] stands
    for any class of [requests.exceptions] not listed on its own
    (connection errors, connect time-outs, ...) and [OtherException] for any
    other subclass of [Exception]. [requests_JSONDecodeError] is what
    [response.json()] raises on a body that is not JSON; since requests 2.27
    it is a subclass of [RequestException]. [MarkupError] is what
    [console.print] raises on markup that does not render. *)
Inductive exn :=
| KeyboardInterrupt
| SystemExit
| EOFError
| KeyError (key : string)
| IndexError
| ValueError
| FileNotFoundError
| OSError (msg : string)
| json_JSONDecodeError
| ReadTimeout (msg : string)
| HTTPError (msg : string)
| requests_JSONDecodeError (msg : string)
| RequestException (msg : string)
| MarkupError (msg : string)
| OtherException (msg : string).

(** [isinstance(e, requests.exceptions.RequestException)] *)
Definition is_RequestException (e : exn) : bool :=
  match e with
  | ReadTimeout _ | HTTPError _ | requests_JSONDecodeError _
  | RequestException _ => true
  | _ => false
  end.

Definition is_ReadTimeout (e : exn) : bool :=
  match e with ReadTimeout _ => true | _ => false end.

Definition is_KeyboardInterrupt (e : exn) : bool :=
  match e with KeyboardInterrupt => true | _ => false end.

Definition is_EOFError (e : exn) : bool :=
  match e with EOFError => true | _ => false end.

Definition is_FileNotFoundError (e : exn) : bool :=
  match e with FileNotFoundError => true | _ => false end.

Definition is_json_JSONDecodeError (e : exn) : bool :=
  match e with json_JSONDecodeError => true | _ => false end.

(** [isinstance(e, Exception)]: everything but the two direct subclasses of
    [BaseException]. *)
Definition is_Exception (e : exn) : bool :=
  match e with
  | KeyboardInterrupt | SystemExit => false
  | _ => true
  end.

(** [str(e)] *)
Definition exn_str (e : exn) : string :=
  match e with
  | KeyError k => "'" +:+ k +:+ "'"
  | OSError m | ReadTimeout m | HTTPError m | requests_JSONDecodeError m
  | RequestException m | MarkupError m | OtherException m => m
  | IndexError => "list index out of range"
  | _ => EmptyString
  end.

Inductive outcome (A : Type) :=
| Returns (a : A)
| Raises (e : exn).
Arguments Returns {A} a.
Arguments Raises {A} e.

(** One message of the conversation: [{"role": role, "content": content}]. *)
Record Turn := { role : string; content : string }.

(** The body of a response as far as the program reads it: each field is
    what the subscripts of that path evaluate to, the value found or the
    exception of the first subscript that fails ([KeyError] with the
    missing key, [IndexError] on an empty list of choices). *)
Record payload := {
  error_message : outcome string;     (* ['error']['message'] *)
  usage_total_tokens : outcome Z;     (* ["usage"]["total_tokens"] *)
  choices_0_message : outcome Turn    (* ["choices"][0]["message"] *)
}.

Record response := {
  status_code : Z;
  http_error_msg : string;
       (* the message of the [HTTPError] that [raise_for_status] raises *)
  response_json : outcome payload     (* [response.json()] *)
}.

(** What one turn of the loop reads from outside the process. *)
Record World := {
  requests_post : outcome response;          (* [requests.post(...)] *)
  now : string;        (* [datetime.now().strftime("%Y-%m-%d_%H,%M,%S")] *)
  sys_path_0 : string;                       (* [sys.path[0]] *)
  prompt : string -> string -> outcome string;
                       (* [prompt(message, default=...)]: the text typed *)
  session_prompt : outcome string;           (* [session.prompt('> ')] *)
  can_open_w : string -> bool;               (* [open(path, 'w')] succeeds *)
  open_r : string -> option exn;
       (* what [open(path, 'r')], the read and the decoder raise on a file
          that exists, [JSONDecodeError] apart: [PermissionError],
          [IsADirectoryError], [UnicodeDecodeError], [RecursionError] *)
  python : Library
}.

Inductive event :=
| ConsolePrint (text : string)       (* [console.print(text)] *)
| ConsoleMarkdown (text : string)    (* [console.print(Markdown(text))] *)
| Print (text : string)              (* [print(text)] *)
| LogError (text : string)           (* [log.error], [log.exception] *)
| LogInfo (text : string).           (* [log.info] *)

(** The fields of a [CHATGPT] object that change; [api_key], [endpoint]
    and [headers] are set once and only shape the request. *)
Record CHATGPT := {
  messages : list Turn;
  total_tokens : Z;
  current_tokens : Z
}.

Record ChatSettings := {
  raw_mode : bool;
  multi_line_mode : bool;
  timeout : Num.pynum
}.

Record Process := {
  chatGPT : CHATGPT;
  chat_settings : ChatSettings;
  files : gmap string string;
  output : list event
}.

(** ** The monad of methods *)

Definition M (A : Type) : Type := World -> Process -> outcome A * Process.

Definition ret {A} (a : A) : M A := fun _ p => (Returns a, p).

Definition bind {A B} (c : M A) (k : A -> M B) : M B :=
  fun w p =>
    match c w p with
    | (Returns a, p') => k a w p'
    | (Raises e, p') => (Raises e, p')
    end.

Definition raise {A} (e : exn) : M A := fun _ p => (Raises e, p).

(** [try: body except ...: handler]; the handler decides by itself which
    exceptions it lets through. *)
Definition try_except {A} (body : M A) (handler : exn -> M A) : M A :=
  fun w p =>
    match body w p with
    | (Returns a, p') => (Returns a, p')
    | (Raises e, p') => handler e w p'
    end.

Definition ask : M World := fun w p => (Returns w, p).
Definition get : M Process := fun _ p => (Returns p, p).
Definition put (p : Process) : M unit := fun _ _ => (Returns tt, p).

(** What the world answers, as a value or as a raised exception. *)
Definition perform {A} (f : World -> outcome A) : M A := fun w p => (f w, p).

Declare Scope monad_scope.
Delimit Scope monad_scope with monad.
Notation "x <- c1 ;; c2" := (bind c1 (fun x => c2))
  (at level 100, c1 at next level, right associativity) : monad_scope.
Notation "c1 ;; c2" := (bind c1 (fun _ => c2))
  (at level 100, right associativity) : monad_scope.
Open Scope monad_scope.

Definition with_chatGPT (f : CHATGPT -> CHATGPT) : M unit :=
  fun _ p => (Returns tt,
              {| chatGPT := f (chatGPT p); chat_settings := chat_settings p;
                 files := files p; output := output p |}).

Definition with_settings (f : ChatSettings -> ChatSettings) : M unit :=
  fun _ p => (Returns tt,
              {| chatGPT := chatGPT p; chat_settings := f (chat_settings p);
                 files := files p; output := output p |}).

Definition emit (e : event) : M unit :=
  fun _ p => (Returns tt,
              {| chatGPT := chatGPT p; chat_settings := chat_settings p;
                 files := files p; output := output p ++ [e] |}).

(** [console.print(text)]: the markup is rendered before anything is
    written. *)
Definition console_print (text : string) : M unit :=
  w <- ask ;;
  match Rich.render (python w) text with
  | Some message => raise (MarkupError message)
  | None => emit (ConsolePrint text)
  end.
Definition log_error (text : string) : M unit := emit (LogError text).
Definition log_exception (e : exn) : M unit := emit (LogError (exn_str e)).
Definition log_info (text : string) : M unit := emit (LogInfo text).

Definition set_messages (l : list Turn) (g : CHATGPT) : CHATGPT :=
  {| messages := l; total_tokens := total_tokens g;
     current_tokens := current_tokens g |}.

(** [self.messages.append(t)] *)
Definition messages_append (t : Turn) : M unit :=
  with_chatGPT (fun g => set_messages (messages g ++ [t]) g).

(** [self.messages.pop()] *)
Definition messages_pop : M Turn :=
  p <- get ;;
  match last (messages (chatGPT p)) with
  | None => raise IndexError
  | Some t =>
      with_chatGPT (fun g => set_messages (removelast (messages g)) g) ;;
      ret t
  end.

(** [messages[0]] and [messages[-1]] *)
Definition messages_first : M Turn :=
  p <- get ;;
  match messages (chatGPT p) with
  | t :: _ => ret t
  | [] => raise IndexError
  end.

Definition messages_last : M Turn :=
  p <- get ;;
  match last (messages (chatGPT p)) with
  | Some t => ret t
  | None => raise IndexError
  end.

(** [open(filename, 'w')] followed by the write of [text]. *)
Definition write_file (filename text : string) : M unit :=
  w <- ask ;;
  if can_open_w w filename then
    fun _ p => (Returns tt,
                {| chatGPT := chatGPT p; chat_settings := chat_settings p;
                   files := <[filename := text]> (files p);
                   output := output p |})
  else raise (OSError filename).

(** [open(file_path, 'r')] followed by [f.read()]. *)
Definition read_file (file_path : string) : M string :=
  p <- get ;;
  match files p !! file_path with
  | Some text =>
      w <- ask ;;
      match open_r w file_path with
      | Some e => raise e
      | None => ret text
      end
  | None => raise FileNotFoundError
  end.

(** ** Messages as JSON *)

Definition json_of_turn (t : Turn) : Json.json :=
  Json.JObj [("role", Json.JStr (role t)); ("content", Json.JStr (content t))].

Definition json_of_messages (l : list Turn) : Json.json :=
  Json.JArr (map json_of_turn l).

Definition dict_get (k : string) (d : list (string * Json.json)) : option Json.json :=
  match find (fun kv => String.eqb k (fst kv)) d with
  | Some kv => Some (snd kv)
  | None => None
  end.

(** The (role, content) pair of a decoded message. *)
Definition turn_of_json (j : Json.json) : option Turn :=
  match j with
  | Json.JObj d =>
      match dict_get "role" d, dict_get "content" d with
      | Some (Json.JStr r), Some (Json.JStr c) => Some {| role := r; content := c |}
      | _, _ => None
      end
  | _ => None
  end.

Fixpoint turns_of_list (l : list Json.json) : option (list Turn) :=
  match l with
  | [] => Some []
  | j :: l' =>
      match turn_of_json j, turns_of_list l' with
      | Some t, Some ts => Some (t :: ts)
      | _, _ => None
      end
  end.

(** The ordered (role, content) pairs of a decoded chat history. *)
Definition turns_of_json (j : Json.json) : option (list Turn) :=
  match j with
  | Json.JArr l => turns_of_list l
  | _ => None
  end.

(* ===================================================================== *)
(** * The program *)
(* ===================================================================== *)

(** ** class ChatSettings *)

Definition ChatSettings_init (timeout0 : Num.pynum) : ChatSettings :=
  {| raw_mode := false; multi_line_mode := false; timeout := timeout0 |}.

Definition toggle_raw_mode : M unit :=
  with_settings (fun s => {| raw_mode := negb (raw_mode s);
                             multi_line_mode := multi_line_mode s;
                             timeout := timeout s |}) ;;
  p <- get ;;
  console_print ("[dim]Raw mode " +:+
                 (if raw_mode (chat_settings p) then "enabled" else "disabled") +:+
                 ", use `/last` to display the last answer.").

Definition toggle_multi_line_mode : M unit :=
  with_settings (fun s => {| raw_mode := raw_mode s;
                             multi_line_mode := negb (multi_line_mode s);
                             timeout := timeout s |}) ;;
  p <- get ;;
  if multi_line_mode (chat_settings p) then
    console_print "[dim]Multi-line mode enabled, press [[bright_magenta]Esc[/]] + [[bright_magenta]ENTER[/]] to submit."
  else console_print "[dim]Multi-line mode disabled.".

Definition set_timeout (text : string) : M unit :=
  w <- ask ;;
  match Py.float (python w) text with
  | None => console_print "[red]Input must be a number"
  | Some x =>
      with_settings (fun s => {| raw_mode := raw_mode s;
                                 multi_line_mode := multi_line_mode s;
                                 timeout := Num.PyFloat x |}) ;;
      console_print ("[dim]API timeout set to [green]" +:+ text +:+ "s[/].")
  end.

(** ** class CHATGPT *)

Definition CHATGPT_init : CHATGPT :=
  {| messages := [{| role := "system"; content := "You are a helpful assistant." |}];
     total_tokens := 0;
     current_tokens := 0 |}.

Definition save_chat_history (filename : string) : M unit :=
  p <- get ;;
  write_file filename (Json.dumps (json_of_messages (messages (chatGPT p)))) ;;
  console_print ("[dim]Chat history saved to: [bright_magenta]" +:+ filename).

(** [response.raise_for_status()] *)
Definition raise_for_status (r : response) : M unit :=
  if (400 <=? status_code r) && (status_code r <? 600)
  then raise (HTTPError (http_error_msg r))
  else ret tt.

(** The value of an expression that may raise. *)
Definition eval {A} (o : outcome A) : M A :=
  match o with
  | Returns v => ret v
  | Raises e => raise e
  end.

Definition backup_path (w : World) : string :=
  sys_path_0 w +:+ "/chat_history_backup_" +:+ now w +:+ ".json".

(** The handlers of [send], in the order of the [except] clauses. *)
Definition send_except (timeout_ : Num.pynum) (e : exn)
  : M (option Turn + response) :=
  if is_KeyboardInterrupt e then
    messages_pop ;;
    console_print "[bold cyan]Aborted." ;;
    raise e
  else if is_ReadTimeout e then
    messages_pop ;;
    console_print ("[red]Error: API read timed out (" +:+ Num.py_str timeout_ +:+
                   "s). You can retry or increase the timeout.") ;;
    ret (inl None)
  else if is_RequestException e then
    messages_pop ;;
    console_print ("[red]Error: " +:+ exn_str e) ;;
    log_exception e ;;
    ret (inl None)
  else if is_Exception e then
    messages_pop ;;
    console_print ("[red]Error: " +:+ exn_str e +:+ ". Check log for more information") ;;
    log_exception e ;;
    w <- ask ;;
    save_chat_history (backup_path w) ;;
    raise EOFError
  else raise e.

(** The [try] block of [send]: it yields [inl v] where the code returns
    [v] and [inr response] where control leaves the block at its end. The
    request itself (end point, headers, the messages sent) has no part in
    what follows. *)
Definition send_try : M (option Turn + response) :=
  response <- perform requests_post ;;
  if status_code response =? 400 then
    body <- eval (response_json response) ;;
    error_msg <- eval (error_message body) ;;
    messages_pop ;;
    console_print ("[red]Error: " +:+ error_msg) ;;
    log_error error_msg ;;
    ret (inl None)
  else
    raise_for_status response ;;
    ret (inr response).

(** The statements of [send] after the [try] statement; [log.debug] writes
    nothing at the level the log is set to. *)
Definition send_finish (response : response) : M (option Turn) :=
  response_json <- eval (response_json response) ;;
  usage <- eval (usage_total_tokens response_json) ;;
  with_chatGPT (fun g => {| messages := messages g;
                            total_tokens := total_tokens g;
                            current_tokens := usage |}) ;;
  with_chatGPT (fun g => {| messages := messages g;
                            total_tokens := total_tokens g + current_tokens g;
                            current_tokens := current_tokens g |}) ;;
  reply <- eval (choices_0_message response_json) ;;
  messages_append reply ;;
  ret (Some reply).

Definition send (message : string) (timeout_ : Num.pynum) : M (option Turn) :=
  messages_append {| role := "user"; content := message |} ;;
  r <- try_except send_try (send_except timeout_) ;;
  match r with
  | inl v => ret v
  | inr response => send_finish response
  end.

Definition modify_system_prompt (new_content : string) : M unit :=
  first <- messages_first ;;
  if Text.eqb (role first) "system" then
    let old_content := content first in
    with_chatGPT (fun g =>
      set_messages (<[0%nat := {| role := role first; content := new_content |}]>
                      (messages g)) g) ;;
    console_print ("[dim]System prompt has been modified from '" +:+ old_content +:+
                   "' to '" +:+ new_content +:+ "'.") ;;
    p <- get ;;
    if (1 <? length (messages (chatGPT p)))%nat then
      console_print "[dim]Note this is not a new chat, modifications to the system prompt have limited impact on answers."
    else ret tt
  else
    console_print "[dim]No system prompt found in messages.".

(** ** Functions of the module *)

Definition print_message (message : Turn) : M unit :=
  if Text.eqb (role message) "user" then
    emit (Print ("> " +:+ content message))
  else if Text.eqb (role message) "assistant" then
    console_print "ChatGPT: " ;;
    p <- get ;;
    if raw_mode (chat_settings p) then emit (Print (content message))
    else emit (ConsoleMarkdown (content message))
  else ret tt.

Definition help_text : string :=
"[bold]Available commands:[/]
    /raw                     - Toggle raw mode (showing raw text of ChatGPT's reply)
    /multi                   - Toggle multi-line mode (allow multi-line input)
    /tokens                  - Show total tokens and current tokens used
    /last                    - Display last ChatGPT's reply
    /save \[filename_or_path] - Save the chat history to a file
    /system \[new_prompt]     - Modify the system prompt
    /timeout \[new_timeout]   - Modify the api timeout
    /undo                    - Undo the last question and remove its answer
    /help                    - Show this help message
    /exit                    - Exit the application".

(** The file name [/save] writes to, the text [/system] installs and the
    text [/timeout] parses: the second word of the command (for [/system]
    all words after the first, joined by single spaces) when there is one,
    what is typed at the prompt otherwise. *)
Definition save_filename (command : string) : M string :=
  w <- ask ;;
  let args := Py.split (python w) command in
  if (1 <? length args)%nat then ret (nth 1 args EmptyString)
  else
    let date_filename := "./chat_history_" +:+ now w +:+ ".json" in
    perform (fun w => prompt w "Save to: " date_filename).

Definition system_new_content (command : string) : M string :=
  w <- ask ;;
  let args := Py.split (python w) command in
  if (1 <? length args)%nat then ret (Text.join " " (tail args))
  else
    first <- messages_first ;;
    perform (fun w => prompt w "System prompt: " (content first)).

Definition timeout_new_timeout (command : string) : M string :=
  w <- ask ;;
  let args := Py.split (python w) command in
  if (1 <? length args)%nat then ret (nth 1 args EmptyString)
  else
    p <- get ;;
    perform (fun w => prompt w "Set OpenAI API timeout: "
                        (Num.py_str (timeout (chat_settings p)))).

(** The branches of [handle_command] for [/system], [/timeout] and
    [/undo]. *)
Definition system_branch (command : string) : M unit :=
  new_content <- system_new_content command ;;
  first <- messages_first ;;
  if negb (Text.eqb new_content (content first))
  then modify_system_prompt new_content
  else console_print "[dim]No cahnge.".

Definition timeout_branch (command : string) : M unit :=
  new_timeout <- timeout_new_timeout command ;;
  p <- get ;;
  if negb (Text.eqb new_timeout (Num.py_str (timeout (chat_settings p))))
  then set_timeout new_timeout
  else console_print "[dim]No cahnge.".

Definition undo_branch : M unit :=
  p <- get ;;
  if (2 <? length (messages (chatGPT p)))%nat then
    answer <- messages_pop ;;
    question <- messages_pop ;;
    let truncated_question := Text.first_line (content question) in
    let truncated_question :=
      if (String.length truncated_question <? String.length (content question))%nat
      then truncated_question +:+ "..." else truncated_question in
    console_print ("[dim]Last question: '" +:+ truncated_question +:+
                   "' and it's answer has been removed.")
  else console_print "[dim]Nothing to undo.".

Definition handle_command (command : string) : M unit :=
  if Text.eqb command "/raw" then toggle_raw_mode
  else if Text.eqb command "/multi" then toggle_multi_line_mode
  else if Text.eqb command "/tokens" then
    p <- get ;;
    console_print ("[dim]Total tokens: " +:+ Num.str_of_Z (total_tokens (chatGPT p))) ;;
    console_print ("[dim]Current tokens: " +:+
                   Num.str_of_Z (current_tokens (chatGPT p)) +:+ "[/]/[black]4097")
  else if Text.eqb command "/last" then
    reply <- messages_last ;;
    print_message reply
  else if Text.startswith command "/save" then
    filename <- save_filename command ;;
    save_chat_history filename
  else if Text.startswith command "/system" then system_branch command
  else if Text.startswith command "/timeout" then timeout_branch command
  else if Text.eqb command "/undo" then undo_branch
  else if Text.eqb command "/exit" then raise EOFError
  else console_print help_text.

Definition load_chat_history (file_path : string) : M (option Json.json) :=
  try_except
    (text <- read_file file_path ;;
     match Json.loads text with
     | Some chat_history => ret (Some chat_history)
     | None => raise json_JSONDecodeError
     end)
    (fun e =>
       if is_FileNotFoundError e then
         console_print ("[bright_red]File not found: " +:+ file_path) ;;
         ret None
       else if is_json_JSONDecodeError e then
         console_print ("[bright_red]Invalid JSON format in file: " +:+ file_path) ;;
         ret None
       else raise e).

(** ** The loop of [main] *)

Definition farewells : list string :=
  ["再见"; "bye"; "goodbye"; "结束"; "end"; "退出"; "exit"; "quit"].

Inductive control := Continue | Break.

(** One turn of [while True:]; an exception that neither [except] clause
    of the loop names leaves [main]. [console.status] only shows a spinner
    while [send] runs. *)
Definition loop_body : M control :=
  try_except
    (message <- perform session_prompt ;;
     w <- ask ;;
     if Text.startswith message "/" then
       let command := Py.lower (python w) (Py.strip (python w) message) in
       handle_command command ;;
       ret Continue
     else
       match message with
       | EmptyString => ret Continue
       | _ =>
           log_info ("> " +:+ message) ;;
           p <- get ;;
           reply <- send message (timeout (chat_settings p)) ;;
           match reply with
           | Some r => log_info ("ChatGPT: " +:+ content r) ;; print_message r
           | None => ret tt
           end ;;
           if Text.mem (Py.lower (python w) message) farewells then ret Break
           else ret Continue
       end)
    (fun e =>
       if is_KeyboardInterrupt e then ret Continue
       else if is_EOFError e then console_print "Exiting..." ;; ret Break
       else raise e).

(** The process when the loop is entered without [--load], [--raw] or
    [--multi], with the configured time-out. *)
Definition initial_process (api_timeout : Z) (fs : gmap string string) : Process :=
  {| chatGPT := CHATGPT_init;
     chat_settings := ChatSettings_init (Num.PyInt api_timeout);
     files := fs;
     output := [ConsolePrint "[dim]Hi, welcome to chat with GPT. Type `[bright_magenta]\help[/]` to display available commands."] |}.

(** The [while True:] loop with the [finally] clause and the report that
    follow it (lines 317 to 349), run on the worlds of its successive
    turns. [None] stands for a loop that has used the worlds given and
    waits for the next line. An exception that leaves the loop is logged
    with the total but skips the report on the console. The markup of the
    report holds two opening tags and the digits of the total, with no
    closing tag, so that [console.print] renders it. *)
Fixpoint while_true (ws : list World) (p : Process) : option (outcome unit) * Process :=
  match ws with
  | [] => (None, p)
  | w :: ws' =>
      match loop_body w p with
      | (Returns Continue, p') => while_true ws' p'
      | (Returns Break, p') => (Some (Returns tt), p')
      | (Raises e, p') => (Some (Raises e), p')
      end
  end.

Definition total_report (p : Process) : string :=
  Num.str_of_Z (total_tokens (chatGPT p)).

Definition main_loop (ws : list World) (p : Process) : option (outcome unit) * Process :=
  match while_true ws p with
  | (None, p') => (None, p')
  | (Some r, p') =>
      let logged :=
        {| chatGPT := chatGPT p'; chat_settings := chat_settings p';
           files := files p';
           output := output p' ++ [LogInfo ("Total tokens used: " +:+ total_report p')] |} in
      match r with
      | Returns _ =>
          (Some r,
           {| chatGPT := chatGPT logged; chat_settings := chat_settings logged;
              files := files logged;
              output := output logged ++
                        [ConsolePrint ("[bright_magenta]Total tokens used: [bold]" +:+
                                       total_report p')] |})
      | Raises _ => (Some r, logged)
      end
  end.

(** ** class CustomCompleter *)

Definition commands : list string :=
  ["/raw"; "/multi"; "/tokens"; "/last"; "/save"; "/system"; "/timeout";
   "/undo"; "/help"; "/exit"].

(** [Completion(command, start_position=...)] *)
Record Completion := { completion_text : string; start_position : Z }.

(** [get_completions]: the completions yielded, in order, for the text
    before the cursor. *)
Definition get_completions (text : string) : list Completion :=
  if Text.startswith text "/" then
    map (fun command =>
           {| completion_text := command;
              start_position := - Z.of_nat (String.length text) |})
        (List.filter (fun command => Text.startswith command text) commands)
  else [].

(** ** The binding of the Enter key *)

Inductive enter_action :=
| validate_and_handle      (* the buffer is submitted as it is *)
| insert_newline.          (* a line feed is inserted in the buffer *)

(** The handler that [create_key_bindings] binds to Enter, on the text of
    the buffer. *)
Definition enter_key (lib : Library) (buffer_text : string) (settings : ChatSettings)
  : enter_action :=
  let text := Py.strip lib buffer_text in
  if Text.startswith text "/" || negb (multi_line_mode settings)
  then validate_and_handle
  else insert_newline.

(* ===================================================================== *)
(** * The vocabulary of the properties *)
(* ===================================================================== *)





(** The exchange succeeds: a status outside 400..599 and a body that
    carries the usage and the reply. *)
Inductive successful_exchange (w : World) (usage : Z) (reply : Turn) : Prop :=
| exchange_ok (r : response) (b : payload) :
    requests_post w = Returns r ->
    ~ (400 <= status_code r < 600) ->
    response_json r = Returns b ->
    usage_total_tokens b = Returns usage ->
    choices_0_message b = Returns reply ->
    successful_exchange w usage reply.

(** The usage that a call of [send] adds to the counters: that of the
    response when its status is outside 400..599 and its body carries a
    usage, with or without a reply. *)
Definition exchange_usage (w : World) : option Z :=
  match requests_post w with
  | Returns r =>
      if (400 <=? status_code r) && (status_code r <? 600) then None
      else match response_json r with
           | Returns b =>
               match usage_total_tokens b with
               | Returns u => Some u
               | Raises _ => None
               end
           | Raises _ => None
           end
  | Raises _ => None
  end.

(** A stretch of a session: calls of [send] and of [handle_command],
    however each ends. The list holds, in order, the usages of the
    responses that carried one. *)
Inductive session_run : Process -> list Z -> Process -> Prop :=
| run_done (p : Process) : session_run p [] p
| run_send (message : string) (timeout_ : Num.pynum) (w : World)
    (p p' : Process) (us : list Z) :
    session_run (snd (send message timeout_ w p)) us p' ->
    session_run p (option_list (exchange_usage w) ++ us) p'
| run_command (command : string) (w : World) (p p' : Process) (us : list Z) :
    session_run (snd (handle_command command w p)) us p' ->
    session_run p us p'.

Definition sum_Z (l : list Z) : Z := fold_right Z.add 0 l.

Definition counters (p : Process) : Z * Z :=
  (total_tokens (chatGPT p), current_tokens (chatGPT p)).


(** Every message with role [system] sits at index 0. *)
Definition system_only_first (l : list Turn) : Prop :=
  forall (i : nat) (t : Turn), l !! i = Some t -> role t = "system" -> i = 0%nat.

(** The line typed is a message for the model: it does not begin with [/]
    and it is not empty. *)
Definition is_message (line : string) : Prop :=
  Text.startswith line "/" = false /\ line <> EmptyString.

(** The first message has role [system]. *)
Definition system_first (p : Process) : Prop :=
  exists (c : string) (rest : list Turn),
    messages (chatGPT p) = {| role := "system"; content := c |} :: rest.

(** The usage that a turn of the loop adds to the counters: that of the
    exchange when the line typed is a message. *)
Definition turn_usage (w : World) : option Z :=
  match session_prompt w with
  | Returns line =>
      if Text.startswith line "/" then None
      else match line with
           | EmptyString => None
           | _ => exchange_usage w
           end
  | Raises _ => None
  end.

Definition usages (ws : list World) : list Z :=
  omap turn_usage ws.

(** A relation between the process before and after that a computation
    keeps, however it ends. *)
Definition preserves {A} (I : Process -> Process -> Prop) (c : M A) : Prop :=
  forall (w : World) (p : Process), I p (snd (c w p)).

Definition same_counters (p p' : Process) : Prop := counters p' = counters p.
Definition same_chatGPT (p p' : Process) : Prop := chatGPT p' = chatGPT p.
Definition same_settings (p p' : Process) : Prop := chat_settings p' = chat_settings p.
Definition same_files (p p' : Process) : Prop := files p' = files p.

(** A transcript that had a first message still has one afterwards, with
    the same role. *)
Definition first_stays (p p' : Process) : Prop :=
  forall (t : Turn) (rest : list Turn),
    messages (chatGPT p) = t :: rest ->
    exists (t' : Turn) (rest' : list Turn),
      messages (chatGPT p') = t' :: rest' /\ role t' = role t.

(** The relations kept by what only writes to the console or the log. *)
Definition ignores_output (I : Process -> Process -> Prop) : Prop :=
  forall (p : Process) (out : list event),
    I p {| chatGPT := chatGPT p; chat_settings := chat_settings p;
           files := files p; output := out |}.

(** ** Concrete inputs *)

Module Sample.

(** A library for the samples, whose texts are ASCII and whose tags are
    not evaluated: a style name that rich does not rewrite ([red], [x]) is
    its own canonical form. *)
Definition library : Library :=
  {| unicode_lower := fun s => s;
     unicode_strip := fun s => s;
     unicode_split := fun s => [s];
     unicode_float := fun _ => None;
     style_normalize := fun s => s;
     meta_error := fun _ => None |}.

Definition world (post : outcome response) (line : string) : World :=
  {| requests_post := post;
     now := "2023-03-21_10,15,00";
     sys_path_0 := "/opt/chat";
     prompt := fun _ default => Returns default;
     session_prompt := Returns line;
     can_open_w := fun _ => true;
     open_r := fun _ => None;
     python := library |}.

(** A body with the fields of a completion. *)
Definition completion (usage : Z) (answer : string) : payload :=
  {| error_message := Raises (KeyError "error");
     usage_total_tokens := Returns usage;
     choices_0_message := Returns {| role := "assistant"; content := answer |} |}.

(** A body with the fields of an error. *)
Definition rejection (msg : string) : payload :=
  {| error_message := Returns msg;
     usage_total_tokens := Raises (KeyError "usage");
     choices_0_message := Raises (KeyError "choices") |}.

Definition ok (usage : Z) (answer : string) : outcome response :=
  Returns {| status_code := 200;
             http_error_msg := EmptyString;
             response_json := Returns (completion usage answer) |}.

Definition bad_request (msg : string) : outcome response :=
  Returns {| status_code := 400;
             http_error_msg := "400 Client Error: Bad Request for url: https://api.openai.com/v1/chat/completions";
             response_json := Returns (rejection msg) |}.

Definition start : Process := initial_process 20 ∅.

(** A process whose time-out is the integer 30, as [OPENAI_API_TIMEOUT=30]
    configures it. *)
Definition thirty : Process := initial_process 30 ∅.

Definition float_30 : spec_float := S754_finite false 8444249301319680 (-48).

(** A session: a question answered with 15 tokens, a question the server
    rejects, an undo, and a question answered with 7 tokens. *)
Definition after_first : Process :=
  snd (send "2+2?" (Num.PyInt 20) (world (ok 15 "4") "2+2?") start).
Definition after_rejected : Process :=
  snd (send "and 3+3?" (Num.PyInt 20) (world (bad_request "overloaded") "and 3+3?")
         after_first).
Definition after_undo : Process :=
  snd (handle_command "/undo" (world (ok 0 EmptyString) "/undo") after_rejected).
Definition after_second : Process :=
  snd (send "3+3?" (Num.PyInt 20) (world (ok 7 "6") "3+3?") after_undo).

End Sample.

(* ===================================================================== *)
(** * Properties *)
(* ===================================================================== *)

Arguments Json.dumps : simpl never.
Arguments Num.py_str : simpl never.
Arguments Num.str_of_Z : simpl never.
Arguments Num.py_float : simpl never.
Arguments String.append : simpl never.
Arguments Text.split : simpl never.
Arguments Text.lower : simpl never.
Arguments Text.strip : simpl never.
Arguments Text.first_line : simpl never.
Arguments Nat.ltb : simpl never.
Arguments Rich.render : simpl never.
Arguments Py.lower : simpl never.
Arguments Py.strip : simpl never.
Arguments Py.split : simpl never.
Arguments Py.float : simpl never.

Ltac unfold_monad :=
  unfold console_print in *;
  unfold bind, ret, raise, try_except, perform, ask, get, put, eval, with_chatGPT,
    with_settings, emit, log_error, log_exception, log_info in *.

Ltac unfold_send :=
  unfold send, send_try, send_finish, send_except, save_chat_history, write_file,
    messages_append, messages_pop, raise_for_status in *;
  unfold_monad.

(** After the tentative user message has been appended, [pop] removes it. *)
Ltac pop_appended := rewrite ?last_snoc; cbn; rewrite ?removelast_last; cbn.

(** The notices whose text is fixed render, whatever the library. *)
Ltac render_fixed :=
  repeat match goal with
         | |- context [Rich.render ?lib ?text] =>
             let H := fresh "Hfixed" in
             assert (H : Rich.render lib text = None) by (vm_compute; reflexivity);
             rewrite H; clear H; cbn
         end.



Lemma status_out_of_range (z : Z) :
  ~ (400 <= z < 600) -> (400 <=? z) && (z <? 600) = false.
Proof.
  intros H. apply andb_false_iff.
  destruct (Z.leb_spec 400 z); [right | left; reflexivity].
  apply Z.ltb_ge. lia.
Qed.

(** ** The failures from which [send] recovers *)


(** ** What a computation keeps, however it ends *)

Section Preserves.

Variable I : Process -> Process -> Prop.
Hypothesis I_refl : forall p : Process, I p p.
Hypothesis I_trans : forall p q r : Process, I p q -> I q r -> I p r.

Lemma preserves_ret {A} (a : A) : preserves I (ret a).
Proof. intros w p. apply I_refl. Qed.

Lemma preserves_raise {A} (e : exn) : preserves I (@raise A e).
Proof. intros w p. apply I_refl. Qed.

Lemma preserves_ask : preserves I ask.
Proof. intros w p. apply I_refl. Qed.

Lemma preserves_get : preserves I get.
Proof. intros w p. apply I_refl. Qed.

Lemma preserves_perform {A} (f : World -> outcome A) : preserves I (perform f).
Proof. intros w p. apply I_refl. Qed.

Lemma preserves_eval {A} (o : outcome A) : preserves I (eval o).
Proof. intros w p. destruct o; apply I_refl. Qed.

Lemma preserves_bind {A B} (c : M A) (k : A -> M B) :
  preserves I c -> (forall a : A, preserves I (k a)) -> preserves I (bind c k).
Proof.
  intros Hc Hk w p. unfold bind. specialize (Hc w p).
  destruct (c w p) as [[a | e] p1]; cbn in *; [| exact Hc].
  eapply I_trans; [exact Hc | apply Hk].
Qed.

Lemma preserves_try {A} (body : M A) (handler : exn -> M A) :
  preserves I body -> (forall e : exn, preserves I (handler e)) ->
  preserves I (try_except body handler).
Proof.
  intros Hb Hh w p. unfold try_except. specialize (Hb w p).
  destruct (body w p) as [[a | e] p1]; cbn in *; [exact Hb |].
  eapply I_trans; [exact Hb | apply Hh].
Qed.

Lemma preserves_if {A} (b : bool) (c1 c2 : M A) :
  preserves I c1 -> preserves I c2 -> preserves I (if b then c1 else c2).
Proof. destruct b; auto. Qed.

(** A step that changes the process as [f] does. *)
Lemma preserves_emit (e : event) :
  (forall p : Process,
      I p {| chatGPT := chatGPT p; chat_settings := chat_settings p;
             files := files p; output := output p ++ [e] |}) ->
  preserves I (emit e).
Proof. intros H w p. apply H. Qed.

End Preserves.

Lemma preserves_console_print (I : Process -> Process -> Prop) (text : string) :
  ignores_output I -> preserves I (console_print text).
Proof.
  intros H w p. unfold console_print. unfold_monad.
  destruct p as [g st fs out].
  destruct (Rich.render (python w) text); cbn; apply H.
Qed.

Lemma preserves_log (I : Process -> Process -> Prop) (e : event) :
  ignores_output I -> preserves I (emit e).
Proof. intros H w p. apply H. Qed.

Lemma same_counters_refl (p : Process) : same_counters p p.
Proof. reflexivity. Qed.

Lemma same_counters_trans (p q r : Process) :
  same_counters p q -> same_counters q r -> same_counters p r.
Proof. unfold same_counters. congruence. Qed.

Lemma same_counters_output : ignores_output same_counters.
Proof. intros p out. reflexivity. Qed.

Lemma same_settings_refl (p : Process) : same_settings p p.
Proof. reflexivity. Qed.

Lemma same_settings_trans (p q r : Process) :
  same_settings p q -> same_settings q r -> same_settings p r.
Proof. unfold same_settings. congruence. Qed.

Lemma same_settings_output : ignores_output same_settings.
Proof. intros p out. reflexivity. Qed.

Lemma same_chatGPT_refl (p : Process) : same_chatGPT p p.
Proof. reflexivity. Qed.

Lemma same_chatGPT_trans (p q r : Process) :
  same_chatGPT p q -> same_chatGPT q r -> same_chatGPT p r.
Proof. unfold same_chatGPT. congruence. Qed.

Lemma same_chatGPT_output : ignores_output same_chatGPT.
Proof. intros p out. reflexivity. Qed.

Lemma same_files_refl (p : Process) : same_files p p.
Proof. reflexivity. Qed.

Lemma same_files_trans (p q r : Process) :
  same_files p q -> same_files q r -> same_files p r.
Proof. unfold same_files. congruence. Qed.

Lemma same_files_output : ignores_output same_files.
Proof. intros p out. reflexivity. Qed.

(** The rules of [preserves], applied along the structure of a
    computation. *)
Ltac keeps_with Hrefl Htrans Hout :=
  repeat match goal with
         | |- preserves _ (bind _ _) => apply (preserves_bind _ Htrans); [| intros ?]
         | |- preserves _ (try_except _ _) => apply (preserves_try _ Htrans); [| intros ?]
         | |- preserves _ (ret _) => apply (preserves_ret _ Hrefl)
         | |- preserves _ (raise _) => apply (preserves_raise _ Hrefl)
         | |- preserves _ ask => apply (preserves_ask _ Hrefl)
         | |- preserves _ get => apply (preserves_get _ Hrefl)
         | |- preserves _ (perform _) => apply (preserves_perform _ Hrefl)
         | |- preserves _ (eval _) => apply (preserves_eval _ Hrefl)
         | |- preserves _ (console_print _) => apply (preserves_console_print _ _ Hout)
         | |- preserves _ (log_info _) => apply (preserves_log _ _ Hout)
         | |- preserves _ (log_error _) => apply (preserves_log _ _ Hout)
         | |- preserves _ (log_exception _) => apply (preserves_log _ _ Hout)
         | |- preserves _ (emit _) => apply (preserves_log _ _ Hout)
         | |- preserves _ (if ?b then _ else _) => destruct b
         | |- preserves _ (match ?x with _ => _ end) => destruct x
         | |- preserves _ (let _ := _ in _) => cbv zeta
         end.

Ltac keeps_counters :=
  keeps_with same_counters_refl same_counters_trans same_counters_output.
Ltac keeps_settings :=
  keeps_with same_settings_refl same_settings_trans same_settings_output.
Ltac keeps_chatGPT :=
  keeps_with same_chatGPT_refl same_chatGPT_trans same_chatGPT_output.
Ltac keeps_files :=
  keeps_with same_files_refl same_files_trans same_files_output.

Ltac by_definition :=
  intros ? ?; unfold_monad; cbn;
  repeat match goal with
         | |- context [match ?x with _ => _ end] => destruct x; cbn
         end;
  reflexivity.

(** ** The counters *)

Lemma messages_pop_counters : preserves same_counters messages_pop.
Proof. unfold messages_pop. keeps_counters; try by_definition. Qed.

Lemma messages_append_counters (t : Turn) : preserves same_counters (messages_append t).
Proof. by_definition. Qed.

Lemma save_chat_history_counters (filename : string) :
  preserves same_counters (save_chat_history filename).
Proof. unfold save_chat_history, write_file. keeps_counters; try by_definition. Qed.

Lemma send_try_counters : preserves same_counters send_try.
Proof.
  unfold send_try, raise_for_status. keeps_counters; try apply messages_pop_counters.
Qed.

Lemma send_except_counters (timeout_ : Num.pynum) (e : exn) :
  preserves same_counters (send_except timeout_ e).
Proof.
  unfold send_except. keeps_counters;
    try first [apply messages_pop_counters | apply save_chat_history_counters].
Qed.

(** How the [try] block of [send] ends: at its end, with the response and
    an unchanged process, exactly when the request returns a response
    whose status is outside 400..599. *)
Lemma send_try_outcome (w : World) (p : Process) :
  match requests_post w with
  | Returns r =>
      if (400 <=? status_code r) && (status_code r <? 600)
      then forall r' : response, fst (send_try w p) <> Returns (inr r')
      else send_try w p = (Returns (inr r), p)
  | Raises e => send_try w p = (Raises e, p)
  end.
Proof.
  unfold send_try, raise_for_status, messages_pop. unfold_monad.
  destruct (requests_post w) as [r | e]; [| reflexivity].
  destruct (Z.eqb_spec (status_code r) 400) as [E | E].
  - rewrite E. cbn. intros r'.
    destruct (response_json r) as [b | e]; cbn; [| discriminate].
    destruct (error_message b) as [m | e]; cbn; [| discriminate].
    destruct (last (messages (chatGPT p))); cbn; [| discriminate].
    destruct (Rich.render _ _); cbn; discriminate.
  - destruct ((400 <=? status_code r) && (status_code r <? 600)); cbn;
      [intros r'; discriminate | reflexivity].
Qed.

(** The handlers of [send] never lead to the statements after the [try]
    statement. *)
Lemma send_except_outcome (timeout_ : Num.pynum) (e : exn) (w : World)
    (p : Process) (r : response) :
  fst (send_except timeout_ e w p) <> Returns (inr r).
Proof.
  unfold send_except, save_chat_history, write_file, messages_pop. unfold_monad.
  repeat match goal with
         | |- context [if ?b then _ else _] => destruct b; cbn
         | |- context [match last ?l with _ => _ end] => destruct (last l); cbn
         | |- context [match Rich.render ?l ?t with _ => _ end] =>
             destruct (Rich.render l t); cbn
         end; discriminate.
Qed.

(** The counters after [send], however it ends: they take the usage of
    the response when its status is outside 400..599 and its body carries
    one, and keep their values otherwise. *)
Lemma send_counters (message : string) (timeout_ : Num.pynum) (w : World)
    (p : Process) :
  counters (snd (send message timeout_ w p)) =
  match exchange_usage w with
  | Some u => (total_tokens (chatGPT p) + u, u)
  | None => counters p
  end.
Proof.
  unfold send, exchange_usage.
  unfold bind at 1.
  pose proof (messages_append_counters {| role := "user"; content := message |} w p)
    as Happend.
  destruct (messages_append _ w p) as [[[] | e0] p1] eqn:E1;
    [| discriminate E1].
  cbn in Happend. unfold same_counters in Happend.
  unfold bind at 1, try_except.
  pose proof (send_try_outcome w p1) as Htry.
  pose proof (send_try_counters w p1) as Hkeep. unfold same_counters in Hkeep.
  destruct (requests_post w) as [r | e].
  - destruct ((400 <=? status_code r) && (status_code r <? 600)).
    + destruct (send_try w p1) as [[[v | r'] | e] p2]; cbn in *.
      * congruence.
      * exfalso. exact (Htry r' eq_refl).
      * pose proof (send_except_counters timeout_ e w p2) as Hh.
        unfold same_counters in Hh.
        pose proof (send_except_outcome timeout_ e w p2) as Hno.
        destruct (send_except timeout_ e w p2) as [[[v | r'] | e'] p3]; cbn in *;
          try congruence.
        exfalso. exact (Hno r' eq_refl).
    + rewrite Htry. cbn. unfold send_finish, messages_append. unfold_monad.
      destruct (response_json r) as [b | e]; cbn; [| exact Happend].
      destruct (usage_total_tokens b) as [u | e]; cbn; [| exact Happend].
      unfold counters in *. injection Happend as Ht Hc.
      destruct (choices_0_message b); cbn; rewrite Ht; reflexivity.
  - rewrite Htry. cbn.
    pose proof (send_except_counters timeout_ e w p1) as Hh.
    unfold same_counters in Hh.
    pose proof (send_except_outcome timeout_ e w p1) as Hno.
    destruct (send_except timeout_ e w p1) as [[[v | r'] | e'] p3]; cbn in *;
      try congruence.
    exfalso. exact (Hno r' eq_refl).
Qed.

Ltac unfold_commands :=
  unfold handle_command, system_branch, timeout_branch, undo_branch, toggle_raw_mode,
    toggle_multi_line_mode, set_timeout, print_message, save_filename,
    system_new_content, timeout_new_timeout, modify_system_prompt,
    save_chat_history, write_file, messages_first, messages_last, messages_pop in *.

(** No command changes a token counter, however it ends. *)
Lemma handle_command_counters (command : string) :
  preserves same_counters (handle_command command).
Proof. unfold_commands. keeps_counters; by_definition. Qed.

(** A successful exchange makes [send] return the reply. *)
Lemma send_success (message : string) (timeout_ : Num.pynum)
    (w : World) (p : Process) (usage : Z) (reply : Turn) :
  successful_exchange w usage reply ->
  send message timeout_ w p =
  (Returns (Some reply),
   {| chatGPT :=
        {| messages := messages (chatGPT p) ++
                       [{| role := "user"; content := message |}; reply];
           total_tokens := total_tokens (chatGPT p) + usage;
           current_tokens := usage |};
      chat_settings := chat_settings p;
      files := files p;
      output := output p |}).
Proof.
  intros [r b Hp Hs Hj Hu Hm]. destruct p as [[msgs tot cur] st fs out].
  unfold_send. cbn. rewrite Hp. cbn.
  destruct (Z.eqb_spec (status_code r) 400) as [E | E]; [exfalso; lia |].
  rewrite (status_out_of_range _ Hs). cbn.
  rewrite Hj. cbn. rewrite Hu. cbn. rewrite Hm. cbn.
  rewrite <- app_assoc. reflexivity.
Qed.

(** [send] returns a reply only at its end. *)
Lemma send_try_returns (w : World) (p : Process) (v : option Turn) :
  fst (send_try w p) = Returns (inl v) -> v = None.
Proof.
  unfold send_try, raise_for_status, messages_pop. unfold_monad.
  repeat match goal with
         | |- context [if ?b then _ else _] => destruct b; cbn
         | |- context [match requests_post ?x with _ => _ end] =>
             destruct (requests_post x); cbn
         | |- context [match response_json ?x with _ => _ end] =>
             destruct (response_json x); cbn
         | |- context [match error_message ?x with _ => _ end] =>
             destruct (error_message x); cbn
         | |- context [match last ?l with _ => _ end] => destruct (last l); cbn
         | |- context [match Rich.render ?l ?t with _ => _ end] =>
             destruct (Rich.render l t); cbn
         end; congruence.
Qed.

Lemma send_except_returns (timeout_ : Num.pynum) (e : exn) (w : World)
    (p : Process) (v : option Turn) :
  fst (send_except timeout_ e w p) = Returns (inl v) -> v = None.
Proof.
  unfold send_except, save_chat_history, write_file, messages_pop. unfold_monad.
  repeat match goal with
         | |- context [if ?b then _ else _] => destruct b; cbn
         | |- context [match last ?l with _ => _ end] => destruct (last l); cbn
         | |- context [match Rich.render ?l ?t with _ => _ end] =>
             destruct (Rich.render l t); cbn
         end; congruence.
Qed.

(** A call of [send] that returns a reply was a successful exchange. *)
Lemma send_returns_reply_inv (message : string) (timeout_ : Num.pynum)
    (w : World) (p : Process) (reply : Turn) :
  fst (send message timeout_ w p) = Returns (Some reply) ->
  exists usage : Z,
    successful_exchange w usage reply /\ exchange_usage w = Some usage.
Proof.
  unfold send, exchange_usage. unfold bind at 1.
  destruct (messages_append _ w p) as [[[] | e0] p1] eqn:E1; [| discriminate E1].
  unfold bind at 1, try_except.
  pose proof (send_try_outcome w p1) as Htry.
  pose proof (send_try_returns w p1) as Hv.
  destruct (requests_post w) as [r | e] eqn:Hpost.
  - destruct ((400 <=? status_code r) && (status_code r <? 600)) eqn:Hrange.
    + destruct (send_try w p1) as [[[v | r'] | e] p2]; cbn in *.
      * intros H. specialize (Hv v eq_refl). congruence.
      * exfalso. exact (Htry r' eq_refl).
      * pose proof (send_except_outcome timeout_ e w p2) as Hno.
        pose proof (send_except_returns timeout_ e w p2) as Hv'.
        destruct (send_except timeout_ e w p2) as [[[v | r'] | e'] p3]; cbn in *;
          intros H; try discriminate H.
        -- specialize (Hv' v eq_refl). congruence.
        -- exfalso. exact (Hno r' eq_refl).
    + rewrite Htry. cbn. unfold send_finish, messages_append. unfold_monad.
      destruct (response_json r) as [b | e] eqn:Hj; cbn; [| discriminate].
      destruct (usage_total_tokens b) as [u | e] eqn:Hu; cbn; [| discriminate].
      destruct (choices_0_message b) as [t | e] eqn:Hm; cbn; [| discriminate].
      intros H. injection H as <-. exists u. split; [| reflexivity].
      apply (exchange_ok w u t r b); auto.
      intros [H1 H2]. apply Z.leb_le in H1. apply Z.ltb_lt in H2.
      rewrite H1, H2 in Hrange. discriminate.
  - rewrite Htry. cbn.
    pose proof (send_except_outcome timeout_ e w p1) as Hno.
    pose proof (send_except_returns timeout_ e w p1) as Hv'.
    destruct (send_except timeout_ e w p1) as [[[v | r'] | e'] p3]; cbn in *;
      intros H; try discriminate H.
    + specialize (Hv' v eq_refl). congruence.
    + exfalso. exact (Hno r' eq_refl).
Qed.

Lemma session_run_counters (p p' : Process) (us : list Z) :
  session_run p us p' ->
  total_tokens (chatGPT p') = total_tokens (chatGPT p) + sum_Z us /\
  current_tokens (chatGPT p') = default (current_tokens (chatGPT p)) (last us).
Proof.
  induction 1 as [p | message timeout_ w p p' us _ IH | command w p p' us _ IH].
  - cbn. split; [lia | reflexivity].
  - pose proof (send_counters message timeout_ w p) as Hc.
    unfold counters in Hc.
    destruct IH as [IHt IHc].
    destruct (exchange_usage w) as [u |];
      injection Hc as Ht Hcur; rewrite Ht in IHt; rewrite Hcur in IHc.
    + change (option_list (Some u) ++ us) with (u :: us).
      split; [rewrite IHt; unfold sum_Z; cbn; lia |].
      rewrite IHc. destruct us as [| u0 us]; [reflexivity |].
      change (last (u :: u0 :: us)) with (last (u0 :: us)).
      destruct (last (u0 :: us)) eqn:E; [reflexivity |].
      apply last_None in E. discriminate E.
    + change (option_list None ++ us) with us. split; assumption.
  - pose proof (handle_command_counters command w p) as Hc.
    unfold same_counters, counters in Hc. injection Hc as Ht Hcur.
    rewrite Ht, Hcur in IH. exact IH.
Qed.

(** ** C1: the failures of [send] and the transcript *)

(** C1. Two failures after which [send] neither returns [None] nor leaves
    the transcript as it found it. A 400 whose error message holds a
    closing tag that matches no open tag ([[/x]]): [console.print] raises
    [MarkupError] inside the [try] block, after the user message has been
    popped; the clause for [Exception] pops again, its own notice does not
    render either, and [send] raises with the system prompt gone from the
    transcript. A 200 whose body is not JSON: [response.json()] raises
    after the [try] statement, and the user message stays in the
    transcript without an answer. *)
Theorem send_failure_not_reverted :
  send "hi" (Num.PyInt 20) (Sample.world (Sample.bad_request "[/x]") "hi") Sample.start =
  (Raises (MarkupError "closing tag '[/x]' at position 25 doesn't match any open tag"),
   {| chatGPT := {| messages := []; total_tokens := 0; current_tokens := 0 |};
      chat_settings := chat_settings Sample.start;
      files := files Sample.start;
      output := output Sample.start |}) /\
  send "hi" (Num.PyInt 20)
    (Sample.world
       (Returns {| status_code := 200; http_error_msg := EmptyString;
                   response_json :=
                     Raises (requests_JSONDecodeError
                               "Expecting value: line 1 column 1 (char 0)") |}) "hi")
    Sample.start =
  (Raises (requests_JSONDecodeError "Expecting value: line 1 column 1 (char 0)"),
   {| chatGPT := {| messages := messages (chatGPT Sample.start) ++
                                [{| role := "user"; content := "hi" |}];
                    total_tokens := 0; current_tokens := 0 |};
      chat_settings := chat_settings Sample.start;
      files := files Sample.start;
      output := output Sample.start |}).
Proof. split; vm_compute; reflexivity. Qed.

(** ** C2: token accounting *)

(** C2, amended: the counters take the usage of every response whose
    status is outside 400..599 and whose body carries a usage, before the
    reply is read. So, over every stretch of a session, whatever commands
    and failed or interrupted requests lie in it, [total_tokens] grows by
    the sum of the usages of these responses and [current_tokens] is the
    latest of them (its old value when there was none); from the counters
    of a new [CHATGPT] object [total_tokens] is that sum. Every successful
    exchange is among these responses, with the usage it reports; a call
    of [send] whose response is not among them leaves both counters as
    they were. *)
Theorem token_accounting (p p' : Process) (us : list Z) :
  session_run p us p' ->
  (total_tokens (chatGPT p') = total_tokens (chatGPT p) + sum_Z us /\
   current_tokens (chatGPT p') = default (current_tokens (chatGPT p)) (last us) /\
   (chatGPT p = CHATGPT_init -> total_tokens (chatGPT p') = sum_Z us)) /\
  (forall (message : string) (timeout_ : Num.pynum) (w : World) (q : Process)
          (reply : Turn),
      fst (send message timeout_ w q) = Returns (Some reply) ->
      exists usage : Z,
        successful_exchange w usage reply /\ exchange_usage w = Some usage /\
        counters (snd (send message timeout_ w q)) =
        (total_tokens (chatGPT q) + usage, usage)) /\
  (forall (message : string) (timeout_ : Num.pynum) (w : World) (q : Process),
      exchange_usage w = None ->
      counters (snd (send message timeout_ w q)) = counters q).
Proof.
  intros H. destruct (session_run_counters p p' us H) as [Ht Hc].
  split; [| split].
  - repeat split; [exact Ht | exact Hc |]. intros E. rewrite Ht, E. reflexivity.
  - intros message timeout_ w q reply Hsend.
    destruct (send_returns_reply_inv message timeout_ w q reply Hsend)
      as (u & Hok & Hu).
    exists u. split; [exact Hok |]. split; [exact Hu |].
    rewrite send_counters, Hu. reflexivity.
  - intros message timeout_ w q Hu. rewrite send_counters, Hu. reflexivity.
Qed.

Lemma sample_session_run :
  session_run Sample.start [15; 7] Sample.after_second.
Proof.
  apply (run_send "2+2?" (Num.PyInt 20) (Sample.world (Sample.ok 15 "4") "2+2?")
           Sample.start Sample.after_second [7]).
  apply (run_send "and 3+3?" (Num.PyInt 20)
           (Sample.world (Sample.bad_request "overloaded") "and 3+3?")
           Sample.after_first Sample.after_second [7]).
  apply (run_command "/undo" (Sample.world (Sample.ok 0 EmptyString) "/undo")
           Sample.after_rejected Sample.after_second [7]).
  apply (run_send "3+3?" (Num.PyInt 20) (Sample.world (Sample.ok 7 "6") "3+3?")
           Sample.after_undo Sample.after_second []).
  apply run_done.
Qed.

Lemma token_accounting_witness :
  session_run Sample.start [15; 7] Sample.after_second /\
  total_tokens (chatGPT Sample.after_second) =
    total_tokens (chatGPT Sample.start) + sum_Z [15; 7].
Proof.
  split; [exact sample_session_run |].
  exact (proj1 (proj1 (token_accounting _ _ _ sample_session_run))).
Defined.

(** C2 fails as stated: a response that carries a usage of 9 tokens and no
    reply makes [send] raise, and both counters have taken the 9 tokens. *)
Lemma counters_updated_by_failed_exchange :
  send "hi" (Num.PyInt 20)
    (Sample.world
       (Returns {| status_code := 200; http_error_msg := EmptyString;
                   response_json :=
                     Returns {| error_message := Raises (KeyError "error");
                                usage_total_tokens := Returns 9;
                                choices_0_message := Raises (KeyError "choices") |} |})
       "hi")
    Sample.start =
  (Raises (KeyError "choices"),
   {| chatGPT := {| messages := messages (chatGPT Sample.start) ++
                                [{| role := "user"; content := "hi" |}];
                    total_tokens := 9; current_tokens := 9 |};
      chat_settings := chat_settings Sample.start;
      files := files Sample.start;
      output := output Sample.start |}).
Proof. vm_compute. reflexivity. Qed.

(** ** C3: undo after a successful exchange *)

(** The notice of [/undo] for the question removed. *)
Lemma length_gt_2 (l : list Turn) (a b : Turn) :
  l <> [] -> (2 <? length (l ++ [a; b]))%nat = true.
Proof.
  intros H. apply Nat.ltb_lt. rewrite length_app. cbn.
  destruct l; [contradiction | cbn; lia].
Qed.

(** What [/undo] does, by the number of messages: the two pops come before
    the notice, so they stand also when the notice does not render. *)
Lemma undo_branch_spec (w : World) (p : Process) :
  (forall (l : list Turn) (q a : Turn),
      messages (chatGPT p) = l ++ [q; a] -> l <> [] ->
      let notice :=
        "[dim]Last question: '" +:+
        (if (String.length (Text.first_line (content q)) <?
             String.length (content q))%nat
         then Text.first_line (content q) +:+ "..."
         else Text.first_line (content q)) +:+
        "' and it's answer has been removed." in
      undo_branch w p =
      match Rich.render (python w) notice with
      | None =>
          (Returns tt,
           {| chatGPT := set_messages l (chatGPT p);
              chat_settings := chat_settings p;
              files := files p;
              output := output p ++ [ConsolePrint notice] |})
      | Some message =>
          (Raises (MarkupError message),
           {| chatGPT := set_messages l (chatGPT p);
              chat_settings := chat_settings p;
              files := files p;
              output := output p |})
      end) /\
  ((length (messages (chatGPT p)) <= 2)%nat ->
   undo_branch w p =
   (Returns tt,
    {| chatGPT := chatGPT p; chat_settings := chat_settings p; files := files p;
       output := output p ++ [ConsolePrint "[dim]Nothing to undo."] |})).
Proof.
  destruct p as [[msgs tot cur] st fs out].
  unfold undo_branch, messages_pop, set_messages. unfold_monad. cbn. split.
  - intros l q a -> Hl. rewrite (length_gt_2 l q a Hl).
    replace (l ++ [q; a]) with ((l ++ [q]) ++ [a])
      by (rewrite <- app_assoc; reflexivity).
    cbn. pop_appended. pop_appended.
    destruct (Rich.render _ _); reflexivity.
  - intros Hlen.
    assert (E : (2 <? length msgs)%nat = false) by (apply Nat.ltb_ge; exact Hlen).
    rewrite E. render_fixed. reflexivity.
Qed.



(** ** C4: the failures that end the session *)

(** C4. A failure of [send] that ends the session without the snapshot: on
    a response with status 200 whose body is not JSON, [response.json()]
    raises after the [try] statement, where no [except] clause applies.
    The exception leaves [send] and the loop of [main], so the session
    ends, but the user message is not popped, no error is reported and no
    back-up is written: the clause for [Exception] is not the only way a
    failure of [send] ends the session. *)
Theorem send_failure_without_backup :
  loop_body
    (Sample.world
       (Returns {| status_code := 200; http_error_msg := EmptyString;
                   response_json :=
                     Raises (requests_JSONDecodeError
                               "Expecting value: line 1 column 1 (char 0)") |}) "hi")
    Sample.start =
  (Raises (requests_JSONDecodeError "Expecting value: line 1 column 1 (char 0)"),
   {| chatGPT := {| messages := messages (chatGPT Sample.start) ++
                                [{| role := "user"; content := "hi" |}];
                    total_tokens := 0; current_tokens := 0 |};
      chat_settings := chat_settings Sample.start;
      files := files Sample.start;
      output := output Sample.start ++ [LogInfo "> hi"] |}).
Proof. vm_compute. reflexivity. Qed.

(** ** C5: the system prompt *)



(** ** C10: the transcript and its first message *)

(** C10. An outcome of [send] that empties the transcript: in a new
    session, when the server answers 400 with an error message that holds
    a closing tag matching no open tag, the [try] block of [send] has
    popped the user message when [console.print] raises, the clause for
    [Exception] pops once more, and the transcript is left without any
    message. The exception of the notice that the clause prints then
    leaves [send] and the loop. *)
Theorem transcript_emptied :
  loop_body (Sample.world (Sample.bad_request "[/x]") "hi") Sample.start =
  (Raises (MarkupError "closing tag '[/x]' at position 25 doesn't match any open tag"),
   {| chatGPT := {| messages := []; total_tokens := 0; current_tokens := 0 |};
      chat_settings := chat_settings Sample.start;
      files := files Sample.start;
      output := output Sample.start ++ [LogInfo "> hi"] |}) /\
  messages (chatGPT Sample.start) =
  [{| role := "system"; content := "You are a helpful assistant." |}].
Proof. split; vm_compute; reflexivity. Qed.
(** ** Facts about [str] and [float] *)

Lemma has_char_app (c : ascii) (a b : string) :
  Num.has_char c (a +:+ b) = Num.has_char c a || Num.has_char c b.
Proof.
  induction a as [| d a IH]; [reflexivity |].
  change (String d a +:+ b) with (String d (a +:+ b)).
  cbn [Num.has_char]. rewrite IH. apply orb_assoc.
Qed.

Lemma float_marked_app_l (a b : string) :
  Num.float_marked a = true -> Num.float_marked (a +:+ b) = true.
Proof.
  unfold Num.float_marked. rewrite !has_char_app.
  destruct (Num.has_char "." a), (Num.has_char "e" a), (Num.has_char "n" a);
    cbn; intros H; try discriminate; rewrite ?orb_true_r; reflexivity.
Qed.

Lemma float_marked_app_r (a b : string) :
  Num.float_marked b = true -> Num.float_marked (a +:+ b) = true.
Proof.
  unfold Num.float_marked. rewrite !has_char_app.
  destruct (Num.has_char "." b), (Num.has_char "e" b), (Num.has_char "n" b);
    cbn; intros H; try discriminate; rewrite ?orb_true_r; reflexivity.
Qed.

Lemma layout_marked (ds : string) (decpt : Z) :
  Num.float_marked (Num.layout ds decpt) = true.
Proof.
  unfold Num.layout.
  destruct ((decpt <=? -4) || (16 <? decpt)).
  - apply float_marked_app_r, float_marked_app_l. reflexivity.
  - destruct (decpt <=? 0).
    + apply float_marked_app_l. reflexivity.
    + destruct (decpt <? Z.of_nat (String.length ds)).
      * apply float_marked_app_r, float_marked_app_l. reflexivity.
      * apply float_marked_app_r, float_marked_app_r. reflexivity.
Qed.

(** The text of a float always shows a point, an exponent, [inf] or
    [nan]. *)
Lemma float_repr_marked (x : spec_float) :
  Num.float_marked (Num.float_repr x) = true.
Proof.
  destruct x as [s | s | | s m e]; cbn.
  - destruct s; reflexivity.
  - destruct s; reflexivity.
  - reflexivity.
  - destruct (Num.shortest m e) as [d k].
    apply float_marked_app_r, layout_marked.
Qed.

Lemma to_int_not_nil (z : Z) :
  Z.to_int z <> Decimal.Pos Decimal.Nil /\ Z.to_int z <> Decimal.Neg Decimal.Nil.
Proof.
  destruct z as [| q | q]; cbn; split; try discriminate;
    intros H; injection H as H; exact (Unsigned.to_uint_nonnil q H).
Qed.

(** The text of an integer reads back as that integer. *)
Lemma str_of_Z_inv (z : Z) (s : string) :
  Num.str_of_Z z = s -> NilZero.int_of_string s = Some (Z.to_int z).
Proof.
  intros <-. unfold Num.str_of_Z.
  destruct (to_int_not_nil z) as [H1 H2]. apply NilZero.isi; assumption.
Qed.

Lemma py_str_30 (t : Num.pynum) : Num.py_str t = "30" -> t = Num.PyInt 30.
Proof.
  destruct t as [z | x]; unfold Num.py_str; intros H.
  - apply str_of_Z_inv in H. cbn in H. injection H as H.
    f_equal. rewrite <- (of_to z), <- H. reflexivity.
  - pose proof (float_repr_marked x) as Hm. rewrite H in Hm. discriminate.
Qed.

Lemma py_str_not_abc (t : Num.pynum) : Num.py_str t <> "abc".
Proof.
  destruct t as [z | x]; unfold Num.py_str; intros H.
  - apply str_of_Z_inv in H. cbn in H. discriminate.
  - pose proof (float_repr_marked x) as Hm. rewrite H in Hm. discriminate.
Qed.

(** ** C7: the command [/timeout] *)

(** C7, with the case of the integer 30. For every current time-out, the
    command
    [/timeout abc] prints that the input must be a number and changes
    nothing else. The command [/timeout 30] sets the time-out to the float
    30.0 and prints the new value, unless the current time-out is the
    integer 30, whose text is already [30]: then it prints that nothing
    changed and the time-out stays the integer 30. In both cases the
    time-out compares equal to 30.0 afterwards. *)
Theorem timeout_command (w : World) (p : Process) :
  handle_command "/timeout abc" w p =
    (Returns tt,
     {| chatGPT := chatGPT p; chat_settings := chat_settings p; files := files p;
        output := output p ++ [ConsolePrint "[red]Input must be a number"] |}) /\
  (timeout (chat_settings p) <> Num.PyInt 30 ->
   handle_command "/timeout 30" w p =
    (Returns tt,
     {| chatGPT := chatGPT p;
        chat_settings := {| raw_mode := raw_mode (chat_settings p);
                            multi_line_mode := multi_line_mode (chat_settings p);
                            timeout := Num.PyFloat Sample.float_30 |};
        files := files p;
        output := output p ++ [ConsolePrint "[dim]API timeout set to [green]30s[/]."] |})) /\
  (timeout (chat_settings p) = Num.PyInt 30 ->
   handle_command "/timeout 30" w p =
    (Returns tt,
     {| chatGPT := chatGPT p; chat_settings := chat_settings p; files := files p;
        output := output p ++ [ConsolePrint "[dim]No cahnge."] |})) /\
  Num.py_eq (timeout (chat_settings (snd (handle_command "/timeout 30" w p))))
            (Num.PyFloat Sample.float_30) = true.
Proof.
  destruct p as [g [raw multi t] fs out].
  assert (Habc : handle_command "/timeout abc" w
                   {| chatGPT := g;
                      chat_settings := {| raw_mode := raw; multi_line_mode := multi;
                                          timeout := t |};
                      files := fs; output := out |} =
                 (Returns tt,
                  {| chatGPT := g;
                     chat_settings := {| raw_mode := raw; multi_line_mode := multi;
                                         timeout := t |};
                     files := fs;
                     output := out ++ [ConsolePrint "[red]Input must be a number"] |})).
  { assert (Hne : Text.eqb "abc" (Num.py_str t) = false).
    { apply String.eqb_neq. intros E. exact (py_str_not_abc t (eq_sym E)). }
    assert (Hfloat : Py.float (python w) "abc" = None) by (vm_compute; reflexivity).
    change (handle_command "/timeout abc") with (timeout_branch "/timeout abc").
    unfold timeout_branch, timeout_new_timeout, set_timeout.
    unfold_monad. cbn -[Text.eqb].
    change (Py.split (python w) "/timeout abc") with ["/timeout"; "abc"].
    change (1 <? length ["/timeout"; "abc"])%nat with true.
    cbn -[Text.eqb]. rewrite Hne. cbn. rewrite Hfloat.
    render_fixed. reflexivity. }
  assert (Hset : t <> Num.PyInt 30 ->
                 handle_command "/timeout 30" w
                   {| chatGPT := g;
                      chat_settings := {| raw_mode := raw; multi_line_mode := multi;
                                          timeout := t |};
                      files := fs; output := out |} =
                 (Returns tt,
                  {| chatGPT := g;
                     chat_settings := {| raw_mode := raw; multi_line_mode := multi;
                                         timeout := Num.PyFloat Sample.float_30 |};
                     files := fs;
                     output := out ++ [ConsolePrint "[dim]API timeout set to [green]30s[/]."] |})).
  { intros Ht.
    assert (Hne : Text.eqb "30" (Num.py_str t) = false).
    { apply String.eqb_neq. intros E. exact (Ht (py_str_30 t (eq_sym E))). }
    assert (Hfloat : Py.float (python w) "30" = Some Sample.float_30)
      by (vm_compute; reflexivity).
    change (handle_command "/timeout 30") with (timeout_branch "/timeout 30").
    unfold timeout_branch, timeout_new_timeout, set_timeout.
    unfold_monad. cbn -[Text.eqb].
    change (Py.split (python w) "/timeout 30") with ["/timeout"; "30"].
    change (1 <? length ["/timeout"; "30"])%nat with true.
    cbn -[Text.eqb]. rewrite Hne. cbn. rewrite Hfloat. cbn.
    render_fixed. reflexivity. }
  assert (Hkeep : t = Num.PyInt 30 ->
                  handle_command "/timeout 30" w
                    {| chatGPT := g;
                       chat_settings := {| raw_mode := raw; multi_line_mode := multi;
                                           timeout := t |};
                       files := fs; output := out |} =
                  (Returns tt,
                   {| chatGPT := g;
                      chat_settings := {| raw_mode := raw; multi_line_mode := multi;
                                          timeout := t |};
                      files := fs;
                      output := out ++ [ConsolePrint "[dim]No cahnge."] |})).
  { intros ->. reflexivity. }
  cbn [chatGPT chat_settings files output timeout raw_mode multi_line_mode].
  repeat split; try assumption.
  destruct t as [z | x].
  - destruct (Z.eq_dec z 30) as [-> | Hz].
    + reflexivity.
    + rewrite Hset by congruence. reflexivity.
  - rewrite Hset by discriminate. reflexivity.
Qed.

Lemma timeout_command_witness :
  timeout (chat_settings Sample.start) <> Num.PyInt 30 /\
  handle_command "/timeout 30" (Sample.world (Sample.ok 0 EmptyString) "/timeout 30")
    Sample.start =
  (Returns tt,
   {| chatGPT := chatGPT Sample.start;
      chat_settings := {| raw_mode := raw_mode (chat_settings Sample.start);
                          multi_line_mode := multi_line_mode (chat_settings Sample.start);
                          timeout := Num.PyFloat Sample.float_30 |};
      files := files Sample.start;
      output := output Sample.start ++
                [ConsolePrint "[dim]API timeout set to [green]30s[/]."] |}).
Proof.
  assert (H : timeout (chat_settings Sample.start) <> Num.PyInt 30) by discriminate.
  split; [exact H |].
  exact (proj1 (proj2 (timeout_command
                         (Sample.world (Sample.ok 0 EmptyString) "/timeout 30")
                         Sample.start)) H).
Defined.

(** C7 fails when the time-out is configured as the integer 30:
    [/timeout 30] reports no change and the time-out is still that integer,
    not a float. *)
Lemma timeout_30_keeps_integer_30 :
  handle_command "/timeout 30" (Sample.world (Sample.ok 0 EmptyString) "/timeout 30")
    Sample.thirty =
  (Returns tt,
   {| chatGPT := chatGPT Sample.thirty;
      chat_settings := chat_settings Sample.thirty;
      files := files Sample.thirty;
      output := output Sample.thirty ++ [ConsolePrint "[dim]No cahnge."] |}) /\
  timeout (chat_settings Sample.thirty) = Num.PyInt 30 /\
  Num.PyInt 30 <> Num.PyFloat Sample.float_30.
Proof. repeat split. discriminate. Qed.
(** ** Facts about [lower], [strip] and [split] *)

Lemma is_space_lower_char (c : ascii) :
  Text.is_space (Text.lower_char c) = Text.is_space c.
Proof. destruct c as [[] [] [] [] [] [] [] []]; reflexivity. Qed.


Lemma lower_cons (c : ascii) (s : string) :
  Text.lower (String c s) = String (Text.lower_char c) (Text.lower s).
Proof. reflexivity. Qed.



Lemma startswith_slash_lower (s : string) :
  Text.startswith (Text.lower s) "/" = Text.startswith s "/".
Proof.
  destruct s as [| c s]; [reflexivity |].
  rewrite lower_cons.
  destruct c as [[] [] [] [] [] [] [] []]; reflexivity.
Qed.

Lemma lower_lstrip (s : string) :
  Text.lower (Text.lstrip_with Text.is_space s) =
  Text.lstrip_with Text.is_space (Text.lower s).
Proof.
  induction s as [| c s IH]; [reflexivity |].
  rewrite lower_cons. cbn. rewrite is_space_lower_char.
  destruct (Text.is_space c); [exact IH | apply lower_cons].
Qed.

Lemma lower_rstrip (s : string) :
  Text.lower (Text.rstrip_with Text.is_space s) =
  Text.rstrip_with Text.is_space (Text.lower s).
Proof.
  induction s as [| c s IH]; [reflexivity |].
  rewrite lower_cons. cbn. rewrite <- IH, is_space_lower_char.
  destruct (Text.rstrip_with Text.is_space s) as [| d r].
  - cbn. destruct (Text.is_space c); reflexivity.
  - rewrite (lower_cons d r). apply lower_cons.
Qed.

(** Lower-casing and stripping commute. *)
Lemma lower_strip (s : string) :
  Text.lower (Text.strip s) = Text.strip (Text.lower s).
Proof.
  unfold Text.strip, Text.strip_with. rewrite lower_lstrip, lower_rstrip.
  reflexivity.
Qed.










(** ** The turns of the loop *)

Lemma is_message_cons (line : string) :
  is_message line -> exists (c : ascii) (m : string), line = String c m.
Proof.
  intros [_ Hne]. destruct line as [| c m]; [contradiction | eauto].
Qed.

(** The start of a turn on a message: the line is logged and [send] is
    called with the current time-out. *)
Lemma loop_body_message (w : World) (p : Process) (line : string) :
  session_prompt w = Returns line ->
  is_message line ->
  loop_body w p =
  try_except
    (reply <- send line (timeout (chat_settings p)) ;;
     match reply with
     | Some r => log_info ("ChatGPT: " +:+ content r) ;; print_message r
     | None => ret tt
     end ;;
     if Text.mem (Py.lower (python w) line) farewells then ret Break else ret Continue)
    (fun e =>
       if is_KeyboardInterrupt e then ret Continue
       else if is_EOFError e then console_print "Exiting..." ;; ret Break
       else raise e) w
    {| chatGPT := chatGPT p; chat_settings := chat_settings p; files := files p;
       output := output p ++ [LogInfo ("> " +:+ line)] |}.
Proof.
  intros Hprompt Hmsg. destruct (is_message_cons _ Hmsg) as (c & m & ->).
  destruct Hmsg as [Hslash _].
  unfold loop_body. unfold_monad. rewrite Hprompt, Hslash. reflexivity.
Qed.

(** The start of a turn on a command: the line, stripped and lower-cased,
    goes to [handle_command]. *)
Lemma loop_body_command (w : World) (p : Process) (line : string) :
  session_prompt w = Returns line ->
  Text.startswith line "/" = true ->
  loop_body w p =
  try_except
    (handle_command (Py.lower (python w) (Py.strip (python w) line)) ;; ret Continue)
    (fun e =>
       if is_KeyboardInterrupt e then ret Continue
       else if is_EOFError e then console_print "Exiting..." ;; ret Break
       else raise e) w p.
Proof.
  intros Hprompt Hslash. unfold loop_body. unfold_monad.
  rewrite Hprompt, Hslash. reflexivity.
Qed.

(** [print_message] returns, and what it prints. *)
Lemma print_message_spec (t : Turn) (w : World) (p : Process) :
  print_message t w p =
  (Returns tt,
   {| chatGPT := chatGPT p; chat_settings := chat_settings p; files := files p;
      output := output p ++
                if Text.eqb (role t) "user" then [Print ("> " +:+ content t)]
                else if Text.eqb (role t) "assistant" then
                  [ConsolePrint "ChatGPT: ";
                   if raw_mode (chat_settings p) then Print (content t)
                   else ConsoleMarkdown (content t)]
                else [] |}).
Proof.
  unfold print_message. unfold_monad.
  destruct (Text.eqb (role t) "user"); [reflexivity |].
  destruct (Text.eqb (role t) "assistant").
  - render_fixed. destruct (raw_mode (chat_settings p)); cbn;
      rewrite <- app_assoc; reflexivity.
  - rewrite app_nil_r. destruct p; reflexivity.
Qed.

(** ** C8: the farewell words *)

(** C8. For every message line whose lower-cased text is one of the
    farewell words of the loop: in a turn on that line, [send] is called
    with the line, after the line has been logged; when the call returns,
    with a reply or with [None], the reply (if any) is logged and printed
    and the turn ends with [break], so the session is over after that
    turn. *)
Theorem farewell_ends_session (w : World) (p p1 : Process) (message : string)
    (r : option Turn) :
  session_prompt w = Returns message ->
  is_message message ->
  Text.mem (Py.lower (python w) message) farewells = true ->
  send message (timeout (chat_settings p)) w
    {| chatGPT := chatGPT p; chat_settings := chat_settings p; files := files p;
       output := output p ++ [LogInfo ("> " +:+ message)] |} = (Returns r, p1) ->
  loop_body w p =
  (Returns Break,
   match r with
   | Some reply =>
       snd (print_message reply w
              {| chatGPT := chatGPT p1; chat_settings := chat_settings p1;
                 files := files p1;
                 output := output p1 ++ [LogInfo ("ChatGPT: " +:+ content reply)] |})
   | None => p1
   end).
Proof.
  intros Hprompt Hmsg Hmem Hsend.
  rewrite (loop_body_message w p message Hprompt Hmsg).
  unfold try_except, bind at 1. unfold bind at 1. rewrite Hsend, Hmem.
  destruct r as [reply |].
  - unfold bind at 1. unfold log_info at 1, emit at 1.
    rewrite print_message_spec. reflexivity.
  - reflexivity.
Qed.

Lemma farewell_ends_session_witness :
  loop_body (Sample.world (Sample.bad_request "overloaded") "Bye") Sample.start =
  (Returns Break,
   {| chatGPT := chatGPT Sample.start; chat_settings := chat_settings Sample.start;
      files := files Sample.start;
      output := output Sample.start ++
                [LogInfo "> Bye"; ConsolePrint "[red]Error: overloaded";
                 LogError "overloaded"] |}).
Proof.
  apply (farewell_ends_session (Sample.world (Sample.bad_request "overloaded") "Bye")
           Sample.start _ "Bye" None).
  - reflexivity.
  - split; [reflexivity | discriminate].
  - reflexivity.
  - reflexivity.
Defined.

(** ** C9: the arguments of commands are lower-cased *)

Lemma startswith_app (s q : string) :
  Text.startswith s q = true -> exists r : string, s = q +:+ r.
Proof.
  revert s. induction q as [| a q IH]; intros s H.
  - exists s. reflexivity.
  - destruct s as [| b s]; [discriminate |]. cbn in H.
    apply andb_true_iff in H as [Hab Hq]. apply Ascii.eqb_eq in Hab. subst b.
    destruct (IH s Hq) as [r ->]. exists r. reflexivity.
Qed.

(** A command that starts with [/save] reaches the branch of [/save]. *)
Lemma handle_command_save (command : string) :
  Text.startswith command "/save" = true ->
  handle_command command =
  (filename <- save_filename command ;; save_chat_history filename).
Proof.
  intros H. unfold handle_command, Text.eqb.
  repeat match goal with
         | |- context [String.eqb command ?lit] =>
             destruct (String.eqb_spec command lit) as [E | _];
             [rewrite E in H; discriminate H |]
         end.
  rewrite H. reflexivity.
Qed.

(** A command that starts with [/system] reaches the branch of
    [/system]. *)
Lemma handle_command_system (command : string) :
  Text.startswith command "/system" = true ->
  handle_command command = system_branch command.
Proof.
  intros H. unfold handle_command, Text.eqb.
  repeat match goal with
         | |- context [String.eqb command ?lit] =>
             destruct (String.eqb_spec command lit) as [E | _];
             [rewrite E in H; discriminate H |]
         end.
  destruct (Text.startswith command "/save") eqn:Hs.
  - apply startswith_app in H as [r1 E1]. apply startswith_app in Hs as [r2 E2].
    rewrite E1 in E2. discriminate E2.
  - rewrite H. reflexivity.
Qed.

(** A command that starts with [/timeout] reaches the branch of
    [/timeout]. *)
Lemma handle_command_timeout (command : string) :
  Text.startswith command "/timeout" = true ->
  handle_command command = timeout_branch command.
Proof.
  intros H. unfold handle_command, Text.eqb.
  repeat match goal with
         | |- context [String.eqb command ?lit] =>
             destruct (String.eqb_spec command lit) as [E | _];
             [rewrite E in H; discriminate H |]
         end.
  destruct (Text.startswith command "/save") eqn:Hs.
  { apply startswith_app in H as [r1 E1]. apply startswith_app in Hs as [r2 E2].
    rewrite E1 in E2. discriminate E2. }
  destruct (Text.startswith command "/system") eqn:Hy.
  { apply startswith_app in H as [r1 E1]. apply startswith_app in Hy as [r2 E2].
    rewrite E1 in E2. discriminate E2. }
  rewrite H. reflexivity.
Qed.















(** ** Facts about the JSON encoder and decoder *)

Lemma append_cons (x : ascii) (a b : string) :
  String x a +:+ b = String x (a +:+ b).
Proof. reflexivity. Qed.

Lemma append_nil (b : string) : EmptyString +:+ b = b.
Proof. reflexivity. Qed.

Lemma append_assoc (a b c : string) : (a +:+ b) +:+ c = a +:+ (b +:+ c).
Proof.
  induction a as [| x a IH]; [reflexivity |].
  rewrite !append_cons, IH. reflexivity.
Qed.

Lemma length_append (a b : string) :
  String.length (a +:+ b) = (String.length a + String.length b)%nat.
Proof.
  induction a as [| x a IH]; [reflexivity |].
  rewrite append_cons. cbn. rewrite IH. reflexivity.
Qed.

(** The decoder reads an encoded character back. *)
Lemma scanstring_encode_char (c : ascii) (rest : string) :
  Json.scanstring (Json.encode_char c +:+ rest) =
  match Json.scanstring rest with
  | Some (t, r) => Some (String c t, r)
  | None => None
  end.
Proof. destruct c as [[] [] [] [] [] [] [] []]; reflexivity. Qed.

(** The decoder reads an encoded string back, up to its closing quote. *)
Lemma scanstring_encode (s rest : string) :
  Json.scanstring (Json.encode_chars s +:+ String Json.quote rest) = Some (s, rest).
Proof.
  induction s as [| c s IH]; [reflexivity |].
  cbn [Json.encode_chars]. rewrite append_assoc, scanstring_encode_char, IH.
  reflexivity.
Qed.

Lemma scan_once_S (fuel : nat) (s : string) :
  Json.scan_once (S fuel) s =
  Json.value_step (Json.object_loop fuel) (Json.array_loop fuel) s.
Proof. reflexivity. Qed.

Lemma array_loop_S (fuel : nat) (s : string) :
  Json.array_loop (S fuel) s =
  Json.array_step (Json.scan_once fuel) (Json.array_loop fuel) s.
Proof. reflexivity. Qed.

Lemma object_loop_S (fuel : nat) (s : string) :
  Json.object_loop (S fuel) s =
  Json.object_step (Json.scan_once fuel) (Json.object_loop fuel) s.
Proof. reflexivity. Qed.

Lemma scan_once_string (fuel : nat) (s rest : string) :
  Json.scan_once (S fuel) (Json.encode_string s +:+ rest) = Some (Json.JStr s, rest).
Proof.
  unfold Json.encode_string.
  rewrite append_cons, append_assoc, append_cons, append_nil.
  rewrite scan_once_S. unfold Json.value_step.
  change (N_of_ascii Json.quote =? 34)%N with true. cbv iota.
  rewrite scanstring_encode. reflexivity.
Qed.

(** The text of a message, laid out as the encoder writes it inside the
    list, followed by [rest]. *)
Lemma dumps_turn (t : Turn) (rest : string) :
  Json.dumps_at 1 (json_of_turn t) +:+ rest =
  "{" +:+ Json.newline_indent 2 +:+
  Json.encode_string "role" +:+ ": " +:+ Json.encode_string (role t) +:+
  "," +:+ Json.newline_indent 2 +:+
  Json.encode_string "content" +:+ ": " +:+ Json.encode_string (content t) +:+
  Json.newline_indent 1 +:+ "}" +:+ rest.
Proof.
  unfold json_of_turn. cbn [Json.dumps_at map Text.join].
  rewrite !append_assoc. reflexivity.
Qed.

(** A key, the colon, a string value and what follows them. *)
Lemma object_step_member (scan : string -> option (Json.json * string))
    (loop : string -> option (list (string * Json.json) * string))
    (key value rest : string) :
  scan (Json.encode_string value +:+ rest) = Some (Json.JStr value, rest) ->
  Json.object_step scan loop
    (Json.encode_chars key +:+ String Json.quote (": " +:+ Json.encode_string value +:+ rest)) =
  match Json.skip_ws rest with
  | String c2 r3 =>
      if (N_of_ascii c2 =? 125)%N then Some ([(key, Json.JStr value)], r3)
      else if (N_of_ascii c2 =? 44)%N then
        match Json.skip_ws r3 with
        | String c3 r4 =>
            if Json.is_quote c3 then
              match loop r4 with
              | Some (kvs, r5) => Some ((key, Json.JStr value) :: kvs, r5)
              | None => None
              end
            else None
        | EmptyString => None
        end
      else None
  | EmptyString => None
  end.
Proof.
  intros Hscan. unfold Json.object_step. rewrite scanstring_encode.
  change (Json.skip_ws (": " +:+ Json.encode_string value +:+ rest))
    with (String ":" (" " +:+ Json.encode_string value +:+ rest)).
  change (N_of_ascii ":" =? 58)%N with true. cbv iota.
  change (Json.skip_ws (" " +:+ Json.encode_string value +:+ rest))
    with (Json.encode_string value +:+ rest).
  rewrite Hscan. reflexivity.
Qed.

(** Decides the tests on the characters that are known. *)
Ltac decide_tests :=
  cbv beta iota zeta;
  repeat (match goal with
          | |- context [(N_of_ascii ?c =? ?k)%N] =>
              is_ground c;
              let v := eval vm_compute in (N_of_ascii c =? k)%N in
              change (N_of_ascii c =? k)%N with v
          | |- context [Json.is_quote ?c] =>
              is_ground c;
              let v := eval vm_compute in (Json.is_quote c) in
              change (Json.is_quote c) with v
          end; cbv beta iota zeta).

(** The decoder reads an encoded message back. *)
Lemma scan_once_turn (fuel : nat) (t : Turn) (rest : string) :
  Json.scan_once (S (S (S (S fuel)))) (Json.dumps_at 1 (json_of_turn t) +:+ rest) =
  Some (json_of_turn t, rest).
Proof.
  rewrite dumps_turn.
  rewrite scan_once_S. unfold Json.value_step.
  change ("{" +:+ ?x) with (String "{" x).
  decide_tests.
  match goal with
  | |- context [Json.skip_ws (Json.newline_indent 2 +:+ Json.encode_string "role" +:+ ?x)] =>
      change (Json.skip_ws (Json.newline_indent 2 +:+ Json.encode_string "role" +:+ x))
        with (String Json.quote (Json.encode_chars "role" +:+ String Json.quote x))
  end.
  decide_tests.
  rewrite object_loop_S.
  rewrite (object_step_member _ _ "role" (role t) _ (scan_once_string _ _ _)).
  match goal with
  | |- context [Json.skip_ws ("," +:+ Json.newline_indent 2 +:+ Json.encode_string "content" +:+ ?x)] =>
      change (Json.skip_ws ("," +:+ Json.newline_indent 2 +:+ Json.encode_string "content" +:+ x))
        with (String "," (Json.newline_indent 2 +:+ Json.encode_string "content" +:+ x));
      decide_tests;
      change (Json.skip_ws (Json.newline_indent 2 +:+ Json.encode_string "content" +:+ x))
        with (String Json.quote (Json.encode_chars "content" +:+ String Json.quote x))
  end.
  decide_tests.
  rewrite object_loop_S.
  rewrite (object_step_member _ _ "content" (content t) _ (scan_once_string _ _ _)).
  change (Json.skip_ws (Json.newline_indent 1 +:+ "}" +:+ rest)) with (String "}" rest).
  decide_tests.
  reflexivity.
Qed.

(** The decoder reads back the messages of a list, separated as the
    encoder separates them, up to the closing bracket. *)
Lemma array_loop_turns (ts : list Turn) (t : Turn) (rest : string) (fuel : nat) :
  (length ts + 4 <= fuel)%nat ->
  Json.array_loop (S fuel)
    (Text.join ("," +:+ Json.newline_indent 1)
       (map (Json.dumps_at 1) (map json_of_turn (t :: ts))) +:+
     Json.newline_indent 0 +:+ "]" +:+ rest) =
  Some (map json_of_turn (t :: ts), rest).
Proof.
  revert t fuel. induction ts as [| t' ts IH]; intros t fuel Hfuel.
  - cbn [map Text.join length] in *.
    destruct fuel as [| [| [| [| fuel]]]]; try lia.
    rewrite array_loop_S. unfold Json.array_step.
    rewrite scan_once_turn.
    change (Json.skip_ws (Json.newline_indent 0 +:+ "]" +:+ rest)) with (String "]" rest).
    decide_tests. reflexivity.
  - cbn [length] in Hfuel.
    change (Text.join ("," +:+ Json.newline_indent 1)
              (map (Json.dumps_at 1) (map json_of_turn (t :: t' :: ts))))
      with (Json.dumps_at 1 (json_of_turn t) +:+ ("," +:+ Json.newline_indent 1) +:+
            Text.join ("," +:+ Json.newline_indent 1)
              (map (Json.dumps_at 1) (map json_of_turn (t' :: ts)))).
    rewrite !append_assoc.
    destruct fuel as [| [| [| [| fuel]]]]; try lia.
    rewrite array_loop_S. unfold Json.array_step.
    rewrite scan_once_turn.
    match goal with
    | |- context [Json.skip_ws ("," +:+ ?x)] =>
        change (Json.skip_ws ("," +:+ x)) with (String "," x)
    end.
    decide_tests.
    assert (Hskip : forall x : string,
               Json.skip_ws (Json.newline_indent 1 +:+
                             Text.join ("," +:+ Json.newline_indent 1)
                               (map (Json.dumps_at 1) (map json_of_turn (t' :: ts))) +:+ x) =
               Text.join ("," +:+ Json.newline_indent 1)
                 (map (Json.dumps_at 1) (map json_of_turn (t' :: ts))) +:+ x).
    { intros x. destruct ts as [| t'' ts'].
      - cbn [map Text.join]. rewrite dumps_turn. reflexivity.
      - change (Text.join ("," +:+ Json.newline_indent 1)
                  (map (Json.dumps_at 1) (map json_of_turn (t' :: t'' :: ts'))))
          with (Json.dumps_at 1 (json_of_turn t') +:+ ("," +:+ Json.newline_indent 1) +:+
                Text.join ("," +:+ Json.newline_indent 1)
                  (map (Json.dumps_at 1) (map json_of_turn (t'' :: ts')))).
        rewrite !append_assoc, dumps_turn. reflexivity. }
    rewrite Hskip.
    rewrite (IH t' (S (S (S fuel)))) by lia.
    reflexivity.
Qed.

Lemma join_starts_with_brace (ts : list Turn) (t : Turn) (rest : string) :
  exists tail : string,
    Text.join ("," +:+ Json.newline_indent 1)
      (map (Json.dumps_at 1) (map json_of_turn (t :: ts))) +:+ rest =
    String "{" tail.
Proof.
  destruct ts as [| t' ts].
  - cbn [map Text.join]. rewrite dumps_turn. eexists. reflexivity.
  - change (Text.join ("," +:+ Json.newline_indent 1)
              (map (Json.dumps_at 1) (map json_of_turn (t :: t' :: ts))))
      with (Json.dumps_at 1 (json_of_turn t) +:+ ("," +:+ Json.newline_indent 1) +:+
            Text.join ("," +:+ Json.newline_indent 1)
              (map (Json.dumps_at 1) (map json_of_turn (t' :: ts)))).
    rewrite !append_assoc, dumps_turn. eexists. reflexivity.
Qed.

Lemma value_step_array
    (obj : string -> option (list (string * Json.json) * string))
    (arr : string -> option (list Json.json * string)) (text tail : string) :
  text = String "{" tail ->
  Json.value_step obj arr ("[" +:+ Json.newline_indent 1 +:+ text) =
  match arr text with
  | Some (vs, r) => Some (Json.JArr vs, r)
  | None => None
  end.
Proof. intros ->. reflexivity. Qed.

Lemma join_length (sep : string) (x : string) (l : list string) :
  (length l <= String.length (Text.join (String "," sep) (x :: l)))%nat.
Proof.
  revert x. induction l as [| y l IH]; intros x; [cbn; lia |].
  change (Text.join (String "," sep) (x :: y :: l))
    with (x +:+ String "," sep +:+ Text.join (String "," sep) (y :: l)).
  rewrite !length_append. specialize (IH y). cbn [length String.length]. lia.
Qed.

(** Decoding the encoded messages gives them back. *)
Lemma loads_dumps_messages (l : list Turn) :
  Json.loads (Json.dumps (json_of_messages l)) = Some (json_of_messages l).
Proof.
  destruct l as [| t ts]; [reflexivity |].
  unfold Json.loads, Json.dumps, json_of_messages.
  set (items := map json_of_turn (t :: ts)).
  assert (Hd : Json.dumps_at 0 (Json.JArr items) =
               "[" +:+ Json.newline_indent 1 +:+
               Text.join ("," +:+ Json.newline_indent 1) (map (Json.dumps_at 1) items) +:+
               Json.newline_indent 0 +:+ "]").
  { reflexivity. }
  rewrite Hd.
  set (text := Text.join ("," +:+ Json.newline_indent 1) (map (Json.dumps_at 1) items) +:+
               Json.newline_indent 0 +:+ "]").
  assert (Hlen : (length ts + 5 <= String.length ("[" +:+ Json.newline_indent 1 +:+ text))%nat).
  { unfold text. rewrite !length_append.
    pose proof (join_length (Json.newline_indent 1)
                  (Json.dumps_at 1 (json_of_turn t))
                  (map (Json.dumps_at 1) (map json_of_turn ts))) as Hj.
    rewrite !length_map in Hj.
    change (String "," (Json.newline_indent 1)) with ("," +:+ Json.newline_indent 1) in Hj.
    change (Json.dumps_at 1 (json_of_turn t) :: map (Json.dumps_at 1) (map json_of_turn ts))
      with (map (Json.dumps_at 1) items) in Hj.
    cbn [String.length Json.newline_indent Json.spaces Nat.mul Nat.add]. lia. }
  change (Json.skip_ws ("[" +:+ Json.newline_indent 1 +:+ text))
    with ("[" +:+ Json.newline_indent 1 +:+ text).
  destruct (String.length ("[" +:+ Json.newline_indent 1 +:+ text)) as [| fuel];
    [lia |].
  rewrite scan_once_S.
  destruct (join_starts_with_brace ts t (Json.newline_indent 0 +:+ "]")) as [tail Htail].
  fold items in Htail. fold text in Htail.
  rewrite (value_step_array _ _ text tail Htail).
  unfold text.
  replace ("]") with ("]" +:+ EmptyString) by reflexivity.
  unfold items.
  rewrite (array_loop_turns ts t EmptyString fuel) by lia.
  reflexivity.
Qed.

Lemma turns_of_list_messages (l : list Turn) :
  turns_of_list (map json_of_turn l) = Some l.
Proof.
  induction l as [| [r c] l IH]; [reflexivity |].
  cbn [map turns_of_list]. rewrite IH. reflexivity.
Qed.

(** The pairs of the JSON of a list of messages are those messages. *)
Lemma turns_of_json_messages (l : list Turn) :
  turns_of_json (json_of_messages l) = Some l.
Proof. apply turns_of_list_messages. Qed.


(** ** C6: saving and loading *)

(** C6. For every transcript, once [save_chat_history] has opened the
    file for writing, the file holds the transcript, whether or not the
    notice that follows renders. [load_chat_history], run by any process
    that finds this file and can read it (the one that saved it or a later
    session), returns a chat history whose ordered (role, content) pairs
    are exactly the messages saved; every message is at the index it had,
    so a system message saved at index 0 is at index 0 of what is loaded,
    and when the only system message of the transcript saved is its first
    message, the same holds of what is loaded. *)
Theorem save_then_load (filename : string) (w w' : World) (p p2 : Process) :
  can_open_w w filename = true ->
  open_r w' filename = None ->
  files p2 !! filename = files (snd (save_chat_history filename w p)) !! filename ->
  files (snd (save_chat_history filename w p)) !! filename =
    Some (Json.dumps (json_of_messages (messages (chatGPT p)))) /\
  chatGPT (snd (save_chat_history filename w p)) = chatGPT p /\
  exists (chat_history : Json.json) (loaded : list Turn),
    load_chat_history filename w' p2 = (Returns (Some chat_history), p2) /\
    turns_of_json chat_history = Some loaded /\
    loaded = messages (chatGPT p) /\
    (forall t : Turn,
        messages (chatGPT p) !! 0%nat = Some t -> role t = "system" ->
        loaded !! 0%nat = Some t) /\
    (system_only_first (messages (chatGPT p)) -> system_only_first loaded).
Proof.
  intros Hopen Hread Hfile.
  assert (Hsaved : files (snd (save_chat_history filename w p)) !! filename =
                   Some (Json.dumps (json_of_messages (messages (chatGPT p)))) /\
                   chatGPT (snd (save_chat_history filename w p)) = chatGPT p).
  { destruct p as [[msgs tot cur] st fs out].
    unfold save_chat_history, write_file. unfold_monad. cbn. rewrite Hopen. cbn.
    destruct (Rich.render _ _); cbn; (split; [apply lookup_insert_eq | reflexivity]). }
  destruct Hsaved as [Hsaved Hsame]. rewrite Hsaved in Hfile.
  split; [exact Hsaved |]. split; [exact Hsame |].
  exists (json_of_messages (messages (chatGPT p))), (messages (chatGPT p)).
  split.
  - unfold load_chat_history, read_file. unfold_monad.
    rewrite Hfile, Hread, loads_dumps_messages. reflexivity.
  - split; [apply turns_of_json_messages |]. split; [reflexivity |].
    split; [intros t Ht _; exact Ht | intros H; exact H].
Qed.

Lemma save_then_load_witness :
  exists (chat_history : Json.json) (loaded : list Turn),
    load_chat_history "chat.json" (Sample.world (Sample.ok 0 EmptyString) "x")
      (initial_process 20
         (files (snd (save_chat_history "chat.json"
                        (Sample.world (Sample.ok 0 EmptyString) "/save chat.json")
                        Sample.after_first)))) =
    (Returns (Some chat_history),
     initial_process 20
       (files (snd (save_chat_history "chat.json"
                      (Sample.world (Sample.ok 0 EmptyString) "/save chat.json")
                      Sample.after_first)))) /\
    turns_of_json chat_history = Some loaded /\
    loaded = messages (chatGPT Sample.after_first).
Proof.
  destruct (save_then_load "chat.json"
              (Sample.world (Sample.ok 0 EmptyString) "/save chat.json")
              (Sample.world (Sample.ok 0 EmptyString) "x") Sample.after_first
              (initial_process 20
                 (files (snd (save_chat_history "chat.json"
                                (Sample.world (Sample.ok 0 EmptyString) "/save chat.json")
                                Sample.after_first))))
              eq_refl eq_refl eq_refl)
    as (_ & _ & chat_history & loaded & Hload & Hturns & Hloaded & _).
  exists chat_history, loaded. repeat split; assumption.
Defined.

(* ===================================================================== *)
(** * Further properties of the code *)
(* ===================================================================== *)

(** ** The turns of the loop on a message *)

(** X1. A turn of the loop on a message whose exchange succeeds with an
    assistant reply: the user message and the reply are appended in that
    order, [current_tokens] is the usage reported and [total_tokens] grows
    by it, the question and the answer are logged, the reply is printed
    (as raw text in raw mode, as Markdown otherwise), and the loop goes on
    unless the line is a farewell word. *)
Theorem loop_turn_exchange (w : World) (p : Process) (line : string)
    (usage : Z) (reply : Turn) :
  session_prompt w = Returns line ->
  is_message line ->
  successful_exchange w usage reply ->
  role reply = "assistant" ->
  loop_body w p =
  (Returns (if Text.mem (Py.lower (python w) line) farewells then Break else Continue),
   {| chatGPT :=
        {| messages := messages (chatGPT p) ++
                       [{| role := "user"; content := line |}; reply];
           total_tokens := total_tokens (chatGPT p) + usage;
           current_tokens := usage |};
      chat_settings := chat_settings p;
      files := files p;
      output := output p ++
                [LogInfo ("> " +:+ line);
                 LogInfo ("ChatGPT: " +:+ content reply);
                 ConsolePrint "ChatGPT: ";
                 if raw_mode (chat_settings p) then Print (content reply)
                 else ConsoleMarkdown (content reply)] |}).
Proof.
  intros Hprompt Hmsg Hok Hrole.
  rewrite (loop_body_message w p line Hprompt Hmsg).
  unfold try_except, bind at 1. unfold bind at 1.
  rewrite (send_success line _ w _ usage reply Hok).
  cbv beta iota.
  unfold bind at 1. unfold bind at 1. unfold log_info at 1, emit at 1.
  rewrite print_message_spec. unfold Text.eqb. rewrite Hrole.
  cbn [fst snd chatGPT chat_settings files output].
  change (String.eqb "assistant" "user") with false.
  change (String.eqb "assistant" "assistant") with true.
  cbv beta iota.
  destruct (Text.mem (Py.lower (python w) line) farewells); unfold_monad;
    rewrite <- !app_assoc; reflexivity.
Qed.

Lemma loop_turn_exchange_witness :
  session_prompt (Sample.world (Sample.ok 15 "4") "2+2?") = Returns "2+2?" /\
  is_message "2+2?" /\
  successful_exchange (Sample.world (Sample.ok 15 "4") "2+2?") 15
    {| role := "assistant"; content := "4" |} /\
  loop_body (Sample.world (Sample.ok 15 "4") "2+2?") Sample.start =
  (Returns Continue,
   {| chatGPT :=
        {| messages := messages (chatGPT Sample.start) ++
                       [{| role := "user"; content := "2+2?" |};
                        {| role := "assistant"; content := "4" |}];
           total_tokens := total_tokens (chatGPT Sample.start) + 15;
           current_tokens := 15 |};
      chat_settings := chat_settings Sample.start;
      files := files Sample.start;
      output := output Sample.start ++
                [LogInfo "> 2+2?"; LogInfo "ChatGPT: 4";
                 ConsolePrint "ChatGPT: "; ConsoleMarkdown "4"] |}).
Proof.
  assert (H1 : session_prompt (Sample.world (Sample.ok 15 "4") "2+2?") = Returns "2+2?")
    by reflexivity.
  assert (H2 : is_message "2+2?") by (split; [reflexivity | discriminate]).
  assert (H3 : successful_exchange (Sample.world (Sample.ok 15 "4") "2+2?") 15
                 {| role := "assistant"; content := "4" |}).
  { eapply exchange_ok; try reflexivity. cbn. lia. }
  split; [exact H1 |]. split; [exact H2 |]. split; [exact H3 |].
  exact (loop_turn_exchange _ Sample.start "2+2?" 15
           {| role := "assistant"; content := "4" |} H1 H2 H3 eq_refl).
Defined.

(** X2. A turn of the loop on a message whose request is interrupted
    (Ctrl-C while waiting for the answer): [Aborted.] is printed, the
    conversation, the settings and the files are those before the turn, and
    the loop goes on, also when the line is a farewell word. *)
Theorem loop_turn_interrupted (w : World) (p : Process) (line : string) :
  session_prompt w = Returns line ->
  is_message line ->
  requests_post w = Raises KeyboardInterrupt ->
  loop_body w p =
  (Returns Continue,
   {| chatGPT := chatGPT p; chat_settings := chat_settings p; files := files p;
      output := output p ++
                [LogInfo ("> " +:+ line); ConsolePrint "[bold cyan]Aborted."] |}).
Proof.
  intros Hprompt Hmsg Hpost.
  rewrite (loop_body_message w p line Hprompt Hmsg).
  destruct p as [[msgs tot cur] st fs out].
  unfold try_except at 1. unfold bind at 1. unfold bind at 1.
  unfold_send. cbn. rewrite Hpost. cbn. pop_appended. render_fixed.
  rewrite <- app_assoc. reflexivity.
Qed.

Lemma loop_turn_interrupted_witness :
  loop_body (Sample.world (Raises KeyboardInterrupt) "bye") Sample.start =
  (Returns Continue,
   {| chatGPT := chatGPT Sample.start; chat_settings := chat_settings Sample.start;
      files := files Sample.start;
      output := output Sample.start ++
                [LogInfo ("> " +:+ "bye"); ConsolePrint "[bold cyan]Aborted."] |}).
Proof.
  apply (loop_turn_interrupted (Sample.world (Raises KeyboardInterrupt) "bye")
           Sample.start "bye").
  - reflexivity.
  - split; [reflexivity | discriminate].
  - reflexivity.
Defined.

(** X3. A response with a status outside 400..599 whose body is not JSON,
    or carries no usage, is not handled: the exception raised after the
    [try] block of [send] (any but [KeyboardInterrupt] and [EOFError],
    which the subscripts do not raise) leaves [send] and the loop of
    [main], the user message stays in the transcript, the counters keep
    their values and nothing is printed. *)
Theorem loop_turn_body_without_usage (w : World) (p : Process) (line : string)
    (r : response) (e : exn) :
  session_prompt w = Returns line ->
  is_message line ->
  requests_post w = Returns r ->
  ~ (400 <= status_code r < 600) ->
  response_json r = Raises e \/
  (exists b : payload, response_json r = Returns b /\ usage_total_tokens b = Raises e) ->
  is_KeyboardInterrupt e = false ->
  is_EOFError e = false ->
  loop_body w p =
  (Raises e,
   {| chatGPT :=
        {| messages := messages (chatGPT p) ++ [{| role := "user"; content := line |}];
           total_tokens := total_tokens (chatGPT p);
           current_tokens := current_tokens (chatGPT p) |};
      chat_settings := chat_settings p;
      files := files p;
      output := output p ++ [LogInfo ("> " +:+ line)] |}).
Proof.
  intros Hprompt Hmsg Hpost Hstatus Hbody Hk He.
  rewrite (loop_body_message w p line Hprompt Hmsg).
  destruct p as [[msgs tot cur] st fs out].
  unfold try_except at 1. unfold bind at 1. unfold bind at 1.
  unfold_send. cbn. rewrite Hpost. cbn.
  destruct (Z.eqb_spec (status_code r) 400) as [E | E]; [exfalso; lia |].
  rewrite (status_out_of_range _ Hstatus). cbn.
  destruct Hbody as [Hj | (b & Hj & Hu)]; rewrite Hj; cbn; rewrite ?Hu; cbn;
    rewrite Hk, He; reflexivity.
Qed.

Lemma loop_turn_body_without_usage_witness :
  loop_body
    (Sample.world
       (Returns {| status_code := 200; http_error_msg := EmptyString;
                   response_json :=
                     Raises (requests_JSONDecodeError
                               "Expecting value: line 1 column 1 (char 0)") |}) "hi")
    Sample.start =
  (Raises (requests_JSONDecodeError "Expecting value: line 1 column 1 (char 0)"),
   {| chatGPT :=
        {| messages := messages (chatGPT Sample.start) ++
                       [{| role := "user"; content := "hi" |}];
           total_tokens := total_tokens (chatGPT Sample.start);
           current_tokens := current_tokens (chatGPT Sample.start) |};
      chat_settings := chat_settings Sample.start;
      files := files Sample.start;
      output := output Sample.start ++ [LogInfo ("> " +:+ "hi")] |}).
Proof.
  apply (loop_turn_body_without_usage
           (Sample.world
              (Returns {| status_code := 200; http_error_msg := EmptyString;
                          response_json :=
                            Raises (requests_JSONDecodeError
                                      "Expecting value: line 1 column 1 (char 0)") |})
              "hi")
           Sample.start "hi"
           {| status_code := 200; http_error_msg := EmptyString;
              response_json :=
                Raises (requests_JSONDecodeError
                          "Expecting value: line 1 column 1 (char 0)") |}).
  - reflexivity.
  - split; [reflexivity | discriminate].
  - reflexivity.
  - cbn. lia.
  - left. reflexivity.
  - reflexivity.
  - reflexivity.
Defined.

(** X4. A response with a status outside 400..599 whose body carries the
    usage but no reply: the counters are updated with the usage before the
    missing reply is noticed, then the exception of the subscript ([KeyError]
    on a missing key, [IndexError] on an empty list of choices) leaves
    [send] and the loop; the user message stays in the transcript without
    an answer. *)
Theorem loop_turn_body_without_reply (w : World) (p : Process) (line : string)
    (r : response) (b : payload) (usage : Z) (e : exn) :
  session_prompt w = Returns line ->
  is_message line ->
  requests_post w = Returns r ->
  ~ (400 <= status_code r < 600) ->
  response_json r = Returns b ->
  usage_total_tokens b = Returns usage ->
  choices_0_message b = Raises e ->
  is_KeyboardInterrupt e = false ->
  is_EOFError e = false ->
  loop_body w p =
  (Raises e,
   {| chatGPT :=
        {| messages := messages (chatGPT p) ++ [{| role := "user"; content := line |}];
           total_tokens := total_tokens (chatGPT p) + usage;
           current_tokens := usage |};
      chat_settings := chat_settings p;
      files := files p;
      output := output p ++ [LogInfo ("> " +:+ line)] |}).
Proof.
  intros Hprompt Hmsg Hpost Hstatus Hjson Husage Hreply Hk He.
  rewrite (loop_body_message w p line Hprompt Hmsg).
  destruct p as [[msgs tot cur] st fs out].
  unfold try_except at 1. unfold bind at 1. unfold bind at 1.
  unfold_send. cbn. rewrite Hpost. cbn.
  destruct (Z.eqb_spec (status_code r) 400) as [E | E]; [exfalso; lia |].
  rewrite (status_out_of_range _ Hstatus). cbn.
  rewrite Hjson. cbn. rewrite Husage. cbn. rewrite Hreply. cbn.
  rewrite Hk, He. reflexivity.
Qed.

Lemma loop_turn_body_without_reply_witness :
  loop_body
    (Sample.world
       (Returns {| status_code := 200; http_error_msg := EmptyString;
                   response_json :=
                     Returns {| error_message := Raises (KeyError "error");
                                usage_total_tokens := Returns 9;
                                choices_0_message := Raises (KeyError "choices") |} |})
       "hi")
    Sample.start =
  (Raises (KeyError "choices"),
   {| chatGPT :=
        {| messages := messages (chatGPT Sample.start) ++
                       [{| role := "user"; content := "hi" |}];
           total_tokens := total_tokens (chatGPT Sample.start) + 9;
           current_tokens := 9 |};
      chat_settings := chat_settings Sample.start;
      files := files Sample.start;
      output := output Sample.start ++ [LogInfo ("> " +:+ "hi")] |}).
Proof.
  apply (loop_turn_body_without_reply
           (Sample.world
              (Returns {| status_code := 200; http_error_msg := EmptyString;
                          response_json :=
                            Returns {| error_message := Raises (KeyError "error");
                                       usage_total_tokens := Returns 9;
                                       choices_0_message :=
                                         Raises (KeyError "choices") |} |})
              "hi")
           Sample.start "hi"
           {| status_code := 200; http_error_msg := EmptyString;
              response_json :=
                Returns {| error_message := Raises (KeyError "error");
                           usage_total_tokens := Returns 9;
                           choices_0_message := Raises (KeyError "choices") |} |}
           {| error_message := Raises (KeyError "error");
              usage_total_tokens := Returns 9;
              choices_0_message := Raises (KeyError "choices") |} 9).
  - reflexivity.
  - split; [reflexivity | discriminate].
  - reflexivity.
  - cbn. lia.
  - reflexivity.
  - reflexivity.
  - reflexivity.
  - reflexivity.
  - reflexivity.
Defined.

(** X5. A turn of the loop in which nothing is sent: an empty line and an
    interrupted prompt (Ctrl-C) leave the process as it is and the loop goes
    on; the end of the input at the prompt (Ctrl-D) prints [Exiting...] and
    ends the loop. *)
Theorem loop_turn_idle (w : World) (p : Process) :
  (session_prompt w = Returns EmptyString \/
   session_prompt w = Raises KeyboardInterrupt ->
   loop_body w p = (Returns Continue, p)) /\
  (session_prompt w = Raises EOFError ->
   loop_body w p =
   (Returns Break,
    {| chatGPT := chatGPT p; chat_settings := chat_settings p; files := files p;
       output := output p ++ [ConsolePrint "Exiting..."] |})).
Proof.
  split.
  - intros [H | H]; unfold loop_body; unfold_monad; rewrite H; reflexivity.
  - intros H. unfold loop_body. unfold_monad. rewrite H. cbn.
    render_fixed. reflexivity.
Qed.

Lemma loop_turn_idle_witness :
  loop_body (Sample.world (Raises KeyboardInterrupt) EmptyString) Sample.start =
  (Returns Continue, Sample.start).
Proof.
  apply (proj1 (loop_turn_idle (Sample.world (Raises KeyboardInterrupt) EmptyString)
                  Sample.start)).
  left. reflexivity.
Defined.

(** ** The turns of the loop on a command *)

(** X6. A line that is [/exit] once stripped and lower-cased ends the loop:
    [Exiting...] is printed and nothing else changes. *)
Theorem exit_command_ends_loop (w : World) (p : Process) (line : string) :
  session_prompt w = Returns line ->
  Text.startswith line "/" = true ->
  Py.lower (python w) (Py.strip (python w) line) = "/exit" ->
  loop_body w p =
  (Returns Break,
   {| chatGPT := chatGPT p; chat_settings := chat_settings p; files := files p;
      output := output p ++ [ConsolePrint "Exiting..."] |}).
Proof.
  intros Hprompt Hslash Hexit.
  rewrite (loop_body_command w p line Hprompt Hslash), Hexit.
  unfold_monad. cbn. render_fixed. reflexivity.
Qed.

Lemma exit_command_ends_loop_witness :
  loop_body (Sample.world (Sample.ok 0 EmptyString) "/Exit  ") Sample.start =
  (Returns Break,
   {| chatGPT := chatGPT Sample.start; chat_settings := chat_settings Sample.start;
      files := files Sample.start;
      output := output Sample.start ++ [ConsolePrint "Exiting..."] |}).
Proof.
  apply (exit_command_ends_loop (Sample.world (Sample.ok 0 EmptyString) "/Exit  ")
           Sample.start "/Exit  "); reflexivity.
Defined.

(** X7. [/raw] and [/multi] flip their flag, report the new state and
    change nothing else; given twice, each restores the settings. *)
Theorem toggle_commands (w w' : World) (p : Process) :
  handle_command "/raw" w p =
  (Returns tt,
   {| chatGPT := chatGPT p;
      chat_settings := {| raw_mode := negb (raw_mode (chat_settings p));
                          multi_line_mode := multi_line_mode (chat_settings p);
                          timeout := timeout (chat_settings p) |};
      files := files p;
      output := output p ++
                [ConsolePrint ("[dim]Raw mode " +:+
                               (if raw_mode (chat_settings p) then "disabled"
                                else "enabled") +:+
                               ", use `/last` to display the last answer.")] |}) /\
  handle_command "/multi" w p =
  (Returns tt,
   {| chatGPT := chatGPT p;
      chat_settings := {| raw_mode := raw_mode (chat_settings p);
                          multi_line_mode := negb (multi_line_mode (chat_settings p));
                          timeout := timeout (chat_settings p) |};
      files := files p;
      output := output p ++
                [ConsolePrint
                   (if multi_line_mode (chat_settings p)
                    then "[dim]Multi-line mode disabled."
                    else "[dim]Multi-line mode enabled, press [[bright_magenta]Esc[/]] + [[bright_magenta]ENTER[/]] to submit.")] |}) /\
  chat_settings (snd (handle_command "/raw" w' (snd (handle_command "/raw" w p)))) =
  chat_settings p /\
  chat_settings (snd (handle_command "/multi" w' (snd (handle_command "/multi" w p)))) =
  chat_settings p.
Proof.
  destruct p as [g [raw multi t] fs out].
  change (handle_command "/raw") with toggle_raw_mode.
  change (handle_command "/multi") with toggle_multi_line_mode.
  unfold toggle_raw_mode, toggle_multi_line_mode. unfold_monad. cbn.
  repeat split; destruct raw, multi; cbn; render_fixed; reflexivity.
Qed.

(** X8. What a command cannot change, however it ends: only [/undo] and the
    commands that start with [/system] change the conversation; only the
    commands that start with [/save] write a file; only [/raw], [/multi]
    and the commands that start with [/timeout] change the settings. *)
Theorem handle_command_frame (command : string) (w : World) (p : Process) :
  (command <> "/undo" -> Text.startswith command "/system" = false ->
   chatGPT (snd (handle_command command w p)) = chatGPT p) /\
  (Text.startswith command "/save" = false ->
   files (snd (handle_command command w p)) = files p) /\
  (command <> "/raw" -> command <> "/multi" ->
   Text.startswith command "/timeout" = false ->
   chat_settings (snd (handle_command command w p)) = chat_settings p).
Proof.
  split; [| split].
  - intros Hundo Hsys. apply String.eqb_neq in Hundo.
    assert (H : preserves same_chatGPT (handle_command command)).
    { unfold handle_command, Text.eqb. rewrite Hundo, Hsys.
      unfold_commands. keeps_chatGPT; by_definition. }
    exact (H w p).
  - intros Hsave.
    assert (H : preserves same_files (handle_command command)).
    { unfold handle_command. rewrite Hsave.
      unfold_commands. keeps_files; by_definition. }
    exact (H w p).
  - intros Hraw Hmulti Htime.
    apply String.eqb_neq in Hraw. apply String.eqb_neq in Hmulti.
    assert (H : preserves same_settings (handle_command command)).
    { unfold handle_command, Text.eqb. rewrite Hraw, Hmulti, Htime.
      unfold_commands. keeps_settings; by_definition. }
    exact (H w p).
Qed.

Lemma handle_command_frame_witness :
  chatGPT (snd (handle_command "/save notes.json"
                  (Sample.world (Sample.ok 0 EmptyString) "/save notes.json")
                  Sample.after_first)) =
  chatGPT Sample.after_first.
Proof.
  apply (proj1 (handle_command_frame "/save notes.json"
                  (Sample.world (Sample.ok 0 EmptyString) "/save notes.json")
                  Sample.after_first)).
  - discriminate.
  - reflexivity.
Defined.

(** X9. A text that is none of [/raw], [/multi], [/tokens], [/last],
    [/undo], [/exit] and starts with none of [/save], [/system],
    [/timeout] prints the help and changes nothing; [/help] is one such
    text, and has no branch of its own. *)
Theorem unknown_command_prints_help (command : string) (w : World) (p : Process) :
  ~ In command ["/raw"; "/multi"; "/tokens"; "/last"; "/undo"; "/exit"] ->
  Text.startswith command "/save" = false ->
  Text.startswith command "/system" = false ->
  Text.startswith command "/timeout" = false ->
  handle_command command w p =
  (Returns tt,
   {| chatGPT := chatGPT p; chat_settings := chat_settings p; files := files p;
      output := output p ++ [ConsolePrint help_text] |}).
Proof.
  intros Hnot Hsave Hsys Htime. unfold handle_command, Text.eqb.
  repeat match goal with
         | |- context [String.eqb command ?lit] =>
             destruct (String.eqb_spec command lit) as [E | _];
             [exfalso; apply Hnot; rewrite E; cbn; tauto |]
         end.
  rewrite Hsave, Hsys, Htime. unfold_monad.
  assert (Hhelp : Rich.render (python w) help_text = None)
    by (vm_compute; reflexivity).
  rewrite Hhelp. reflexivity.
Qed.

Lemma unknown_command_prints_help_witness :
  handle_command "/help" (Sample.world (Sample.ok 0 EmptyString) "/help") Sample.start =
  (Returns tt,
   {| chatGPT := chatGPT Sample.start; chat_settings := chat_settings Sample.start;
      files := files Sample.start;
      output := output Sample.start ++ [ConsolePrint help_text] |}).
Proof.
  apply (unknown_command_prints_help "/help"
           (Sample.world (Sample.ok 0 EmptyString) "/help") Sample.start).
  - cbn. intros [H | [H | [H | [H | [H | [H | H]]]]]]; try discriminate H; exact H.
  - reflexivity.
  - reflexivity.
  - reflexivity.
Defined.



(** X11. [/save] with a file name that cannot be opened for writing: the
    [OSError] of [open] is caught neither by [save_chat_history] nor by
    the loop and ends [main]; nothing is written or printed. *)
Theorem save_to_unwritable_path (w : World) (p : Process) (line : string)
    (c filename : string) (rest : list string) :
  session_prompt w = Returns line ->
  Text.startswith line "/" = true ->
  Text.startswith (Py.lower (python w) (Py.strip (python w) line)) "/save" = true ->
  Py.split (python w) (Py.lower (python w) (Py.strip (python w) line)) = c :: filename :: rest ->
  can_open_w w filename = false ->
  loop_body w p = (Raises (OSError filename), p).
Proof.
  intros Hprompt Hslash Hsave Hsplit Hopen.
  rewrite (loop_body_command w p line Hprompt Hslash).
  rewrite (handle_command_save _ Hsave).
  unfold save_filename, save_chat_history, write_file. unfold_monad.
  rewrite Hsplit.
  change (1 <? length (c :: filename :: rest))%nat with true.
  cbn. rewrite Hopen. destruct p; reflexivity.
Qed.

Lemma save_to_unwritable_path_witness :
  loop_body
    {| requests_post := Sample.ok 0 EmptyString;
       now := "2023-03-21_10,15,00";
       sys_path_0 := "/opt/chat";
       prompt := fun _ default => Returns default;
       session_prompt := Returns "/save /proc/chat.json";
       can_open_w := fun _ => false;
       open_r := fun _ => None;
       python := Sample.library |}
    Sample.start =
  (Raises (OSError "/proc/chat.json"), Sample.start).
Proof.
  apply (save_to_unwritable_path
           {| requests_post := Sample.ok 0 EmptyString;
              now := "2023-03-21_10,15,00";
              sys_path_0 := "/opt/chat";
              prompt := fun _ default => Returns default;
              session_prompt := Returns "/save /proc/chat.json";
              can_open_w := fun _ => false;
       open_r := fun _ => None;
       python := Sample.library |}
           Sample.start "/save /proc/chat.json" "/save" "/proc/chat.json" []);
    reflexivity.
Defined.

(** X12. [/save] without a file name asks for one, proposing
    [./chat_history_<date>.json], and saves to the answer as it is typed,
    upper-case letters and spaces included. *)
Theorem save_asks_for_filename (command filename : string) (w : World) (p : Process) :
  Text.startswith command "/save" = true ->
  (length (Py.split (python w) command) <= 1)%nat ->
  prompt w "Save to: " ("./chat_history_" +:+ now w +:+ ".json") = Returns filename ->
  handle_command command w p = save_chat_history filename w p.
Proof.
  intros Hsave Hlen Hprompt.
  rewrite (handle_command_save _ Hsave).
  unfold save_filename.
  assert (E : (1 <? length (Py.split (python w) command))%nat = false)
    by (apply Nat.ltb_ge; exact Hlen).
  unfold_monad. rewrite E, Hprompt. reflexivity.
Qed.

Lemma save_asks_for_filename_witness :
  handle_command "/save"
    {| requests_post := Sample.ok 0 EmptyString;
       now := "2023-03-21_10,15,00";
       sys_path_0 := "/opt/chat";
       prompt := fun _ _ => Returns "My Chat.json";
       session_prompt := Returns "/save";
       can_open_w := fun _ => true;
       open_r := fun _ => None;
       python := Sample.library |}
    Sample.start =
  save_chat_history "My Chat.json"
    {| requests_post := Sample.ok 0 EmptyString;
       now := "2023-03-21_10,15,00";
       sys_path_0 := "/opt/chat";
       prompt := fun _ _ => Returns "My Chat.json";
       session_prompt := Returns "/save";
       can_open_w := fun _ => true;
       open_r := fun _ => None;
       python := Sample.library |}
    Sample.start.
Proof.
  apply (save_asks_for_filename "/save" "My Chat.json").
  - reflexivity.
  - vm_compute. lia.
  - reflexivity.
Defined.

(** X13. [/system] and [/timeout] without an argument ask for the new
    value, proposing the current one; when the answer is the proposed
    value, [No cahnge.] is printed and nothing changes. *)
Theorem prompt_default_changes_nothing (command : string) (w : World) (p : Process) :
  (length (Py.split (python w) command) <= 1)%nat ->
  (Text.startswith command "/system" = true ->
   forall (first : Turn) (rest : list Turn),
     messages (chatGPT p) = first :: rest ->
     prompt w "System prompt: " (content first) = Returns (content first) ->
     handle_command command w p =
     (Returns tt,
      {| chatGPT := chatGPT p; chat_settings := chat_settings p; files := files p;
         output := output p ++ [ConsolePrint "[dim]No cahnge."] |})) /\
  (Text.startswith command "/timeout" = true ->
   prompt w "Set OpenAI API timeout: " (Num.py_str (timeout (chat_settings p))) =
     Returns (Num.py_str (timeout (chat_settings p))) ->
   handle_command command w p =
   (Returns tt,
    {| chatGPT := chatGPT p; chat_settings := chat_settings p; files := files p;
       output := output p ++ [ConsolePrint "[dim]No cahnge."] |})).
Proof.
  intros Hlen.
  assert (E : (1 <? length (Py.split (python w) command))%nat = false)
    by (apply Nat.ltb_ge; exact Hlen).
  split.
  - intros Hsys first rest Hmsgs Hprompt.
    rewrite (handle_command_system _ Hsys).
    unfold system_branch, system_new_content, messages_first.
    unfold_monad. rewrite E, Hmsgs, Hprompt.
    cbn -[Text.eqb]. rewrite Hmsgs. cbn -[Text.eqb].
    unfold Text.eqb. rewrite String.eqb_refl. cbn. render_fixed. reflexivity.
  - intros Htime Hprompt.
    rewrite (handle_command_timeout _ Htime).
    unfold timeout_branch, timeout_new_timeout.
    unfold_monad. rewrite E, Hprompt.
    cbn -[Text.eqb]. unfold Text.eqb. rewrite String.eqb_refl. cbn.
    render_fixed. reflexivity.
Qed.

Lemma prompt_default_changes_nothing_witness :
  handle_command "/timeout" (Sample.world (Sample.ok 0 EmptyString) "/timeout")
    Sample.start =
  (Returns tt,
   {| chatGPT := chatGPT Sample.start; chat_settings := chat_settings Sample.start;
      files := files Sample.start;
      output := output Sample.start ++ [ConsolePrint "[dim]No cahnge."] |}).
Proof.
  assert (H : (length (Text.split "/timeout") <= 1)%nat) by (vm_compute; lia).
  apply (proj2 (prompt_default_changes_nothing "/timeout"
                  (Sample.world (Sample.ok 0 EmptyString) "/timeout")
                  Sample.start H)); reflexivity.
Defined.

(** X14. [/timeout] with an argument that differs from the text of the
    current time-out: when [float] accepts the argument, the time-out
    becomes that float, whatever its sign or size, and the argument is
    echoed as typed (the time-out is set before the notice is printed, so
    it stays set if the notice does not render); otherwise [Input must be
    a number] is printed and the time-out keeps its value. Nothing else
    changes, and words after the second are ignored. *)
Theorem timeout_command_argument (command c arg : string) (rest : list string)
    (w : World) (p : Process) :
  Text.startswith command "/timeout" = true ->
  Py.split (python w) command = c :: arg :: rest ->
  arg <> Num.py_str (timeout (chat_settings p)) ->
  handle_command command w p =
  match Py.float (python w) arg with
  | Some x =>
      let changed :=
        {| raw_mode := raw_mode (chat_settings p);
           multi_line_mode := multi_line_mode (chat_settings p);
           timeout := Num.PyFloat x |} in
      let notice := "[dim]API timeout set to [green]" +:+ arg +:+ "s[/]." in
      match Rich.render (python w) notice with
      | None =>
          (Returns tt,
           {| chatGPT := chatGPT p; chat_settings := changed; files := files p;
              output := output p ++ [ConsolePrint notice] |})
      | Some message =>
          (Raises (MarkupError message),
           {| chatGPT := chatGPT p; chat_settings := changed; files := files p;
              output := output p |})
      end
  | None =>
      (Returns tt,
       {| chatGPT := chatGPT p; chat_settings := chat_settings p; files := files p;
          output := output p ++ [ConsolePrint "[red]Input must be a number"] |})
  end.
Proof.
  intros Htime Hsplit Hne.
  rewrite (handle_command_timeout _ Htime).
  unfold timeout_branch, timeout_new_timeout, set_timeout. unfold_monad.
  rewrite Hsplit.
  change (1 <? length (c :: arg :: rest))%nat with true.
  assert (E : Text.eqb arg (Num.py_str (timeout (chat_settings p))) = false)
    by (apply String.eqb_neq; exact Hne).
  cbn -[Text.eqb]. rewrite E. cbn.
  destruct (Py.float (python w) arg); cbn.
  - destruct (Rich.render _ _); reflexivity.
  - render_fixed. reflexivity.
Qed.

Lemma timeout_command_argument_witness :
  handle_command "/timeout -1e3 now"
    (Sample.world (Sample.ok 0 EmptyString) "/timeout -1e3 now") Sample.start =
  (Returns tt,
   {| chatGPT := chatGPT Sample.start;
      chat_settings := {| raw_mode := false; multi_line_mode := false;
                          timeout := Num.PyFloat (S754_finite true 8796093022208000 (-43)) |};
      files := files Sample.start;
      output := output Sample.start ++
                [ConsolePrint "[dim]API timeout set to [green]-1e3s[/]."] |}).
Proof.
  rewrite (timeout_command_argument "/timeout -1e3 now" "/timeout" "-1e3" ["now"]).
  - vm_compute. reflexivity.
  - reflexivity.
  - reflexivity.
  - vm_compute. discriminate.
Defined.

(** X15. A command interrupted at its prompt (Ctrl-C at [Save to:],
    [System prompt:] or [Set OpenAI API timeout:]) changes nothing and
    prints nothing; the loop goes on. *)
Theorem command_prompt_interrupted (w : World) (p : Process) (line : string) :
  session_prompt w = Returns line ->
  Text.startswith line "/" = true ->
  (length (Py.split (python w) (Py.lower (python w) (Py.strip (python w) line))) <= 1)%nat ->
  Text.startswith (Py.lower (python w) (Py.strip (python w) line)) "/save" = true \/
  Text.startswith (Py.lower (python w) (Py.strip (python w) line)) "/system" = true \/
  Text.startswith (Py.lower (python w) (Py.strip (python w) line)) "/timeout" = true ->
  messages (chatGPT p) <> [] ->
  (forall label default : string, prompt w label default = Raises KeyboardInterrupt) ->
  loop_body w p = (Returns Continue, p).
Proof.
  intros Hprompt Hslash Hlen Hcmd Hmsgs Hint.
  assert (E : (1 <? length (Py.split (python w)
                              (Py.lower (python w) (Py.strip (python w) line))))%nat =
              false)
    by (apply Nat.ltb_ge; exact Hlen).
  rewrite (loop_body_command w p line Hprompt Hslash).
  destruct Hcmd as [H | [H | H]].
  - rewrite (handle_command_save _ H). unfold save_filename.
    unfold_monad. rewrite E, Hint. reflexivity.
  - rewrite (handle_command_system _ H).
    unfold system_branch, system_new_content, messages_first.
    unfold_monad. rewrite E. destruct (messages (chatGPT p)); [contradiction |].
    rewrite Hint. reflexivity.
  - rewrite (handle_command_timeout _ H).
    unfold timeout_branch, timeout_new_timeout.
    unfold_monad. rewrite E, Hint. reflexivity.
Qed.

Lemma command_prompt_interrupted_witness :
  loop_body
    {| requests_post := Sample.ok 0 EmptyString;
       now := "2023-03-21_10,15,00";
       sys_path_0 := "/opt/chat";
       prompt := fun _ _ => Raises KeyboardInterrupt;
       session_prompt := Returns "/SYSTEM";
       can_open_w := fun _ => true;
       open_r := fun _ => None;
       python := Sample.library |}
    Sample.start =
  (Returns Continue, Sample.start).
Proof.
  apply (command_prompt_interrupted
           {| requests_post := Sample.ok 0 EmptyString;
              now := "2023-03-21_10,15,00";
              sys_path_0 := "/opt/chat";
              prompt := fun _ _ => Raises KeyboardInterrupt;
              session_prompt := Returns "/SYSTEM";
              can_open_w := fun _ => true;
       open_r := fun _ => None;
       python := Sample.library |}
           Sample.start "/SYSTEM").
  - reflexivity.
  - reflexivity.
  - vm_compute. lia.
  - right. left. reflexivity.
  - discriminate.
  - reflexivity.
Defined.

(** ** Loading a chat history *)


(** ** The Enter key and the loop *)

(** X17. A line with white space before its [/]: the Enter key submits it
    in every mode, as it does a command, because the handler strips the
    text before it looks for the [/]; the loop looks at the text as typed,
    takes the line for a message and sends it to the model, so after a
    successful exchange the line is in the transcript as a user message,
    followed by the reply. *)
Theorem spaced_command_is_sent (w : World) (p : Process) (line : string)
    (settings : ChatSettings) (usage : Z) (reply : Turn) :
  Text.startswith (Py.strip (python w) line) "/" = true ->
  Text.startswith line "/" = false ->
  session_prompt w = Returns line ->
  successful_exchange w usage reply ->
  enter_key (python w) line settings = validate_and_handle /\
  messages (chatGPT (snd (loop_body w p))) =
  messages (chatGPT p) ++ [{| role := "user"; content := line |}; reply].
Proof.
  intros Hstrip Hslash Hprompt Hok. split.
  - unfold enter_key. rewrite Hstrip. reflexivity.
  - assert (Hmsg : is_message line).
    { split; [exact Hslash |]. intros ->.
      change (Py.strip (python w) EmptyString) with EmptyString in Hstrip.
      discriminate Hstrip. }
    rewrite (loop_body_message w p line Hprompt Hmsg).
    unfold try_except, bind at 1. unfold bind at 1.
    rewrite (send_success line _ w _ usage reply Hok).
    cbn [chatGPT chat_settings files output].
    cbv beta iota.
    unfold bind at 1. unfold bind at 1. unfold log_info at 1, emit at 1.
    rewrite print_message_spec.
    destruct (Text.mem (Py.lower (python w) line) farewells); reflexivity.
Qed.

Lemma spaced_command_is_sent_witness :
  enter_key Sample.library " /undo" (chat_settings Sample.start) = validate_and_handle /\
  messages (chatGPT (snd (loop_body (Sample.world (Sample.ok 15 "4") " /undo")
                            Sample.start))) =
  messages (chatGPT Sample.start) ++
  [{| role := "user"; content := " /undo" |}; {| role := "assistant"; content := "4" |}].
Proof.
  apply (spaced_command_is_sent (Sample.world (Sample.ok 15 "4") " /undo")
           Sample.start " /undo" (chat_settings Sample.start) 15
           {| role := "assistant"; content := "4" |}).
  - reflexivity.
  - reflexivity.
  - reflexivity.
  - eapply exchange_ok; try reflexivity. cbn. lia.
Defined.

(** ** The completer *)

Lemma startswith_append (p r : string) : Text.startswith (p +:+ r) p = true.
Proof.
  induction p as [| a p IH]; [destruct r; reflexivity |].
  rewrite append_cons. cbn. rewrite Ascii.eqb_refl. exact IH.
Qed.

Lemma commands_NoDup : NoDup commands.
Proof. apply (bool_decide_unpack _). vm_compute. exact I. Qed.

(** X18. The completions offered for a text that starts with [/] are the
    commands of the table of which the text is a prefix, each once, and each
    replaces the whole text typed; so accepting a completion only adds
    characters behind what was typed. For a text that does not start with
    [/] there is no completion. *)
Theorem get_completions_spec (text : string) :
  (Text.startswith text "/" = false -> get_completions text = []) /\
  (Text.startswith text "/" = true ->
   forall command : string,
     In {| completion_text := command;
           start_position := - Z.of_nat (String.length text) |}
        (get_completions text) <->
     In command commands /\ exists r : string, command = text +:+ r) /\
  (forall c : Completion,
      In c (get_completions text) ->
      start_position c = - Z.of_nat (String.length text)) /\
  NoDup (map completion_text (get_completions text)).
Proof.
  unfold get_completions. split; [| split; [| split]].
  - intros ->. reflexivity.
  - intros Hslash command. rewrite Hslash. split.
    + intros Hin. apply in_map_iff in Hin as (c & Hc & Hin).
      injection Hc as ->. apply filter_In in Hin as [Hin Hs].
      split; [exact Hin |]. apply startswith_app. exact Hs.
    + intros [Hin (r & ->)]. apply in_map_iff.
      eexists. split; [reflexivity |]. apply filter_In. split; [exact Hin |].
      apply startswith_append.
  - intros c Hin. destruct (Text.startswith text "/"); [| contradiction].
    apply in_map_iff in Hin as (c' & <- & _). reflexivity.
  - destruct (Text.startswith text "/"); [| constructor].
    rewrite map_map. cbn [completion_text]. rewrite map_id.
    apply NoDup_ListNoDup, List.NoDup_filter, NoDup_ListNoDup, commands_NoDup.
Qed.

Lemma get_completions_spec_witness :
  In {| completion_text := "/save"; start_position := - Z.of_nat (String.length "/s") |}
     (get_completions "/s") <->
  In "/save" commands /\ exists r : string, "/save" = "/s" +:+ r.
Proof.
  apply (proj1 (proj2 (get_completions_spec "/s"))). reflexivity.
Defined.

(** ** Failures of the request, seen from the loop *)







(** ** [/last] *)

(** X24. [/last] shows the last message only when its role is [user] or
    [assistant]: in a new session, where the system prompt is the only
    message, and for any other role it prints nothing and changes
    nothing. *)
Theorem last_command_shows_nothing (w : World) (p : Process) (l : list Turn)
    (t : Turn) :
  messages (chatGPT p) = l ++ [t] ->
  role t <> "user" ->
  role t <> "assistant" ->
  handle_command "/last" w p = (Returns tt, p).
Proof.
  intros Hm Hu Ha.
  change (handle_command "/last") with (reply <- messages_last ;; print_message reply).
  unfold messages_last. unfold bind, get. rewrite Hm, last_snoc.
  unfold ret. rewrite print_message_spec. unfold Text.eqb.
  destruct (String.eqb_spec (role t) "user"); [contradiction |].
  destruct (String.eqb_spec (role t) "assistant"); [contradiction |].
  rewrite app_nil_r. destruct p; reflexivity.
Qed.

Lemma last_command_shows_nothing_witness :
  handle_command "/last" (Sample.world (Sample.ok 0 EmptyString) "/last") Sample.start =
  (Returns tt, Sample.start).
Proof.
  apply (last_command_shows_nothing _ Sample.start []
           {| role := "system"; content := "You are a helpful assistant." |}).
  - reflexivity.
  - discriminate.
  - discriminate.
Defined.

(** ** The total that [main] reports *)

Lemma print_message_counters (t : Turn) : preserves same_counters (print_message t).
Proof. unfold print_message. keeps_counters; by_definition. Qed.

(** The counters after a turn of the loop, however it ends. *)
Lemma loop_body_counters (w : World) (p : Process) :
  counters (snd (loop_body w p)) =
  match turn_usage w with
  | Some u => (total_tokens (chatGPT p) + u, u)
  | None => counters p
  end.
Proof.
  assert (Hhandler : forall e : exn,
             preserves same_counters
               (fun w p =>
                  (if is_KeyboardInterrupt e then ret Continue
                   else if is_EOFError e then console_print "Exiting..." ;; ret Break
                   else raise e) w p)).
  { intros e w0 p0. destruct (is_KeyboardInterrupt e); [reflexivity |].
    destruct (is_EOFError e); [| reflexivity].
    assert (H : preserves same_counters (console_print "Exiting..." ;; ret Break))
      by keeps_counters.
    exact (H w0 p0). }
  unfold loop_body, turn_usage, try_except. unfold bind at 1, perform.
  destruct (session_prompt w) as [line | e]; [| exact (Hhandler e w p)].
  unfold bind at 1, ask.
  destruct (Text.startswith line "/").
  - unfold bind at 1.
    pose proof (handle_command_counters
                  (Py.lower (python w) (Py.strip (python w) line)) w p) as Hc.
    destruct (handle_command _ w p) as [[[] | e] p1]; cbn in Hc |- *; [exact Hc |].
    rewrite <- Hc. exact (Hhandler e w p1).
  - destruct line as [| a m]; [reflexivity |].
    unfold bind at 1. unfold log_info at 1, emit at 1.
    unfold bind at 1, get. unfold bind at 1.
    cbn [chat_settings].
    set (p0 := {| chatGPT := chatGPT p; chat_settings := chat_settings p;
                  files := files p;
                  output := output p ++ [LogInfo ("> " +:+ String a m)] |}).
    pose proof (send_counters (String a m) (timeout (chat_settings p)) w p0) as Hs.
    change (total_tokens (chatGPT p0)) with (total_tokens (chatGPT p)) in Hs.
    change (counters p0) with (counters p) in Hs.
    rewrite <- Hs.
    destruct (send (String a m) (timeout (chat_settings p)) w p0) as [[r | e] p1];
      cbn [fst snd]; [| exact (Hhandler e w p1)].
    assert (Hrest : preserves same_counters
                      (match r with
                       | Some r0 => log_info ("ChatGPT: " +:+ content r0) ;; print_message r0
                       | None => ret tt
                       end ;;
                       if Text.mem (Py.lower (python w) (String a m)) farewells
                       then ret Break else ret Continue)).
    { keeps_counters. apply print_message_counters. }
    specialize (Hrest w p1). unfold same_counters in Hrest.
    destruct ((_ ;; _) w p1) as [[c | e] p2]; cbn in Hrest |- *; [exact Hrest |].
    rewrite <- Hrest. exact (Hhandler e w p2).
Qed.

Lemma usages_cons (w : World) (ws : list World) :
  usages (w :: ws) =
  match turn_usage w with
  | Some u => u :: usages ws
  | None => usages ws
  end.
Proof. reflexivity. Qed.

Lemma counters_step (p p1 p' : Process) (o : option Z) (us : list Z) :
  counters p1 = match o with
                | Some u => (total_tokens (chatGPT p) + u, u)
                | None => counters p
                end ->
  total_tokens (chatGPT p') = total_tokens (chatGPT p1) + sum_Z us ->
  current_tokens (chatGPT p') = default (current_tokens (chatGPT p1)) (last us) ->
  total_tokens (chatGPT p') =
    total_tokens (chatGPT p) +
    sum_Z (match o with Some u => u :: us | None => us end) /\
  current_tokens (chatGPT p') =
    default (current_tokens (chatGPT p))
      (last (match o with Some u => u :: us | None => us end)).
Proof.
  unfold counters. intros Hc Ht Hcur. destruct o as [u |]; injection Hc as H1 H2.
  - rewrite Ht, Hcur, H1, H2. split; [unfold sum_Z; cbn; lia |].
    destruct us as [| u0 us]; [reflexivity |].
    change (last (u :: u0 :: us)) with (last (u0 :: us)).
    destruct (last (u0 :: us)) eqn:E; [reflexivity |].
    apply last_None in E. discriminate E.
  - rewrite Ht, Hcur, H1, H2. split; reflexivity.
Qed.

(** The loop ends at the turn [k] and the counters have taken the usages
    of the turns played. *)
Lemma while_true_counters (ws : list World) (p p' : Process) (r : outcome unit) :
  while_true ws p = (Some r, p') ->
  exists k : nat,
    (1 <= k <= length ws)%nat /\
    while_true (take k ws) p = (Some r, p') /\
    (forall j : nat, (j < k)%nat -> fst (while_true (take j ws) p) = None) /\
    total_tokens (chatGPT p') =
      total_tokens (chatGPT p) + sum_Z (usages (take k ws)) /\
    current_tokens (chatGPT p') =
      default (current_tokens (chatGPT p)) (last (usages (take k ws))).
Proof.
  revert p. induction ws as [| w ws IH]; intros p H; [discriminate H |].
  cbn [while_true] in H.
  pose proof (loop_body_counters w p) as Hc.
  destruct (loop_body w p) as [[[] | e] p1] eqn:Hbody; cbn [snd] in Hc.
  - destruct (IH p1 H) as (k & Hk & Hrun & Hbefore & Ht & Hcur).
    exists (S k). cbn [take length while_true]. rewrite Hbody.
    split; [lia |]. split; [exact Hrun |]. split.
    + intros [| j] Hj; [reflexivity |].
      cbn [take while_true]. rewrite Hbody. apply Hbefore. lia.
    + rewrite usages_cons. exact (counters_step p p1 p' _ _ Hc Ht Hcur).
  - injection H as <- <-.
    exists 1%nat. cbn [take length while_true]. rewrite Hbody.
    split; [lia |]. split; [reflexivity |]. split.
    + intros j Hj. assert (j = 0%nat) as -> by lia. reflexivity.
    + rewrite take_0, usages_cons.
      apply (counters_step p p1 p1 _ []); [exact Hc | cbn; lia | reflexivity].
  - injection H as <- <-.
    exists 1%nat. cbn [take length while_true]. rewrite Hbody.
    split; [lia |]. split; [reflexivity |]. split.
    + intros j Hj. assert (j = 0%nat) as -> by lia. reflexivity.
    + rewrite take_0, usages_cons.
      apply (counters_step p p1 p1 _ []); [exact Hc | cbn; lia | reflexivity].
Qed.

(** X21. When the loop ends, at its turn [k] and not before, the total
    that [main] logs is the total at the start of the loop plus the usages
    that the responses of these [k] turns carried, whatever else happened
    in them, and the last of these usages is the current count. When the
    loop ends without an exception the total is also printed on the
    console; when an exception ends it, the total is logged by the
    [finally] clause and not printed. *)
Theorem main_reports_total (ws : list World) (p p' : Process) (r : outcome unit) :
  main_loop ws p = (Some r, p') ->
  exists (k : nat) (p1 : Process),
    (1 <= k <= length ws)%nat /\
    while_true (take k ws) p = (Some r, p1) /\
    (forall j : nat, (j < k)%nat -> fst (while_true (take j ws) p) = None) /\
    total_tokens (chatGPT p') =
      total_tokens (chatGPT p) + sum_Z (usages (take k ws)) /\
    current_tokens (chatGPT p') =
      default (current_tokens (chatGPT p)) (last (usages (take k ws))) /\
    output p' =
      output p1 ++
      LogInfo ("Total tokens used: " +:+
               Num.str_of_Z (total_tokens (chatGPT p) + sum_Z (usages (take k ws)))) ::
      match r with
      | Returns _ =>
          [ConsolePrint ("[bright_magenta]Total tokens used: [bold]" +:+
                         Num.str_of_Z (total_tokens (chatGPT p) +
                                       sum_Z (usages (take k ws))))]
      | Raises _ => []
      end.
Proof.
  unfold main_loop, total_report.
  destruct (while_true ws p) as [[r1 |] p1] eqn:Hrun; [| discriminate].
  destruct (while_true_counters ws p p1 r1 Hrun) as (k & Hk & Htake & Hbefore & Ht & Hc).
  intros H. exists k, p1.
  destruct r1 as [[] | e]; injection H as <- <-; cbn;
    rewrite <- Ht, <- ?app_assoc; repeat split; try assumption; try lia.
Qed.

Lemma main_reports_total_witness :
  exists (k : nat) (p1 : Process),
    (1 <= k <= 3)%nat /\
    total_tokens
      (chatGPT (snd (main_loop [Sample.world (Sample.ok 15 "4") "2+2?";
                                Sample.world (Sample.bad_request "overloaded") "and 3+3?";
                                Sample.world (Sample.ok 7 "bye") "Bye"]
                       Sample.start))) =
    total_tokens (chatGPT Sample.start) +
    sum_Z (usages (take k [Sample.world (Sample.ok 15 "4") "2+2?";
                           Sample.world (Sample.bad_request "overloaded") "and 3+3?";
                           Sample.world (Sample.ok 7 "bye") "Bye"])).
Proof.
  assert (H : main_loop [Sample.world (Sample.ok 15 "4") "2+2?";
                         Sample.world (Sample.bad_request "overloaded") "and 3+3?";
                         Sample.world (Sample.ok 7 "bye") "Bye"]
                Sample.start =
              (Some (Returns tt),
               snd (main_loop [Sample.world (Sample.ok 15 "4") "2+2?";
                               Sample.world (Sample.bad_request "overloaded") "and 3+3?";
                               Sample.world (Sample.ok 7 "bye") "Bye"]
                      Sample.start)))
    by (vm_compute; reflexivity).
  destruct (main_reports_total _ _ _ _ H) as (k & p1 & Hk & _ & _ & Ht & _).
  exists k, p1. split; [exact Hk | exact Ht].
Defined.

(** ** The first message stays first while the loop goes on *)

Ltac try_paths :=
  repeat match goal with
         | |- context [if ?b then _ else _] => destruct b eqn:?; cbn
         | |- context [match requests_post ?x with _ => _ end] =>
             destruct (requests_post x); cbn
         | |- context [match response_json ?x with _ => _ end] =>
             destruct (response_json x); cbn
         | |- context [match error_message ?x with _ => _ end] =>
             destruct (error_message x); cbn
         | |- context [match last ?l with _ => _ end] => destruct (last l) eqn:?; cbn
         | |- context [match Rich.render ?l ?t with _ => _ end] =>
             destruct (Rich.render l t); cbn
         end.

Lemma removelast_of_last (l : list Turn) (x : Turn) :
  last l = Some x -> l = removelast l ++ [x].
Proof.
  intros H. apply last_Some in H as [l' ->]. rewrite removelast_last. reflexivity.
Qed.

(** The messages after the [try] block of [send]: one message less when
    the block returns [None] or when a notice did not render, the same
    messages otherwise. *)
Lemma send_try_messages (w : World) (p : Process) :
  match fst (send_try w p) with
  | Returns (inl _) =>
      exists x : Turn,
        messages (chatGPT p) = messages (chatGPT (snd (send_try w p))) ++ [x]
  | Returns (inr _) => snd (send_try w p) = p
  | Raises e => snd (send_try w p) = p \/ exists m : string, e = MarkupError m
  end.
Proof.
  destruct p as [[msgs tot cur] st fs out].
  unfold send_try, raise_for_status, messages_pop, set_messages. unfold_monad. cbn.
  try_paths; eauto using removelast_of_last.
Qed.

(** The messages after a handler of [send] that returns or raises
    [KeyboardInterrupt] again: one message less, and the exception handled
    was not a [MarkupError]. *)
Lemma send_except_messages (timeout_ : Num.pynum) (e : exn) (w : World)
    (p : Process) :
  match fst (send_except timeout_ e w p) with
  | Returns _ =>
      (forall m : string, e <> MarkupError m) /\
      exists x : Turn,
        messages (chatGPT p) =
        messages (chatGPT (snd (send_except timeout_ e w p))) ++ [x]
  | Raises e' =>
      is_KeyboardInterrupt e' = true ->
      (forall m : string, e <> MarkupError m) /\
      exists x : Turn,
        messages (chatGPT p) =
        messages (chatGPT (snd (send_except timeout_ e w p))) ++ [x]
  end.
Proof.
  destruct p as [[msgs tot cur] st fs out].
  unfold send_except, save_chat_history, write_file, messages_pop, set_messages.
  unfold_monad. cbn.
  try_paths; try discriminate; try (intros Hk; congruence);
    try (intros _);
    (split; [intros m ->; discriminate | eauto using removelast_of_last]).
Qed.

Lemma send_finish_messages (r : response) (w : World) (p : Process) :
  exists added : list Turn,
    messages (chatGPT (snd (send_finish r w p))) = messages (chatGPT p) ++ added.
Proof.
  destruct p as [[msgs tot cur] st fs out].
  unfold send_finish, messages_append, set_messages. unfold_monad. cbn.
  destruct (response_json r) as [b |]; cbn; [| exists []; apply (eq_sym (app_nil_r _))].
  destruct (usage_total_tokens b); cbn; [| exists []; apply (eq_sym (app_nil_r _))].
  destruct (choices_0_message b); cbn; eexists;
    [reflexivity | apply (eq_sym (app_nil_r _))].
Qed.

(** When [send] returns, or raises [KeyboardInterrupt], the messages it
    found are still there, in order, at the head of the transcript. *)
Lemma send_keeps_messages (message : string) (timeout_ : Num.pynum) (w : World)
    (p : Process) :
  match fst (send message timeout_ w p) with
  | Returns _ =>
      exists added : list Turn,
        messages (chatGPT (snd (send message timeout_ w p))) =
        messages (chatGPT p) ++ added
  | Raises e =>
      is_KeyboardInterrupt e = true ->
      exists added : list Turn,
        messages (chatGPT (snd (send message timeout_ w p))) =
        messages (chatGPT p) ++ added
  end.
Proof.
  set (p1 := {| chatGPT := set_messages
                             (messages (chatGPT p) ++
                              [{| role := "user"; content := message |}])
                             (chatGPT p);
                chat_settings := chat_settings p; files := files p;
                output := output p |}).
  assert (Hp1 : messages (chatGPT p1) =
                messages (chatGPT p) ++ [{| role := "user"; content := message |}])
    by reflexivity.
  assert (Hsend : send message timeout_ w p =
                  match send_try w p1 with
                  | (Returns (inl v), p2) => (Returns v, p2)
                  | (Returns (inr r), p2) => send_finish r w p2
                  | (Raises e, p2) =>
                      match send_except timeout_ e w p2 with
                      | (Returns (inl v), p3) => (Returns v, p3)
                      | (Returns (inr r), p3) => send_finish r w p3
                      | (Raises e', p3) => (Raises e', p3)
                      end
                  end).
  { unfold send, bind, try_except.
    change (messages_append {| role := "user"; content := message |} w p)
      with (Returns tt, p1).
    cbv beta iota.
    destruct (send_try w p1) as [[[v | r] | e] p2]; try reflexivity.
    destruct (send_except timeout_ e w p2) as [[[v | r] | e'] p3]; reflexivity. }
  rewrite Hsend. clear Hsend.
  pose proof (send_try_messages w p1) as Htry.
  destruct (send_try w p1) as [[[v | r] | e] p2]; cbn [fst snd] in Htry |- *.
  - destruct Htry as [x Hx]. rewrite Hp1 in Hx.
    apply app_inj_tail in Hx as [Hx _]. exists []. rewrite app_nil_r. auto.
  - subst p2. destruct (send_finish_messages r w p1) as [added Hadded].
    rewrite Hp1, <- app_assoc in Hadded.
    destruct (send_finish r w p1) as [[v | e] p3]; cbn in *; eauto.
  - pose proof (send_except_messages timeout_ e w p2) as Hexcept.
    pose proof (send_except_outcome timeout_ e w p2) as Hno.
    assert (Hcase : (forall m : string, e <> MarkupError m) /\
                    (exists x : Turn,
                        messages (chatGPT p2) =
                        messages (chatGPT (snd (send_except timeout_ e w p2))) ++ [x]) ->
                    exists added : list Turn,
                      messages (chatGPT (snd (send_except timeout_ e w p2))) =
                      messages (chatGPT p) ++ added).
    { intros [Hnot [x Hx]]. destruct Htry as [-> | [m ->]]; [| destruct (Hnot m eq_refl)].
      rewrite Hp1 in Hx. apply app_inj_tail in Hx as [Hx _].
      exists []. rewrite app_nil_r. auto. }
    destruct (send_except timeout_ e w p2) as [[[v | r] | e'] p3]; cbn [fst snd] in *.
    + apply Hcase, Hexcept.
    + exfalso. exact (Hno r eq_refl).
    + intros Hk. apply Hcase, Hexcept, Hk.
Qed.

Lemma first_stays_refl (p : Process) : first_stays p p.
Proof. intros t rest H. exists t, rest. split; [exact H | reflexivity]. Qed.

Lemma first_stays_trans (p q r : Process) :
  first_stays p q -> first_stays q r -> first_stays p r.
Proof.
  intros Hpq Hqr t rest H.
  destruct (Hpq t rest H) as (t1 & rest1 & H1 & E1).
  destruct (Hqr t1 rest1 H1) as (t2 & rest2 & H2 & E2).
  exists t2, rest2. split; [exact H2 | congruence].
Qed.

Lemma first_stays_output : ignores_output first_stays.
Proof. intros p out t rest H. exists t, rest. split; [exact H | reflexivity]. Qed.

Lemma same_chatGPT_first_stays (p p' : Process) :
  same_chatGPT p p' -> first_stays p p'.
Proof.
  unfold same_chatGPT. intros E t rest H. exists t, rest. rewrite E.
  split; [exact H | reflexivity].
Qed.

Lemma first_stays_app (p p' : Process) (added : list Turn) :
  messages (chatGPT p') = messages (chatGPT p) ++ added -> first_stays p p'.
Proof.
  intros E t rest H. rewrite H in E. exists t, (rest ++ added).
  split; [exact E | reflexivity].
Qed.

Lemma first_stays_system (p p' : Process) :
  first_stays p p' -> system_first p -> system_first p'.
Proof.
  intros H (c & rest & Hm). destruct (H _ _ Hm) as ([r c'] & rest' & Hm' & E).
  cbn in E. subst r. exists c', rest'. exact Hm'.
Qed.

Ltac keeps_first :=
  keeps_with first_stays_refl first_stays_trans first_stays_output.

Lemma last_two (l : list Turn) :
  (2 < length l)%nat ->
  exists (l' : list Turn) (q a : Turn), l = l' ++ [q; a] /\ l' <> [].
Proof.
  intros H.
  destruct l as [| a l _] using rev_ind; [cbn in H; lia |].
  destruct l as [| q l _] using rev_ind; [cbn in H; lia |].
  exists l, q, a. split; [rewrite <- app_assoc; reflexivity |].
  intros ->. cbn in H. lia.
Qed.

Lemma undo_branch_first : preserves first_stays undo_branch.
Proof.
  intros w p. destruct (undo_branch_spec w p) as [Hremove Hkeep].
  destruct (Nat.le_gt_cases (length (messages (chatGPT p))) 2) as [Hlen | Hlen].
  - rewrite (Hkeep Hlen). apply first_stays_output.
  - destruct (last_two _ Hlen) as (l & q & a & E & Hl).
    rewrite (Hremove l q a E Hl).
    intros t rest Hm. rewrite Hm in E.
    destruct l as [| s l]; [contradiction |].
    injection E as <- _.
    destruct (Rich.render _ _); exists t, l; split; reflexivity.
Qed.

Lemma modify_system_prompt_first (new_content : string) :
  preserves first_stays (modify_system_prompt new_content).
Proof.
  intros w p t rest Hm. destruct p as [[msgs tot cur] st fs out].
  cbn in Hm. subst msgs.
  unfold modify_system_prompt, messages_first, set_messages. unfold_monad. cbn.
  destruct (Text.eqb (role t) "system"); cbn.
  - destruct (Rich.render _ _); cbn; [eexists; eexists; split; reflexivity |].
    destruct (1 <? S (length rest))%nat; cbn;
      try destruct (Rich.render _ _); eexists; eexists; split; reflexivity.
  - destruct (Rich.render _ _); eexists; eexists; split; reflexivity.
Qed.

(** No command removes the first message or changes its role, however the
    command ends. *)
Lemma handle_command_first (command : string) :
  preserves first_stays (handle_command command).
Proof.
  unfold handle_command, system_branch, timeout_branch, toggle_raw_mode,
    toggle_multi_line_mode, set_timeout, print_message, save_filename,
    system_new_content, timeout_new_timeout, save_chat_history, write_file,
    messages_last.
  keeps_first;
    try first [apply undo_branch_first | apply modify_system_prompt_first];
    intros w p; apply same_chatGPT_first_stays; revert w p; by_definition.
Qed.

Lemma print_message_chatGPT (t : Turn) : preserves same_chatGPT (print_message t).
Proof. unfold print_message. keeps_chatGPT; by_definition. Qed.

(** A turn after which the loop goes on leaves the first message in place,
    with its role. *)
Lemma loop_body_first (w : World) (p p' : Process) :
  loop_body w p = (Returns Continue, p') -> first_stays p p'.
Proof.
  assert (Hhandler : forall (e : exn) (p0 : Process),
             (if is_KeyboardInterrupt e then ret Continue
              else if is_EOFError e then console_print "Exiting..." ;; ret Break
              else raise e) w p0 = (Returns Continue, p') ->
             is_KeyboardInterrupt e = true /\ p' = p0).
  { intros e p0. destruct (is_KeyboardInterrupt e).
    - intros [= <-]. split; reflexivity.
    - destruct (is_EOFError e); unfold_monad; render_fixed; cbn; discriminate. }
  intros H. unfold loop_body, try_except in H. unfold bind at 1, perform in H.
  destruct (session_prompt w) as [line | e].
  2: { destruct (Hhandler e p H) as [_ ->]. apply first_stays_refl. }
  unfold bind at 1, ask in H.
  destruct (Text.startswith line "/").
  - unfold bind at 1 in H.
    pose proof (handle_command_first
                  (Py.lower (python w) (Py.strip (python w) line)) w p) as Hc.
    destruct (handle_command _ w p) as [[[] | e] p1]; cbn [fst snd] in Hc.
    + injection H as <-. exact Hc.
    + destruct (Hhandler e p1 H) as [_ ->]. exact Hc.
  - destruct line as [| a m]; [injection H as <-; apply first_stays_refl |].
    unfold bind at 1 in H. unfold log_info at 1, emit at 1 in H.
    unfold bind at 1, get in H. unfold bind at 1 in H.
    cbn [chat_settings] in H.
    set (p0 := {| chatGPT := chatGPT p; chat_settings := chat_settings p;
                  files := files p;
                  output := output p ++ [LogInfo ("> " +:+ String a m)] |}) in H.
    pose proof (send_keeps_messages (String a m) (timeout (chat_settings p)) w p0) as Hs.
    change (messages (chatGPT p0)) with (messages (chatGPT p)) in Hs.
    destruct (send (String a m) (timeout (chat_settings p)) w p0) as [[r | e] p1];
      cbn [fst snd] in Hs.
    + destruct Hs as [added Hs]. apply first_stays_app in Hs.
      assert (Hrest : preserves same_chatGPT
                        (match r with
                         | Some r0 =>
                             log_info ("ChatGPT: " +:+ content r0) ;; print_message r0
                         | None => ret tt
                         end ;;
                         if Text.mem (Py.lower (python w) (String a m)) farewells
                         then ret Break else ret Continue)).
      { keeps_chatGPT. apply print_message_chatGPT. }
      specialize (Hrest w p1). apply same_chatGPT_first_stays in Hrest.
      destruct ((_ ;; _) w p1) as [[c | e] p2]; cbn [fst snd] in Hrest.
      * injection H as _ <-. exact (first_stays_trans _ _ _ Hs Hrest).
      * destruct (Hhandler e p2 H) as [_ ->]. exact (first_stays_trans _ _ _ Hs Hrest).
    + destruct (Hhandler e p1 H) as [Hk ->].
      destruct (Hs Hk) as [added E]. exact (first_stays_app _ _ _ E).
Qed.

Lemma while_true_first (ws : list World) (p p' : Process) :
  while_true ws p = (None, p') -> first_stays p p'.
Proof.
  revert p. induction ws as [| w ws IH]; intros p H.
  - injection H as <-. apply first_stays_refl.
  - cbn [while_true] in H.
    destruct (loop_body w p) as [[[] | e] p1] eqn:E; try discriminate.
    exact (first_stays_trans _ _ _ (loop_body_first w p p1 E) (IH p1 H)).
Qed.

(** X20. As long as the loop goes on, that is after any number of turns
    none of which ended it, the transcript keeps its first message, with
    the role it had: a transcript that held a message still holds one, and
    a transcript that began with a message of role [system], as the one of
    a new session does, still begins with one; so [modify_system_prompt]
    then installs the new text at index 0, and its [No system prompt
    found] branch is not taken. *)
Theorem system_prompt_stays_first (ws : list World) (p p' : Process)
    (new_content : string) (w : World) :
  while_true ws p = (None, p') ->
  (forall (t : Turn) (rest : list Turn),
      messages (chatGPT p) = t :: rest ->
      exists (t' : Turn) (rest' : list Turn),
        messages (chatGPT p') = t' :: rest' /\ role t' = role t) /\
  (messages (chatGPT p) <> [] -> messages (chatGPT p') <> []) /\
  (system_first p ->
   system_first p' /\
   exists rest : list Turn,
     messages (chatGPT (snd (modify_system_prompt new_content w p'))) =
     {| role := "system"; content := new_content |} :: rest).
Proof.
  intros Hloop. pose proof (while_true_first ws p p' Hloop) as Hfirst.
  split; [exact Hfirst |]. split.
  - intros Hne. destruct (messages (chatGPT p)) as [| t rest] eqn:Hm;
      [contradiction |].
    destruct (Hfirst t rest Hm) as (t' & rest' & -> & _). discriminate.
  - intros Hsys. pose proof (first_stays_system p p' Hfirst Hsys) as H'.
    split; [exact H' |].
    destruct H' as (c & rest & Hm). destruct p' as [[msgs tot cur] st fs out].
    cbn in Hm. subst msgs.
    unfold modify_system_prompt, messages_first, set_messages. unfold_monad. cbn.
    destruct (Rich.render _ _); cbn; [eexists; reflexivity |].
    destruct (1 <? S (length rest))%nat; cbn;
      try destruct (Rich.render _ _); eexists; reflexivity.
Qed.

Lemma system_prompt_stays_first_witness :
  system_first
    (snd (while_true [Sample.world (Sample.ok 15 "4") "2+2?";
                      Sample.world (Sample.bad_request "overloaded") "and 3+3?";
                      Sample.world (Sample.ok 0 EmptyString) "/undo"]
            Sample.start)) /\
  exists rest : list Turn,
    messages
      (chatGPT
         (snd (modify_system_prompt "Be brief."
                 (Sample.world (Sample.ok 0 EmptyString) "/system Be brief.")
                 (snd (while_true [Sample.world (Sample.ok 15 "4") "2+2?";
                                   Sample.world (Sample.bad_request "overloaded")
                                     "and 3+3?";
                                   Sample.world (Sample.ok 0 EmptyString) "/undo"]
                         Sample.start))))) =
    {| role := "system"; content := "Be brief." |} :: rest.
Proof.
  apply (system_prompt_stays_first
           [Sample.world (Sample.ok 15 "4") "2+2?";
            Sample.world (Sample.bad_request "overloaded") "and 3+3?";
            Sample.world (Sample.ok 0 EmptyString) "/undo"]
           Sample.start).
  - vm_compute. reflexivity.
  - exists "You are a helpful assistant.", []. reflexivity.
Defined.

(** ** What [send] leaves in place *)

Lemma send_settings (message : string) (timeout_ : Num.pynum) :
  preserves same_settings (send message timeout_).
Proof.
  unfold send, send_try, send_except, send_finish, raise_for_status,
    save_chat_history, write_file, messages_pop, messages_append.
  keeps_settings; by_definition.
Qed.

(** X19. However [send] ends, it leaves the settings unchanged; when it
    returns, with a reply or with [None], or is interrupted from the
    keyboard, the messages it found are still there, in order, at the head
    of the transcript. *)
Theorem send_frame (message : string) (timeout_ : Num.pynum) (w : World) (p : Process) :
  chat_settings (snd (send message timeout_ w p)) = chat_settings p /\
  ((forall e : exn, fst (send message timeout_ w p) = Raises e ->
                    is_KeyboardInterrupt e = true) ->
   exists added : list Turn,
     messages (chatGPT (snd (send message timeout_ w p))) =
     messages (chatGPT p) ++ added).
Proof.
  split; [exact (send_settings message timeout_ w p) |].
  intros Hends. pose proof (send_keeps_messages message timeout_ w p) as H.
  destruct (fst (send message timeout_ w p)) as [r | e]; [exact H |].
  exact (H (Hends e eq_refl)).
Qed.

Lemma send_frame_witness :
  exists added : list Turn,
    messages (chatGPT (snd (send "and 3+3?" (Num.PyInt 20)
                              (Sample.world (Sample.bad_request "overloaded") "and 3+3?")
                              Sample.after_first))) =
    messages (chatGPT Sample.after_first) ++ added.
Proof.
  apply (proj2 (send_frame "and 3+3?" (Num.PyInt 20)
                  (Sample.world (Sample.bad_request "overloaded") "and 3+3?")
                  Sample.after_first)).
  intros e H. vm_compute in H. discriminate H.
Defined.
